(** * Visual-regression comparison suite: a shallow embedding

    The development follows [test_visual_comparison.py]: the raster differ
    [VisualTester.compare_screenshots], the style and geometry extractors,
    the viewport catalogue with its parametrisation filters, and the test
    bodies with their [try ... finally] blocks.

    Python integers are [Z], loop indices and image dimensions are [nat],
    Python floats are IEEE binary64 values ([spec_float] at precision 53,
    maximal exponent 1024), exceptions are an explicit sum. *)

From Stdlib Require Import ZArith Lia Bool List String Ascii.
From Stdlib Require Import Floats.SpecFloat.
From stdpp Require Import base option list gmap strings pretty.

Local Open Scope Z_scope.

(** ** Exceptions and results *)

Inductive exn : Type :=
  | IndexError
  | ZeroDivisionError
  | OverflowError
  | TypeError
  | ValueError
  | AssertionError (msg : string)
  | FileNotFoundError (path : string)
  | UnidentifiedImageError (path : string)
  | OSError (path : string)
  | PlaywrightError (msg : string).

Inductive result (A : Type) : Type :=
  | Ok (a : A)
  | Raise (e : exn).
Arguments Ok {A} a.
Arguments Raise {A} e.

#[global] Instance result_ret : MRet result := fun _ a => Ok a.
#[global] Instance result_bind : MBind result := fun _ _ f r =>
  match r with Ok a => f a | Raise e => Raise e end.

(** ** Python floats *)

Module PyFloat.

Definition prec : Z := 53.
Definition emax : Z := 1024.

Definition float : Type := spec_float.

Definition zero : float := S754_zero false.

(** [float(n)] for a literal or a small integer: the nearest binary64. *)
Definition of_int (n : Z) : float := binary_normalize prec emax n 0 false.

Definition one : float := Eval vm_compute in of_int 1.
Definition f100 : float := Eval vm_compute in of_int 100.
Definition f95 : float := Eval vm_compute in of_int 95.
Definition f2 : float := Eval vm_compute in of_int 2.

Definition mul (x y : float) : float := SFmul prec emax x y.
Definition sub (x y : float) : float := SFsub prec emax x y.
Definition abs (x : float) : float := SFabs x.

(** [x <= y], [x < y], [x >= y] on floats; all false on NaN. *)
Definition leb (x y : float) : bool := SFleb x y.
Definition ltb (x y : float) : bool := SFltb x y.
Definition geb (x y : float) : bool := SFleb y x.

(** [a / b] on two Python ints: ZeroDivisionError on a zero divisor,
    otherwise the correctly rounded quotient (round to nearest, ties to
    even), with OverflowError when that is not a finite float. *)
Definition int_true_divide (a b : Z) : result float :=
  if b =? 0 then Raise ZeroDivisionError
  else
    let s := xorb (a <? 0) (b <? 0) in
    if a =? 0 then Ok (S754_zero s)
    else
      let '(q, e, l) :=
        SFdiv_core_binary prec emax (Z.abs a) 0 (Z.abs b) 0 in
      match binary_round_aux prec emax s q e l with
      | S754_infinity _ | S754_nan => Raise OverflowError
      | x => Ok x
      end.

End PyFloat.

(** ** Raster images

    An RGB image as PIL holds it after [convert('RGB')]: a size and a
    row-major buffer of channel triples. *)

Definition pixel : Type := Z * Z * Z.

Record Image : Type := mkImage {
  img_width : nat;
  img_height : nat;
  img_data : list pixel
}.

Definition size (im : Image) : nat * nat := (img_width im, img_height im).

Definition area (sz : nat * nat) : nat := (sz.1 * sz.2)%nat.

(** The buffer holds exactly width * height pixels. *)
Definition valid_image (im : Image) : Prop :=
  length (img_data im) = area (size im).

#[global] Instance valid_image_dec im : Decision (valid_image im).
Proof. unfold valid_image. apply _. Defined.

(** [Image.new('RGB', size)]: a black image. *)
Definition Image_new (sz : nat * nat) : Image :=
  mkImage sz.1 sz.2 (replicate (area sz) (0, 0, 0)).

Definition offset (im : Image) (x y : nat) : nat := (y * img_width im + x)%nat.

Definition in_bounds (im : Image) (x y : nat) : bool :=
  (x <? img_width im)%nat && (y <? img_height im)%nat.

(** [pixels[x, y]] on a loaded image; IndexError outside the image. *)
Definition getpixel (im : Image) (x y : nat) : result pixel :=
  if in_bounds im x y then
    match img_data im !! offset im x y with
    | Some p => Ok p
    | None => Raise IndexError
    end
  else Raise IndexError.

(** [pixels[x, y] = p]. *)
Definition putpixel (im : Image) (x y : nat) (p : pixel) : result Image :=
  if in_bounds im x y then
    Ok (mkImage (img_width im) (img_height im)
          (<[offset im x y := p]> (img_data im)))
  else Raise IndexError.

Inductive Resampling : Type :=
  NEAREST | BOX | BILINEAR | HAMMING | BICUBIC | LANCZOS.

(** ** The pixel scan of [compare_screenshots] *)

(** [sum(abs(r - t) for r, t in zip(ref_pixel, target_pixel))] *)
Definition pixel_diff (ref_pixel target_pixel : pixel) : Z :=
  let '(r1, g1, b1) := ref_pixel in
  let '(r2, g2, b2) := target_pixel in
  0 + Z.abs (r1 - r2) + Z.abs (g1 - g2) + Z.abs (b1 - b2).

(** [sum(target_pixel)] *)
Definition pixel_sum (p : pixel) : Z :=
  let '(r, g, b) := p in 0 + r + g + b.

Definition threshold : Z := 30.
Definition red : pixel := (255, 0, 0).

(** The three locals the loops update: the counter, the running maximum
    and the difference image written through [diff_pixels]. *)
Record scan : Type := mkScan {
  scan_different : Z;
  scan_max_diff : Z;
  scan_img : Image
}.

(** [for a in l: s = body(a, s)], stopping at the first exception. *)
Fixpoint for_each {A S : Type} (body : A -> S -> result S)
    (l : list A) (s : S) : result S :=
  match l with
  | [] => Ok s
  | a :: l' =>
      match body a s with
      | Ok s' => for_each body l' s'
      | Raise e => Raise e
      end
  end.

Definition range (n : nat) : list nat := seq 0 n.

(** The body of the inner loop at column [x] of row [y]. *)
Definition compare_pixel (ref_img target_img : Image) (y x : nat)
    (st : scan) : result scan :=
  ref_pixel ← getpixel ref_img x y;
  target_pixel ← getpixel target_img x y;
  let diff := pixel_diff ref_pixel target_pixel in
  let max_diff := Z.max (scan_max_diff st) diff in
  if threshold <? diff then
    img ← putpixel (scan_img st) x y red;
    mret (mkScan (scan_different st + 1) max_diff img)
  else
    let gray := pixel_sum target_pixel `div` 3 in
    img ← putpixel (scan_img st) x y (gray, gray, gray);
    mret (mkScan (scan_different st) max_diff img).

Definition compare_row (ref_img target_img : Image) (y : nat)
    (st : scan) : result scan :=
  for_each (compare_pixel ref_img target_img y)
    (range (img_width ref_img)) st.

Definition compare_pixels (ref_img target_img : Image) : result scan :=
  for_each (compare_row ref_img target_img)
    (range (img_height ref_img))
    (mkScan 0 0 (Image_new (size ref_img))).

(** The dictionary [compare_screenshots] returns. *)
Record DiffResult : Type := mkDiffResult {
  total_pixels : Z;
  different_pixels : Z;
  similarity_percentage : PyFloat.float;
  max_difference : Z;
  passed : bool
}.

(** [((total_pixels - different_pixels) / total_pixels) * 100] *)
Definition similarity (total different : Z) : result PyFloat.float :=
  q ← PyFloat.int_true_divide (total - different) total;
  mret (PyFloat.mul q PyFloat.f100).

(** *** The scan, as the specification words it

    A pixel pair is different when the sum of its absolute channel
    differences exceeds the threshold; a different pixel is shown pure red,
    any other as the gray level of the candidate pixel. *)

Definition differs (rt : pixel * pixel) : Prop :=
  threshold < pixel_diff rt.1 rt.2.

#[global] Instance differs_dec rt : Decision (differs rt).
Proof. unfold differs. apply _. Defined.

Definition visualize (ref_pixel target_pixel : pixel) : pixel :=
  if threshold <? pixel_diff ref_pixel target_pixel then red
  else
    let gray := pixel_sum target_pixel `div` 3 in
    (gray, gray, gray).

Definition running_max (m : Z) (rt : pixel * pixel) : Z :=
  Z.max m (pixel_diff rt.1 rt.2).

Definition scan_of (ref_img target_img : Image) : scan :=
  let pairs := zip (img_data ref_img) (img_data target_img) in
  mkScan (Z.of_nat (length (filter differs pairs)))
    (foldl running_max 0 pairs)
    (mkImage (img_width ref_img) (img_height ref_img)
       (zip_with visualize (img_data ref_img) (img_data target_img))).

(** The state of the loops after the first [n] pixels, in row-major
    order: the difference image has the reference's size and its first [n]
    pixels are final, the counter and the maximum cover those pixels. *)
Definition scanned (ref_img target_img : Image) (n : nat) (st : scan) : Prop :=
  img_width (scan_img st) = img_width ref_img /\
  img_height (scan_img st) = img_height ref_img /\
  length (img_data (scan_img st)) = (img_width ref_img * img_height ref_img)%nat /\
  (forall i, (i < n)%nat ->
     img_data (scan_img st) !! i
     = zip_with visualize (img_data ref_img) (img_data target_img) !! i) /\
  scan_different st
  = Z.of_nat (length (filter differs
                        (take n (zip (img_data ref_img) (img_data target_img))))) /\
  scan_max_diff st
  = foldl running_max 0 (take n (zip (img_data ref_img) (img_data target_img))).

(** ** Strings *)

(** [needle in s] *)
Fixpoint contains (needle s : string) : bool :=
  String.prefix needle s ||
  match s with
  | EmptyString => false
  | String _ s' => contains needle s'
  end.

(** [s.replace(old, new)], scanning left to right; [skip] counts the
    characters of a match that are still to be dropped. *)
Fixpoint replace_from (old new : string) (skip : nat) (s : string) : string :=
  match s with
  | EmptyString => EmptyString
  | String c s' =>
      match skip with
      | S k => replace_from old new k s'
      | O =>
          if String.prefix old s
          then new +:+ replace_from old new (String.length old - 1) s'
          else String c (replace_from old new 0 s')
      end
  end.

Fixpoint intersperse (new s : string) : string :=
  match s with
  | EmptyString => new
  | String c s' => new +:+ String c (intersperse new s')
  end.

Definition replace (old new s : string) : string :=
  match old with
  | EmptyString => intersperse new s
  | _ => replace_from old new 0 s
  end.

(** [a / b] on paths *)
Definition path_join (a b : string) : string := a +:+ "/" +:+ b.

(** ** The catalogue *)

Record viewport : Type := mkViewport { vp_width : Z; vp_height : Z }.

Definition REFERENCE_URL : string :=
  "file:///Users/bino/Downloads/us.sitesucker.mac.sitesucker/mdcattaneo.github.io".
Definition TARGET_URL : string := "http://localhost:4040".

Definition VIEWPORTS : list (string * viewport) :=
  [ ("mobile", mkViewport 375 667);
    ("tablet", mkViewport 768 1024);
    ("desktop", mkViewport 1440 900);
    ("wide", mkViewport 1920 1080) ]%string.

Definition TEST_PAGES : list string :=
  [ "index.html"; "publications/index.html"; "research/index.html";
    "software/index.html"; "students/index.html"; "teaching/index.html";
    "short-courses/index.html"; "talks/index.html"; "service/index.html" ]%string.

Definition OUTPUT_DIR : string := "/Users/bino/Downloads/cattaneo/test_results".

(** The argument lists of the two viewport-gated tests:
    [[(k, v) for k, v in VIEWPORTS.items() if v["width"] >= 992]] and the
    same with 640. *)
Definition fixed_position_params : list (string * viewport) :=
  filter (fun kv => 992 <= vp_width kv.2) VIEWPORTS.

Definition two_column_params : list (string * viewport) :=
  filter (fun kv => 640 <= vp_width kv.2) VIEWPORTS.

(** ** Rendered documents *)

(** The object the script of [get_computed_styles] returns. *)
Module Style.
Record t : Type := mk {
  fontFamily : string;
  fontSize : string;
  fontWeight : string;
  color : string;
  backgroundColor : string;
  display : string;
  position : string;
  width : string;
  height : string;
  marginTop : string;
  marginBottom : string;
  paddingTop : string;
  paddingBottom : string;
  textAlign : string
}.
End Style.

(** The object the script of [get_element_position] returns. *)
Module Rect.
Record t : Type := mk {
  x : PyFloat.float;
  y : PyFloat.float;
  width : PyFloat.float;
  height : PyFloat.float;
  top : PyFloat.float;
  left : PyFloat.float;
  right : PyFloat.float;
  bottom : PyFloat.float
}.
End Rect.

(** What the scripts and locators read of an element. *)
Record element : Type := mkElement {
  getComputedStyle : Style.t;
  getBoundingClientRect : Rect.t;
  is_visible : bool
}.

(** A loaded page: the elements a selector matches, in document order, and
    the full-page capture. *)
Record document : Type := mkDocument {
  querySelectorAll : string -> list element;
  full_page : Image
}.

Definition querySelector (d : document) (selector : string) : option element :=
  head (querySelectorAll d selector).

(** ** The world the tests run in *)

Record page_state : Type := mkPage {
  page_viewport : option viewport;
  page_document : document;
  page_closed : bool
}.

Inductive file : Type :=
  | Directory
  | ImageFile (im : Image)
  | ResultFile (r : DiffResult)
  | OtherFile.

Record world : Type := mkWorld {
  fs : gmap string file;
  pages : list page_state;
  stdout : list string
}.

(** Calls into the rendering provider, which may fail on its own. *)
Inductive call : Type :=
  | NewPage (page : nat)
  | Goto (page : nat) (url : string)
  | WaitForLoadState (page : nat)
  | Screenshot (page : nat) (path : string)
  | Close (page : nat).

(** The rendering provider: what a URL renders to at a viewport, and which
    calls raise. *)
Record provider : Type := mkProvider {
  render : string -> option viewport -> document;
  fault : call -> option exn
}.

(** Handles acquired and not released. *)
Definition leaked (w : world) : list nat :=
  filter (fun i => page_closed <$> pages w !! i = Some false)
    (seq 0 (length (pages w))).

(** ** Stateful computations that may raise *)

Definition M (A : Type) : Type := world -> result A * world.

#[global] Instance M_ret : MRet M := fun _ a w => (Ok a, w).
#[global] Instance M_bind : MBind M := fun _ _ f m w =>
  match m w with
  | (Ok a, w') => f a w'
  | (Raise e, w') => (Raise e, w')
  end.

Definition raise {A} (e : exn) : M A := fun w => (Raise e, w).

Definition lift {A} (r : result A) : M A := fun w => (r, w).

(** [try: body finally: cleanup]: the cleanup runs on every exit of the
    body; an exception of the cleanup replaces the body's outcome. *)
Definition try_finally {A} (body : M A) (cleanup : M unit) : M A := fun w =>
  let '(r, w1) := body w in
  match cleanup w1 with
  | (Ok _, w2) => (r, w2)
  | (Raise e, w2) => (Raise e, w2)
  end.

(** [try: body except: handler], with a bare [except]. *)
Definition try_except {A} (body : M A) (handler : M A) : M A := fun w =>
  match body w with
  | (Ok a, w1) => (Ok a, w1)
  | (Raise _, w1) => handler w1
  end.

(** [assert cond, msg]: the message is evaluated only when [cond] fails. *)
Definition assert_ (cond : bool) (msg : result string) : M unit :=
  if cond then mret tt
  else match msg with
       | Ok m => raise (AssertionError m)
       | Raise e => raise e
       end.

(** [d[key]] on what an extractor returned: TypeError on [None]. *)
Definition subscript {D A} (d : option D) (key : D -> A) : result A :=
  match d with
  | Some v => Ok (key v)
  | None => Raise TypeError
  end.

(** Truth value of an extractor result: [None] is false, a snapshot (a
    non-empty dictionary) is true. *)
Definition truthy {D} (d : option D) : bool :=
  match d with Some _ => true | None => false end.

Definition print (line : string) : M unit := fun w =>
  (Ok tt, mkWorld (fs w) (pages w) (stdout w ++ [line])).

(** [w'] has the handles of [w], each as open or closed as in [w]. *)
Definition same_handles (w w' : world) : Prop :=
  length (pages w') = length (pages w)
  /\ forall i, page_closed <$> pages w' !! i = page_closed <$> pages w !! i.

(** A computation that neither acquires nor releases a handle, whatever
    its outcome. *)
Definition keeps_handles {A} (m : M A) : Prop :=
  forall w, same_handles w (m w).2.

Definition closed_message : string :=
  "Target page, context or browser has been closed".

(** The page behind a handle; Playwright raises on a closed one. *)
Definition live_page (page : nat) : M page_state := fun w =>
  match pages w !! page with
  | Some p =>
      if page_closed p then (Raise (PlaywrightError closed_message), w)
      else (Ok p, w)
  | None => (Raise (PlaywrightError closed_message), w)
  end.

Definition set_page (page : nat) (p : page_state) : M unit := fun w =>
  (Ok tt, mkWorld (fs w) (<[page := p]> (pages w)) (stdout w)).

Definition mark_closed (page : nat) : M unit := fun w =>
  match pages w !! page with
  | Some p =>
      (Ok tt,
       mkWorld (fs w)
         (<[page := mkPage (page_viewport p) (page_document p) true]> (pages w))
         (stdout w))
  | None => (Raise (PlaywrightError closed_message), w)
  end.

(** Writing a file; a directory cannot be overwritten. *)
Definition write_file (path : string) (f : file) : M unit := fun w =>
  match fs w !! path with
  | Some Directory => (Raise (OSError path), w)
  | _ => (Ok tt, mkWorld (<[path := f]> (fs w)) (pages w) (stdout w))
  end.

(** [path.mkdir(parents=True, exist_ok=True)]: an existing directory is
    accepted, any other file in its place is an error. *)
Definition mkdir (path : string) : M unit := fun w =>
  match fs w !! path with
  | Some Directory => (Ok tt, w)
  | Some _ => (Raise (OSError path), w)
  | None => (Ok tt, mkWorld (<[path := Directory]> (fs w)) (pages w) (stdout w))
  end.

(** An image, or a size, with at least one pixel. *)
Definition nonempty_size (sz : nat * nat) : bool :=
  (0 <? sz.1)%nat && (0 <? sz.2)%nat.

Definition nonempty (im : Image) : bool := nonempty_size (size im).

(** [Image.open(path).convert('RGB')]: an image file holds the RGB image
    it decodes to. PIL identifies no file whose header gives a width or a
    height of 0, so a file holding such an image is as unreadable as any
    other file that is not an image. *)
Definition Image_open (path : string) : M Image := fun w =>
  match fs w !! path with
  | Some (ImageFile im) =>
      if nonempty im then (Ok im, w)
      else (Raise (UnidentifiedImageError path), w)
  | Some Directory => (Raise (OSError path), w)
  | Some _ => (Raise (UnidentifiedImageError path), w)
  | None => (Raise (FileNotFoundError path), w)
  end.

(** [img.save(path)]: PIL opens the file for writing and then encodes the
    image; the encoder refuses an image without pixels with a ValueError,
    which leaves a file that existed truncated (no longer an image) and
    removes a file that PIL had created. *)
Definition Image_save (im : Image) (path : string) : M unit := fun w =>
  match fs w !! path with
  | Some Directory => (Raise (OSError path), w)
  | existing =>
      if nonempty im then
        (Ok tt, mkWorld (<[path := ImageFile im]> (fs w)) (pages w) (stdout w))
      else
        (Raise ValueError,
         match existing with
         | Some _ => mkWorld (<[path := OtherFile]> (fs w)) (pages w) (stdout w)
         | None => w
         end)
  end.

(** [json.dump(result, f, indent=2)] inside [with open(path, "w") as f] *)
Definition json_dump (r : DiffResult) (path : string) : M unit :=
  write_file path (ResultFile r).

(** The pixels of a [w] by [h] image whose value at column [x] of row [y]
    is [f x y], row by row. *)
Definition tabulate (sz : nat * nat) (f : nat -> nat -> pixel) : Image :=
  mkImage sz.1 sz.2
    (flat_map (fun y => map (fun x => f x y) (seq 0 sz.1)) (seq 0 sz.2)).

(** The comparison proper, on two images already in memory: what
    [compare_screenshots] does once both files are open and the sizes
    agree. *)
Definition compare_images (ref_img target_img : Image) (diff_path : string)
    : M DiffResult :=
  let total_pixels := Z.of_nat (size ref_img).1 * Z.of_nat (size ref_img).2 in
  st ← lift (compare_pixels ref_img target_img);
  _ ← Image_save (scan_img st) diff_path;
  similarity_percentage ← lift (similarity total_pixels (scan_different st));
  mret {| total_pixels := total_pixels;
          different_pixels := scan_different st;
          similarity_percentage := similarity_percentage;
          max_difference := scan_max_diff st;
          passed := PyFloat.geb similarity_percentage PyFloat.f95 |}.

(** The world once the difference image [d] is saved at [diff_path]. *)
Definition saved (w : world) (diff_path : string) (d : Image) : world :=
  mkWorld (<[diff_path := ImageFile d]> (fs w)) (pages w) (stdout w).

(** The dictionary returned for two images of one size whose similarity
    evaluated to [s]. *)
Definition result_of (ref_img target_img : Image) (s : PyFloat.float)
    : DiffResult :=
  let st := scan_of ref_img target_img in
  {| total_pixels := Z.of_nat (img_width ref_img) * Z.of_nat (img_height ref_img);
     different_pixels := scan_different st;
     similarity_percentage := s;
     max_difference := scan_max_diff st;
     passed := PyFloat.geb s PyFloat.f95 |}.

(** [@pytest.mark.parametrize]: one run of the test per argument pair, each
    with its own outcome; a failure does not stop the later runs. *)
Fixpoint run_parametrized (test : string -> viewport -> M unit)
    (params : list (string * viewport)) (w : world)
    : list (string * result unit) * world :=
  match params with
  | [] => ([], w)
  | (viewport_name, vp) :: rest =>
      let '(r, w1) := test viewport_name vp w in
      let '(rs, w2) := run_parametrized test rest w1 in
      ((viewport_name, r) :: rs, w2)
  end.

Section Suite.

(** PIL's resampling kernels: [resample im sz flt x y] is the value at
    [(x, y)] of [im] resampled to the size [sz] with the filter [flt]. *)
Variable resample : Image -> nat * nat -> Resampling -> nat -> nat -> pixel.

(** The rendering provider the session's browser talks to. *)
Variable P : provider.

(** Python's [float(s)] and [format(x, spec)]. *)
Variable py_float : string -> result PyFloat.float.
Variable py_format : string -> PyFloat.float -> string.

(** [img.resize(size, flt)]: an image of the requested size, whose pixels
    are the kernel's values on [im]; PIL refuses a size with a width or a
    height of 0 with a ValueError. *)
Definition resize (im : Image) (sz : nat * nat) (flt : Resampling)
    : result Image :=
  if nonempty_size sz then Ok (tabulate sz (resample im sz flt))
  else Raise ValueError.

(** The candidate as the comparison sees it when the reference has
    pixels: itself when it has the reference's size, and otherwise the
    image of the reference's size whose pixel at [(x, y)] is the LANCZOS
    kernel's value on the candidate. *)
Definition normalized (ref_img target_img : Image) : Image :=
  if bool_decide (size ref_img ≠ size target_img)
  then tabulate (size ref_img) (resample target_img (size ref_img) LANCZOS)
  else target_img.

(** *** VisualTester.compare_screenshots *)

Definition compare_screenshots (ref_path target_path diff_path : string)
    : M DiffResult :=
  ref_img ← Image_open ref_path;
  target_img ← Image_open target_path;
  target_img ← lift (if bool_decide (size ref_img ≠ size target_img)
                     then resize target_img (size ref_img) LANCZOS
                     else Ok target_img);
  let total_pixels := Z.of_nat (size ref_img).1 * Z.of_nat (size ref_img).2 in
  st ← lift (compare_pixels ref_img target_img);
  _ ← Image_save (scan_img st) diff_path;
  similarity_percentage ← lift (similarity total_pixels (scan_different st));
  mret {| total_pixels := total_pixels;
          different_pixels := scan_different st;
          similarity_percentage := similarity_percentage;
          max_difference := scan_max_diff st;
          passed := PyFloat.geb similarity_percentage PyFloat.f95 |}.

(** *** The provider's calls *)

Definition provider_call (c : call) : M unit := fun w =>
  match fault P c with
  | Some e => (Raise e, w)
  | None => (Ok tt, w)
  end.

(** [browser.new_page(viewport=vp)] *)
Definition new_page (vp : option viewport) : M nat := fun w =>
  let page := length (pages w) in
  match fault P (NewPage page) with
  | Some e => (Raise e, w)
  | None =>
      (Ok page,
       mkWorld (fs w)
         (pages w ++ [mkPage vp (render P "about:blank" vp) false])
         (stdout w))
  end.

(** [page.goto(url)] *)
Definition goto (page : nat) (url : string) : M unit :=
  _ ← provider_call (Goto page url);
  p ← live_page page;
  set_page page
    (mkPage (page_viewport p) (render P url (page_viewport p)) false).

(** [page.wait_for_load_state("networkidle")] *)
Definition wait_for_load_state (page : nat) : M unit :=
  _ ← provider_call (WaitForLoadState page);
  _ ← live_page page;
  mret tt.

(** [page.screenshot(path=path, full_page=True)] *)
Definition screenshot (page : nat) (path : string) : M unit :=
  _ ← provider_call (Screenshot page path);
  p ← live_page page;
  write_file path (ImageFile (full_page (page_document p))).

(** [page.close()]; closing twice is allowed. *)
Definition close (page : nat) : M unit :=
  _ ← provider_call (Close page);
  mark_closed page.

(** [page.locator(selector).count()] *)
Definition locator_count (page : nat) (selector : string) : M nat :=
  p ← live_page page;
  mret (length (querySelectorAll (page_document p) selector)).

(** *** The extractors of VisualTester *)

Definition get_computed_styles (page : nat) (selector : string)
    : M (option Style.t) :=
  p ← live_page page;
  mret
    match querySelector (page_document p) selector with
    | None => None
    | Some element =>
        let styles := getComputedStyle element in
        Some {| Style.fontFamily := Style.fontFamily styles;
                Style.fontSize := Style.fontSize styles;
                Style.fontWeight := Style.fontWeight styles;
                Style.color := Style.color styles;
                Style.backgroundColor := Style.backgroundColor styles;
                Style.display := Style.display styles;
                Style.position := Style.position styles;
                Style.width := Style.width styles;
                Style.height := Style.height styles;
                Style.marginTop := Style.marginTop styles;
                Style.marginBottom := Style.marginBottom styles;
                Style.paddingTop := Style.paddingTop styles;
                Style.paddingBottom := Style.paddingBottom styles;
                Style.textAlign := Style.textAlign styles |}
    end.

Definition get_element_position (page : nat) (selector : string)
    : M (option Rect.t) :=
  p ← live_page page;
  mret
    match querySelector (page_document p) selector with
    | None => None
    | Some element =>
        let rect := getBoundingClientRect element in
        Some {| Rect.x := Rect.x rect;
                Rect.y := Rect.y rect;
                Rect.width := Rect.width rect;
                Rect.height := Rect.height rect;
                Rect.top := Rect.top rect;
                Rect.left := Rect.left rect;
                Rect.right := Rect.right rect;
                Rect.bottom := Rect.bottom rect |}
    end.

(** [page.locator(selector).first.is_visible()] inside [try/except]. *)
Definition check_element_visible (page : nat) (selector : string) : M bool :=
  try_except
    (p ← live_page page;
     mret match head (querySelectorAll (page_document p) selector) with
          | Some element => is_visible element
          | None => false
          end)
    (mret false).


(** *** The tests *)

Definition index_url (base : string) : string := base +:+ "/index.html".

Definition dark_gray : string := "rgb(18, 18, 18)".

(** [d and f(d)] on an extractor result. *)
Definition and_then {D} (d : option D) (f : D -> bool) : bool :=
  match d with Some v => f v | None => false end.

(** TestHeaderLayout.test_header_exists *)
Definition test_header_exists (viewport_name : string) (vp : viewport)
    : M unit :=
  page_ref ← new_page (Some vp);
  page_target ← new_page (Some vp);
  try_finally
    (_ ← goto page_ref (index_url REFERENCE_URL);
     _ ← goto page_target (index_url TARGET_URL);
     n_ref ← locator_count page_ref "header";
     _ ← assert_ (0 <? n_ref)%nat (Ok "Reference site missing header"%string);
     n_target ← locator_count page_target "header";
     assert_ (0 <? n_target)%nat (Ok "Target site missing header"%string))
    (_ ← close page_ref;
     close page_target).

(** TestHeaderLayout.test_header_background_color *)
Definition test_header_background_color (viewport_name : string)
    (vp : viewport) : M unit :=
  page_ref ← new_page (Some vp);
  page_target ← new_page (Some vp);
  try_finally
    (_ ← goto page_ref (index_url REFERENCE_URL);
     _ ← goto page_target (index_url TARGET_URL);
     ref_styles ← get_computed_styles page_ref "header";
     target_styles ← get_computed_styles page_target "header";
     _ ← assert_
           (and_then ref_styles
              (fun d => contains dark_gray (Style.backgroundColor d)))
           (bg ← subscript ref_styles Style.backgroundColor;
            mret ("Reference header not dark gray: " +:+ bg));
     assert_
       (and_then target_styles
          (fun d => contains dark_gray (Style.backgroundColor d)))
       (bg ← subscript target_styles Style.backgroundColor;
        mret ("Target header not dark gray: " +:+ bg)))
    (_ ← close page_ref;
     close page_target).

(** TestHeaderLayout.test_header_fixed_position_desktop *)
Definition test_header_fixed_position_desktop (viewport_name : string)
    (vp : viewport) : M unit :=
  page ← new_page (Some vp);
  try_finally
    (_ ← goto page (index_url TARGET_URL);
     _ ← wait_for_load_state page;
     styles ← get_computed_styles page "header";
     position ← lift (subscript styles Style.position);
     assert_ (String.eqb position "fixed")
       (got ← subscript styles Style.position;
        mret ("Header should be fixed on " +:+ viewport_name
              +:+ ", got " +:+ got)))
    (close page).

(** [float(d["fontSize"].replace("px", ""))] *)
Definition font_size_px (d : option Style.t) : result PyFloat.float :=
  s ← subscript d Style.fontSize;
  py_float (replace "px" "" s).

(** TestTypography.test_heading_styles *)
Definition test_heading_styles : M unit :=
  page_ref ← new_page None;
  page_target ← new_page None;
  try_finally
    (_ ← goto page_ref (index_url REFERENCE_URL);
     _ ← goto page_target (index_url TARGET_URL);
     ref_h1 ← get_computed_styles page_ref "header h1";
     target_h1 ← get_computed_styles page_target "header h1";
     if truthy ref_h1 && truthy target_h1 then
       ref_size ← lift (font_size_px ref_h1);
       target_size ← lift (font_size_px target_h1);
       assert_
         (PyFloat.leb (PyFloat.abs (PyFloat.sub ref_size target_size))
            PyFloat.f2)
         (Ok ("H1 size mismatch: ref=" +:+ py_format "" ref_size
              +:+ "px, target=" +:+ py_format "" target_size +:+ "px"))
     else mret tt)
    (_ ← close page_ref;
     close page_target).

(** TestLayout.test_homepage_two_column_layout *)
Definition test_homepage_two_column_layout (viewport_name : string)
    (vp : viewport) : M unit :=
  page ← new_page (Some vp);
  try_finally
    (_ ← goto page (index_url TARGET_URL);
     _ ← wait_for_load_state page;
     aside_visible ← check_element_visible page "aside";
     article_visible ← check_element_visible page "article";
     _ ← assert_ aside_visible
           (Ok ("Sidebar not visible on " +:+ viewport_name));
     _ ← assert_ article_visible
           (Ok ("Article not visible on " +:+ viewport_name));
     aside_pos ← get_element_position page "aside";
     article_pos ← get_element_position page "article";
     if truthy aside_pos && truthy article_pos then
       aside_left ← lift (subscript aside_pos Rect.left);
       article_left ← lift (subscript article_pos Rect.left);
       assert_ (PyFloat.ltb aside_left article_left)
         (Ok "Aside should be to the left of article"%string)
     else mret tt)
    (close page).

Definition newline : string := String (ascii_of_nat 10) EmptyString.

(** [page_path.replace("/", "_").replace(".html", "")] *)
Definition page_name_of (page_path : string) : string :=
  replace ".html" "" (replace "/" "_" page_path).

(** TestScreenshotComparison.test_page_screenshot_similarity *)
Definition test_page_screenshot_similarity (page_path viewport_name : string)
    (vp : viewport) : M unit :=
  page_ref ← new_page (Some vp);
  page_target ← new_page (Some vp);
  let page_name := page_name_of page_path in
  let output_dir := path_join (path_join OUTPUT_DIR page_name) viewport_name in
  _ ← mkdir output_dir;
  try_finally
    (_ ← goto page_ref (path_join REFERENCE_URL page_path);
     _ ← goto page_target (path_join TARGET_URL page_path);
     _ ← wait_for_load_state page_ref;
     _ ← wait_for_load_state page_target;
     let ref_screenshot := path_join output_dir "reference.png" in
     let target_screenshot := path_join output_dir "target.png" in
     let diff_screenshot := path_join output_dir "diff.png" in
     _ ← screenshot page_ref ref_screenshot;
     _ ← screenshot page_target target_screenshot;
     result ← compare_screenshots ref_screenshot target_screenshot
                diff_screenshot;
     let result_file := path_join output_dir "comparison_result.json" in
     _ ← json_dump result result_file;
     _ ← print (newline +:+ page_name +:+ " (" +:+ viewport_name +:+ "): "
                +:+ py_format ".2f" (similarity_percentage result)
                +:+ "% similar");
     if negb (passed result) then
       print ("  ⚠️  Visual difference detected - review diff image at "
              +:+ diff_screenshot)
     else mret tt)
    (_ ← close page_ref;
     close page_target).

End Suite.

(** The two lines the test prints for a result. *)
Definition report_lines (py_format : string -> PyFloat.float -> string)
    (page_path viewport_name : string) (res : DiffResult) : list string :=
  let output_dir :=
    path_join (path_join OUTPUT_DIR (page_name_of page_path)) viewport_name in
  (newline +:+ page_name_of page_path +:+ " (" +:+ viewport_name +:+ "): "
   +:+ py_format ".2f" (similarity_percentage res) +:+ "% similar")
  :: (if passed res then []
      else ["  ⚠️  Visual difference detected - review diff image at "
            +:+ path_join output_dir "diff.png"]).


(** ** Value ranges of pixels *)

(** A pixel of an 8-bit image: every channel within 0..255. *)
Definition eight_bit_pixel (p : pixel) : Prop :=
  (0 <= p.1.1 <= 255) /\ (0 <= p.1.2 <= 255) /\ (0 <= p.2 <= 255).

Definition eight_bit (im : Image) : Prop :=
  Forall eight_bit_pixel (img_data im).

(** A pixel whose three channels agree. *)
Definition gray_pixel (p : pixel) : Prop := p.1.1 = p.1.2 /\ p.1.2 = p.2.

(** ** The other tests of the suite *)

(** [for a in l: body(a)] in a test, stopping at the first exception. *)
Fixpoint for_each_M {A : Type} (body : A -> M unit) (l : list A) : M unit :=
  match l with
  | [] => mret tt
  | a :: l' => _ ← body a; for_each_M body l'
  end.

(** [fonts.add(x)] on a JavaScript [Set], which keeps insertion order. *)
Definition set_add (seen : list string) (x : string) : list string :=
  if decide (x ∈ seen) then seen else seen ++ [x].

(** Truth value of a string an evaluation returned: [None] and the empty
    string are false. *)
Definition truthy_string (s : option string) : bool :=
  match s with
  | Some EmptyString | None => false
  | Some _ => true
  end.

Definition js_type_error : string :=
  "TypeError: Failed to execute 'getComputedStyle' on 'Window': parameter 1 is not of type 'Element'.".

(** VisualTester.get_font_families_used: the distinct [fontFamily] values of
    all elements, in the order of their first appearance. *)
Definition get_font_families_used (page : nat) : M (list string) :=
  p ← live_page page;
  mret (foldl set_add []
          (map (fun el => Style.fontFamily (getComputedStyle el))
             (querySelectorAll (page_document p) "*"))).

Definition expected_links : list string :=
  [ "Publications"; "Research"; "Software"; "Students";
    "Teaching"; "Short Courses"; "Talks"; "Service" ]%string.

Section MoreTests.

(** The rendering provider, and what [document.body.scrollWidth] evaluates
    to on a rendered document. *)
Variable P : provider.
Variable scrollWidth : document -> Z.

(** TestHeaderLayout.test_header_navigation_links *)
Definition test_header_navigation_links : M unit :=
  page ← new_page P None;
  try_finally
    (_ ← goto P page (index_url TARGET_URL);
     for_each_M
       (fun link_text =>
          n ← locator_count page ("header >> text=" +:+ link_text);
          assert_ (0 <? n)%nat (Ok ("Missing navigation link: " +:+ link_text)))
       expected_links)
    (close P page).

(** TestLayout.test_main_content_exists *)
Definition test_main_content_exists (viewport_name : string) (vp : viewport)
    : M unit :=
  page ← new_page P (Some vp);
  try_finally
    (_ ← goto P page (index_url TARGET_URL);
     n ← locator_count page "main";
     assert_ (0 <? n)%nat (Ok ("Main content missing on " +:+ viewport_name)))
    (close P page).

(** The script of [test_footer_exists]:
    [window.getComputedStyle(document.querySelector('footer')).backgroundColor] *)
Definition evaluate_footer_background (page : nat) : M string :=
  p ← live_page page;
  match querySelector (page_document p) "footer" with
  | None => raise (PlaywrightError js_type_error)
  | Some footer => mret (Style.backgroundColor (getComputedStyle footer))
  end.

(** TestLayout.test_footer_exists *)
Definition test_footer_exists : M unit :=
  page ← new_page P None;
  try_finally
    (_ ← goto P page (index_url TARGET_URL);
     n ← locator_count page "footer";
     _ ← assert_ (0 <? n)%nat (Ok "Footer missing"%string);
     footer_bg ← evaluate_footer_background page;
     assert_ (contains dark_gray footer_bg)
       (Ok ("Footer not dark gray: " +:+ footer_bg)))
    (close P page).

(** The script of [test_link_colors]: the colour of the first link inside
    [main], or [null]. *)
Definition evaluate_link_color (page : nat) : M (option string) :=
  p ← live_page page;
  mret match querySelector (page_document p) "main a" with
       | None => None
       | Some link => Some (Style.color (getComputedStyle link))
       end.

(** TestColors.test_link_colors *)
Definition test_link_colors : M unit :=
  page ← new_page P None;
  try_finally
    (_ ← goto P page (index_url TARGET_URL);
     link_color ← evaluate_link_color page;
     if truthy_string link_color then
       color ← lift (subscript link_color id);
       _ ← print (newline +:+ "Content link color: " +:+ color);
       assert_ (negb (String.eqb color "rgb(0, 0, 0)"))
         (Ok "Links should not be black"%string)
     else mret tt)
    (close P page).

(** TestResponsiveBreakpoints.test_content_readable_at_all_sizes *)
Definition test_content_readable_at_all_sizes (viewport_name : string)
    (vp : viewport) : M unit :=
  page ← new_page P (Some vp);
  try_finally
    (_ ← goto P page (index_url TARGET_URL);
     p ← live_page page;
     let body_width := scrollWidth (page_document p) in
     let viewport_width := vp_width vp in
     assert_ (body_width <=? viewport_width + 15)
       (Ok ("Horizontal overflow on " +:+ viewport_name +:+ ": body="
            +:+ pretty body_width +:+ "px, viewport="
            +:+ pretty viewport_width +:+ "px")))
    (close P page).

(** TestAccessibility.test_skip_link_exists *)
Definition test_skip_link_exists : M unit :=
  page ← new_page P None;
  try_finally
    (_ ← goto P page (index_url TARGET_URL);
     n ← locator_count page "#main-content";
     assert_ (0 <? n)%nat (Ok "Skip link anchor missing"%string))
    (close P page).

(** TestAccessibility.test_semantic_html_structure *)
Definition test_semantic_html_structure : M unit :=
  page ← new_page P None;
  try_finally
    (_ ← goto P page (index_url TARGET_URL);
     n ← locator_count page "header";
     _ ← assert_ (0 <? n)%nat (Ok "Missing header element"%string);
     n ← locator_count page "main";
     _ ← assert_ (0 <? n)%nat (Ok "Missing main element"%string);
     n ← locator_count page "footer";
     _ ← assert_ (0 <? n)%nat (Ok "Missing footer element"%string);
     n ← locator_count page "nav";
     assert_ (0 <? n)%nat (Ok "Missing nav element"%string))
    (close P page).

End MoreTests.

(** Whether a selector matches anything in a document. *)
Definition present (d : document) (selector : string) : bool :=
  (0 <? length (querySelectorAll d selector))%nat.

(** The first of the links for which [header >> text=<link>] matches
    nothing. *)
Definition first_missing_link (d : document) (links : list string)
    : option string :=
  snd <$> list_find (fun link => present d ("header >> text=" +:+ link) = false) links.

(** ** Concrete inputs *)

(** A one-colour image. *)
Definition solid (sz : nat * nat) (p : pixel) : Image :=
  mkImage sz.1 sz.2 (replicate (area sz) p).

Definition black : pixel := (0, 0, 0).
Definition white : pixel := (255, 255, 255).

Definition empty_image : Image := mkImage 0 0 [].

(** Three rows of width 0. *)
Definition empty_rows : Image := mkImage 0 3 [].

Definition checker : Image :=
  mkImage 2 2 [(10, 10, 10); (200, 0, 0); (0, 0, 0); (255, 255, 255)].

Definition checker_shifted : Image :=
  mkImage 2 2 [(12, 14, 16); (0, 0, 200); (0, 0, 0); (250, 250, 250)].

(** Nearest-neighbour sampling, standing in for PIL's kernels where a
    concrete one is needed. *)
Definition resample_nearest (im : Image) (sz : nat * nat) (flt : Resampling)
    (x y : nat) : pixel :=
  default black
    (img_data im !! ((y * img_height im `div` sz.2) * img_width im
                     + x * img_width im `div` sz.1)%nat).

(** A document without elements whose capture is [im]. *)
Definition bare_document (im : Image) : document :=
  mkDocument (fun _ => []) im.

(** A provider that never fails and serves one document for the reference
    site and one for the target site. *)
Definition static_site (doc_ref doc_target : document) : provider :=
  mkProvider
    (fun url _ => if String.prefix REFERENCE_URL url then doc_ref else doc_target)
    (fun _ => None).

Definition empty_world : world := mkWorld ∅ [] [].

(** A world holding two image files. *)
Definition two_files (ref_img target_img : Image) : world :=
  mkWorld (<["target.png" := ImageFile target_img]>
             (<["reference.png" := ImageFile ref_img]> ∅)) [] [].

Definition no_float (s : string) : result PyFloat.float := Raise ValueError.
Definition no_format (spec : string) (x : PyFloat.float) : string := "".

Definition mobile : viewport := mkViewport 375 667.

Definition two_checkers : provider :=
  static_site (bare_document checker) (bare_document checker_shifted).

(** A world in which a plain file sits where the output directory of
    (index.html, mobile) belongs. *)
Definition blocked_world : world :=
  mkWorld {[ "/Users/bino/Downloads/cattaneo/test_results/index/mobile"%string
             := OtherFile ]} [] [].

(** A provider whose [close] fails on the first page. *)
Definition close_fails : provider :=
  mkProvider (render two_checkers)
    (fun c => match c with
              | Close O => Some (PlaywrightError "Connection closed")
              | _ => None
              end).

(** A provider that cannot open a second page. *)
Definition second_page_fails : provider :=
  mkProvider (render two_checkers)
    (fun c => match c with
              | NewPage 1 => Some (PlaywrightError "Browser closed")
              | _ => None
              end).

Definition desktop : viewport := mkViewport 1440 900.


Definition checker_result : DiffResult :=
  {| total_pixels := 4;
     different_pixels := 1;
     similarity_percentage := S754_finite false 5277655813324800 (-46);
     max_difference := 400;
     passed := false |}.

Definition one_page_world : world :=
  mkWorld ∅ [mkPage None (bare_document checker) false] [].

(** The computed style every element of [home_document] has. *)
Definition house_style : Style.t :=
  {| Style.fontFamily := "Georgia, serif";
     Style.fontSize := "32px";
     Style.fontWeight := "700";
     Style.color := "rgb(3, 42, 112)";
     Style.backgroundColor := "rgb(18, 18, 18)";
     Style.display := "block";
     Style.position := "fixed";
     Style.width := "1440px";
     Style.height := "64px";
     Style.marginTop := "0px";
     Style.marginBottom := "0px";
     Style.paddingTop := "0px";
     Style.paddingBottom := "0px";
     Style.textAlign := "start" |}.

Definition box_at (left : PyFloat.float) : Rect.t :=
  {| Rect.x := left; Rect.y := PyFloat.zero;
     Rect.width := PyFloat.f100; Rect.height := PyFloat.f100;
     Rect.top := PyFloat.zero; Rect.left := left;
     Rect.right := PyFloat.f100; Rect.bottom := PyFloat.f100 |}.

Definition block (left : PyFloat.float) : element :=
  mkElement house_style (box_at left) true.

(** A document in which every selector matches one visible element; the
    article starts to the right of everything else. *)
Definition home_document : document :=
  mkDocument
    (fun selector =>
       if String.eqb selector "article" then [block PyFloat.f2]
       else [block PyFloat.zero])
    checker.

Definition home_site : provider := static_site home_document home_document.

Definition home_world : world :=
  mkWorld ∅ [mkPage None home_document false] [].

(** What the comparison of the two checker images leaves behind. *)
Definition compared_world : world :=
  (compare_screenshots resample_nearest "reference.png" "target.png" "diff.png"
     (two_files checker checker_shifted)).2.


(** * Properties *)

(** ** Floating-point division of integers *)

Module PyFloatFacts.
Import PyFloat.

Lemma div_eucl_div_mod (a b : Z) : Z.div_eucl a b = (a / b, a mod b).
Proof. unfold Z.div, Z.modulo. destruct (Z.div_eucl a b). reflexivity. Qed.

Lemma new_location_exact (n : Z) : new_location n 0 = loc_Exact.
Proof. unfold new_location. destruct (Z.even n); reflexivity. Qed.

(** [n / n == 1.0] for every positive integer. *)
Lemma int_true_divide_diag (n : Z) : 0 < n -> int_true_divide n n = Ok one.
Proof.
  intros Hn. unfold int_true_divide.
  destruct (Z.eqb_spec n 0) as [->|_]; [lia|].
  destruct (Z.ltb_spec n 0) as [?|_]; [lia|].
  rewrite Z.abs_eq by lia. cbn [xorb].
  unfold SFdiv_core_binary.
  replace (Zdigits2 n + 0 - (Zdigits2 n + 0)) with 0 by lia.
  change (Z.min (fexp prec emax 0) (0 - 0)) with (-53).
  change (0 - 0 - -53) with 53.
  cbv iota beta.
  rewrite div_eucl_div_mod, Z.shiftl_mul_pow2 by lia.
  rewrite (Z.mul_comm n), Z.div_mul, Z.mod_mul by lia.
  rewrite new_location_exact. vm_compute. reflexivity.
Qed.

(** [0 / n == 0.0] for every positive integer. *)
Lemma int_true_divide_zero (n : Z) : 0 < n -> int_true_divide 0 n = Ok zero.
Proof.
  intros Hn. unfold int_true_divide.
  destruct (Z.eqb_spec n 0) as [->|_]; [lia|].
  destruct (Z.ltb_spec n 0) as [?|_]; [lia|]. reflexivity.
Qed.

(** *** No overflow when the quotient is at most one *)

Lemma digits2_pos_size (p : positive) : digits2_pos p = Pos.size p.
Proof. induction p as [p IH|p IH|]; cbn; rewrite ?IH; reflexivity. Qed.

Lemma Zdigits2_log2 (m : Z) : 0 < m -> Zdigits2 m = Z.log2 m + 1.
Proof.
  destruct m as [|p|p]; try lia. intros _.
  destruct p as [p|p|]; cbn [Zdigits2 digits2_pos Z.log2];
    rewrite ?digits2_pos_size; lia.
Qed.

Lemma Zdigits2_nonneg (m : Z) : 0 <= Zdigits2 m.
Proof. destruct m; cbn; lia. Qed.

Lemma Zdigits2_le_pow2 (m k : Z) :
  0 <= m -> 0 <= k -> m <= 2 ^ k -> Zdigits2 m <= k + 1.
Proof.
  intros Hm Hk Hle. destruct (Z.eq_dec m 0) as [->|Hne]; [cbn; lia|].
  rewrite Zdigits2_log2 by lia.
  pose proof (Z.log2_le_mono m (2 ^ k) Hle) as Hlog.
  rewrite Z.log2_pow2 in Hlog by lia. lia.
Qed.

Lemma Zdigits2_succ (m : Z) : 0 <= m -> Zdigits2 (m + 1) <= Zdigits2 m + 1.
Proof.
  intros Hm. destruct (Z.eq_dec m 0) as [->|Hne]; [cbv; discriminate|].
  rewrite !Zdigits2_log2 by lia.
  pose proof (Z.log2_succ_le m) as Hs. rewrite <- !Z.add_1_r in Hs. lia.
Qed.

Lemma shr_1_digits (r : shr_record) :
  0 <= shr_m r ->
  0 <= shr_m (shr_1 r)
  /\ Zdigits2 (shr_m (shr_1 r)) = Z.max 0 (Zdigits2 (shr_m r) - 1).
Proof.
  destruct r as [m r s]. cbn [shr_m]. intros Hm.
  destruct m as [|[p|p|]|p]; cbn; try lia.
Qed.

Lemma iter_shr_1_digits (p : positive) (r : shr_record) :
  0 <= shr_m r ->
  0 <= shr_m (SpecFloat.iter_pos shr_1 p r)
  /\ Zdigits2 (shr_m (SpecFloat.iter_pos shr_1 p r))
     = Z.max 0 (Zdigits2 (shr_m r) - Z.pos p).
Proof.
  revert r. induction p as [p IH|p IH|]; intros r Hr; cbn [SpecFloat.iter_pos].
  - destruct (shr_1_digits r Hr) as [H1 E1].
    destruct (IH _ H1) as [H2 E2]. destruct (IH _ H2) as [H3 E3].
    split; [exact H3|]. rewrite E3, E2, E1. lia.
  - destruct (IH _ Hr) as [H2 E2]. destruct (IH _ H2) as [H3 E3].
    split; [exact H3|]. rewrite E3, E2. lia.
  - apply shr_1_digits. exact Hr.
Qed.

Lemma shr_m_of_loc (m : Z) (l : location) : shr_m (shr_record_of_loc m l) = m.
Proof. destruct l as [|[]]; reflexivity. Qed.

Lemma shr_fexp_bounds (m e : Z) (l : location) :
  0 <= m ->
  0 <= shr_m (shr_fexp prec emax m e l).1
  /\ (shr_fexp prec emax m e l).2 = Z.max e (fexp prec emax (Zdigits2 m + e))
  /\ Zdigits2 (shr_m (shr_fexp prec emax m e l).1) + (shr_fexp prec emax m e l).2
     <= Z.max (Zdigits2 m + e) (shr_fexp prec emax m e l).2.
Proof.
  intros Hm. unfold shr_fexp, shr.
  pose proof (shr_m_of_loc m l) as Hrec.
  destruct (fexp prec emax (Zdigits2 m + e) - e) as [|p|p] eqn:Hn; cbn [fst snd].
  - rewrite Hrec. lia.
  - destruct (iter_shr_1_digits p (shr_record_of_loc m l)) as [H1 E1];
      [rewrite Hrec; exact Hm|].
    rewrite E1, Hrec. lia.
  - rewrite Hrec. lia.
Qed.

Lemma round_nearest_even_bounds (m : Z) (l : location) :
  0 <= m ->
  0 <= round_nearest_even m l
  /\ Zdigits2 (round_nearest_even m l) <= Zdigits2 m + 1.
Proof.
  intros Hm. pose proof (Zdigits2_succ m Hm).
  destruct l as [|[]]; cbn [round_nearest_even];
    try destruct (Z.even m); lia.
Qed.

(** Rounding a non-negative mantissa whose value lies below [2^1023]
    gives a zero or a finite float of the requested sign. *)
Lemma binary_round_aux_finite (s : bool) (m e : Z) (l : location) :
  0 <= m -> e <= 971 -> Zdigits2 m + e <= 1023 ->
  binary_round_aux prec emax s m e l = S754_zero s
  \/ exists m' e', binary_round_aux prec emax s m e l = S754_finite s m' e'.
Proof.
  intros Hm He Hd. unfold binary_round_aux.
  destruct (shr_fexp_bounds m e l Hm) as (H1 & E1 & D1).
  destruct (shr_fexp prec emax m e l) as [r1 e1]. cbn [fst snd] in *.
  destruct (round_nearest_even_bounds (shr_m r1) (loc_of_shr_record r1) H1)
    as [H2 D2].
  set (m2 := round_nearest_even (shr_m r1) (loc_of_shr_record r1)) in *.
  destruct (shr_fexp_bounds m2 e1 loc_Exact H2) as (H3 & E3 & D3).
  destruct (shr_fexp prec emax m2 e1 loc_Exact) as [r3 e3]. cbn [fst snd] in *.
  assert (He3 : e3 <= emax - prec).
  { unfold fexp, SpecFloat.emin, emax, prec in *. lia. }
  destruct (shr_m r3) as [|p|p]; [left; reflexivity | right | lia].
  apply Z.leb_le in He3. rewrite He3. eauto.
Qed.

Lemma int_true_divide_le (a b : Z) :
  0 <= a <= b -> 0 < b -> exists x, int_true_divide a b = Ok x.
Proof.
  intros Hab Hb. unfold int_true_divide.
  destruct (Z.eqb_spec b 0) as [->|_]; [lia|].
  destruct (Z.eqb_spec a 0) as [->|Ha]; [eauto|].
  rewrite !Z.abs_eq by lia.
  assert (Hs : xorb (a <? 0) (b <? 0) = false).
  { destruct (Z.ltb_spec a 0), (Z.ltb_spec b 0); try lia. reflexivity. }
  rewrite Hs. unfold SFdiv_core_binary.
  set (e' := Z.min (fexp prec emax (Zdigits2 a + 0 - (Zdigits2 b + 0))) (0 - 0)).
  rewrite div_eucl_div_mod.
  set (m' := match 0 - 0 - e' with
             | 0 => a | Z.pos _ => Z.shiftl a (0 - 0 - e') | Z.neg _ => 0 end).
  assert (He' : e' <= 0) by (unfold e'; lia).
  assert (Hm' : m' = a * 2 ^ (- e')).
  { unfold m'. replace (0 - 0 - e') with (- e') by lia.
    destruct (- e') as [|p|p] eqn:E; try lia.
    rewrite Z.shiftl_mul_pow2 by lia. reflexivity. }
  assert (Hq : 0 <= m' / b <= 2 ^ (- e')).
  { rewrite Hm'. split.
    - apply Z.div_pos; [|lia]. apply Z.mul_nonneg_nonneg; [lia|].
      apply Z.pow_nonneg. lia.
    - apply Z.div_le_upper_bound; [lia|].
      apply Z.mul_le_mono_nonneg_r; [apply Z.pow_nonneg|]; lia. }
  pose proof (Zdigits2_le_pow2 (m' / b) (- e') ltac:(lia) ltac:(lia) ltac:(lia)).
  destruct (binary_round_aux_finite false (m' / b) e' (new_location b (m' mod b)))
    as [->|(mz & ez & ->)]; [lia | lia | lia | eauto | eauto].
Qed.
End PyFloatFacts.


(** ** Loops *)

Lemma for_each_seq {S : Type} (body : nat -> S -> result S)
    (I : nat -> S -> Prop) (len start : nat) (s : S) :
  (forall i s0, (start <= i < start + len)%nat -> I i s0 ->
     exists s1, body i s0 = Ok s1 /\ I (Datatypes.S i) s1) ->
  I start s ->
  exists s', for_each body (seq start len) s = Ok s' /\ I (start + len)%nat s'.
Proof.
  revert start s. induction len as [|len IH]; intros start s Hstep Hs.
  - exists s. rewrite Nat.add_0_r. auto.
  - cbn [seq for_each].
    destruct (Hstep start s) as (s1 & -> & Hs1); [lia | assumption |].
    destruct (IH (Datatypes.S start) s1) as (s' & Hrun & Hs'); [| assumption |].
    + intros i s0 Hi. apply Hstep. lia.
    + exists s'. split; [assumption|].
      replace (start + Datatypes.S len)%nat with (Datatypes.S start + len)%nat by lia.
      assumption.
Qed.

Section Scan.
Variables ref_img target_img : Image.
Hypothesis ref_valid : valid_image ref_img.
Hypothesis target_valid : valid_image target_img.
Hypothesis same_size : size ref_img = size target_img.

Let W := img_width ref_img.
Let H := img_height ref_img.
Let pairs := zip (img_data ref_img) (img_data target_img).

Local Abbreviation scanned_to := (scanned ref_img target_img).

Lemma target_width : img_width target_img = W.
Proof. unfold W. injection same_size as Hw Hh. symmetry. exact Hw. Qed.

Lemma target_height : img_height target_img = H.
Proof. unfold H. injection same_size as Hw Hh. symmetry. exact Hh. Qed.

Lemma ref_length : length (img_data ref_img) = (W * H)%nat.
Proof. exact ref_valid. Qed.

Lemma target_length : length (img_data target_img) = (W * H)%nat.
Proof.
  pose proof target_valid as Hv. unfold valid_image, area, size in Hv.
  cbn in Hv. rewrite target_width, target_height in Hv. exact Hv.
Qed.

Lemma offset_lt (x y : nat) :
  (x < W)%nat -> (y < H)%nat -> (y * W + x < W * H)%nat.
Proof. nia. Qed.

Lemma compare_pixel_scanned (y x : nat) (st : scan) :
  (x < W)%nat -> (y < H)%nat ->
  scanned_to (y * W + x) st ->
  exists st', compare_pixel ref_img target_img y x st = Ok st'
              /\ scanned_to (y * W + Datatypes.S x) st'.
Proof.
  intros Hx Hy (Hw & Hh & Hlen & Hdata & Hcount & Hmax).
  fold W H pairs in Hw, Hh, Hlen, Hcount, Hmax.
  pose proof (offset_lt x y Hx Hy) as Hoff.
  destruct (lookup_lt_is_Some_2 (img_data ref_img) (y * W + x)) as [rp Hrp];
    [rewrite ref_length; exact Hoff|].
  destruct (lookup_lt_is_Some_2 (img_data target_img) (y * W + x)) as [tp Htp];
    [rewrite target_length; exact Hoff|].
  assert (Hpair : pairs !! (y * W + x)%nat = Some (rp, tp)).
  { unfold pairs. apply lookup_zip_Some. split; assumption. }
  assert (Hvis : zip_with visualize (img_data ref_img) (img_data target_img)
                   !! (y * W + x)%nat = Some (visualize rp tp)).
  { apply lookup_zip_with_Some. exists rp, tp. auto. }
  assert (Hbr : in_bounds ref_img x y = true).
  { unfold in_bounds. fold W H.
    apply andb_true_intro; split; apply Nat.ltb_lt; assumption. }
  assert (Hbt : in_bounds target_img x y = true).
  { unfold in_bounds. rewrite target_width, target_height.
    apply andb_true_intro; split; apply Nat.ltb_lt; assumption. }
  assert (Hbd : in_bounds (scan_img st) x y = true).
  { unfold in_bounds. rewrite Hw, Hh.
    apply andb_true_intro; split; apply Nat.ltb_lt; assumption. }
  unfold compare_pixel, getpixel, putpixel, offset.
  rewrite Hbr, Hbt, Hbd, target_width, Hw. fold W.
  rewrite Hrp, Htp. cbn [mbind result_bind mret result_ret].
  replace (y * W + Datatypes.S x)%nat with (Datatypes.S (y * W + x)) by lia.
  assert (Hnext : forall p st',
    scan_img st' = mkImage W (img_height (scan_img st))
                     (<[(y * W + x)%nat := p]> (img_data (scan_img st))) ->
    p = visualize rp tp ->
    scan_different st' = Z.of_nat (length (filter differs (take (y * W + x) pairs ++ [(rp, tp)]))) ->
    scan_max_diff st' = Z.max (scan_max_diff st) (pixel_diff rp tp) ->
    scanned_to (Datatypes.S (y * W + x)) st').
  { intros p st' Himg -> Hc Hm. unfold scanned. fold W H pairs.
    rewrite Himg. cbn [img_width img_height img_data].
    rewrite length_insert.
    split; [reflexivity|]. split; [assumption|]. split; [assumption|].
    split; [|split].
    - intros i Hi. destruct (decide (i = y * W + x)%nat) as [->|Hne].
      + rewrite list_lookup_insert_eq by lia. symmetry. exact Hvis.
      + rewrite list_lookup_insert_ne by congruence. apply Hdata. lia.
    - rewrite (take_S_r _ _ _ Hpair). exact Hc.
    - rewrite (take_S_r _ _ _ Hpair), foldl_app. cbn. rewrite <- Hmax. exact Hm. }
  destruct (threshold <? pixel_diff rp tp) eqn:Hd.
  - eexists. split; [reflexivity|].
    apply (Hnext red); cbn [scan_img scan_different scan_max_diff].
    + reflexivity.
    + unfold visualize. rewrite Hd. reflexivity.
    + rewrite filter_app, length_app, Hcount.
      rewrite (filter_cons_True); [cbn; lia|].
      unfold differs. cbn. apply Z.ltb_lt. exact Hd.
    + reflexivity.
  - eexists. split; [reflexivity|].
    eapply Hnext; cbn [scan_img scan_different scan_max_diff].
    + reflexivity.
    + unfold visualize. rewrite Hd. reflexivity.
    + rewrite filter_app, length_app, Hcount.
      rewrite (filter_cons_False); [cbn; lia|].
      unfold differs. cbn. apply Z.ltb_ge in Hd. lia.
    + reflexivity.
Qed.

Lemma compare_row_scanned (y : nat) (st : scan) :
  (y < H)%nat ->
  scanned_to (y * W) st ->
  exists st', compare_row ref_img target_img y st = Ok st'
              /\ scanned_to (Datatypes.S y * W) st'.
Proof.
  intros Hy Hst. unfold compare_row, range. fold W.
  destruct (for_each_seq (compare_pixel ref_img target_img y)
              (fun x s => scanned_to (y * W + x) s) W 0 st) as (st' & Hrun & Hst').
  - intros x s0 Hx Hs0. apply compare_pixel_scanned; [lia | assumption | assumption].
  - rewrite Nat.add_0_r. exact Hst.
  - exists st'. split; [exact Hrun|].
    replace (Datatypes.S y * W)%nat with (y * W + (0 + W))%nat by lia. exact Hst'.
Qed.

Lemma scanned_start : scanned_to 0 (mkScan 0 0 (Image_new (size ref_img))).
Proof.
  unfold scanned, Image_new, area, size. cbn.
  rewrite length_replicate.
  repeat split; try reflexivity. intros i Hi. lia.
Qed.

Lemma scanned_end (st : scan) : scanned_to (H * W) st -> st = scan_of ref_img target_img.
Proof.
  intros (Hw & Hh & Hlen & Hdata & Hcount & Hmax).
  fold W H pairs in Hw, Hh, Hlen, Hcount, Hmax.
  assert (Hpairs : length pairs = (W * H)%nat).
  { unfold pairs. rewrite length_zip_with, ref_length, target_length. lia. }
  rewrite take_ge in Hcount, Hmax by lia.
  destruct st as [d m [w h data]]. cbn in *. subst.
  unfold scan_of. fold pairs. f_equal. f_equal.
  apply list_eq. intros i.
  destruct (decide (i < H * W)%nat) as [Hi|Hi].
  - apply Hdata. exact Hi.
  - rewrite !lookup_ge_None_2; [reflexivity | |].
    + rewrite length_zip_with, ref_length, target_length. lia.
    + lia.
Qed.

(** On two valid images of one size the loops run to completion and
    compute exactly the scan the specification describes. *)
Lemma compare_pixels_scan_of :
  compare_pixels ref_img target_img = Ok (scan_of ref_img target_img).
Proof.
  unfold compare_pixels, range. fold H.
  destruct (for_each_seq (compare_row ref_img target_img)
              (fun y s => scanned_to (y * W) s) H 0
              (mkScan 0 0 (Image_new (size ref_img)))) as (st' & Hrun & Hst').
  - intros y s0 Hy Hs0. apply compare_row_scanned; [lia | assumption].
  - exact scanned_start.
  - rewrite Hrun. f_equal. apply scanned_end. exact Hst'.
Qed.
End Scan.


(** ** Images *)

Lemma rows_length (w : nat) (f : nat -> nat -> pixel) (h start : nat) :
  length (flat_map (fun y => map (fun x => f x y) (seq 0 w)) (seq start h))
  = (w * h)%nat.
Proof.
  revert start. induction h as [|h IH]; intros start; cbn [seq flat_map].
  - cbn. lia.
  - rewrite length_app, length_map, length_seq, IH. lia.
Qed.

Lemma tabulate_length (sz : nat * nat) (f : nat -> nat -> pixel) :
  length (img_data (tabulate sz f)) = area sz.
Proof. unfold tabulate, area. cbn [img_data]. apply rows_length. Qed.

Lemma tabulate_valid (sz : nat * nat) (f : nat -> nat -> pixel) :
  valid_image (tabulate sz f).
Proof. unfold valid_image. rewrite tabulate_length. reflexivity. Qed.

Lemma tabulate_size (sz : nat * nat) (f : nat -> nat -> pixel) :
  size (tabulate sz f) = sz.
Proof. destruct sz. reflexivity. Qed.

Lemma rows_lookup (w : nat) (f : nat -> nat -> pixel) (h start x y : nat) :
  (x < w)%nat -> (y < h)%nat ->
  flat_map (fun y => map (fun x => f x y) (seq 0 w)) (seq start h)
    !! (y * w + x)%nat
  = Some (f x (start + y)%nat).
Proof.
  intros Hx. revert start y. induction h as [|h IH]; intros start y Hy; [lia|].
  cbn [seq flat_map]. destruct y as [|y].
  - rewrite lookup_app_l by (rewrite length_map, length_seq; lia).
    cbn [Nat.mul Nat.add]. rewrite list_lookup_fmap, lookup_seq_lt by lia.
    cbn. rewrite Nat.add_0_r. reflexivity.
  - rewrite lookup_app_r by (rewrite length_map, length_seq; lia).
    rewrite length_map, length_seq.
    replace (Datatypes.S y * w + x - w)%nat with (y * w + x)%nat by lia.
    rewrite IH by lia. f_equal. f_equal. lia.
Qed.

(** The pixel of a tabulated image at [(x, y)] is the tabulated value. *)
Lemma getpixel_tabulate (sz : nat * nat) (f : nat -> nat -> pixel) (x y : nat) :
  (x < sz.1)%nat -> (y < sz.2)%nat ->
  getpixel (tabulate sz f) x y = Ok (f x y).
Proof.
  intros Hx Hy. unfold getpixel, in_bounds, offset, tabulate.
  cbn [img_width img_height img_data].
  destruct (Nat.ltb_spec x sz.1); [|lia].
  destruct (Nat.ltb_spec y sz.2); [|lia]. cbn [andb].
  rewrite rows_lookup by assumption. reflexivity.
Qed.

Lemma solid_valid (sz : nat * nat) (p : pixel) : valid_image (solid sz p).
Proof. unfold valid_image, solid. cbn. rewrite length_replicate. destruct sz; reflexivity. Qed.

Lemma getpixel_lookup (im : Image) (x y : nat) :
  valid_image im -> (x < img_width im)%nat -> (y < img_height im)%nat ->
  exists p, img_data im !! (y * img_width im + x)%nat = Some p
            /\ getpixel im x y = Ok p.
Proof.
  intros Hv Hx Hy. unfold getpixel, in_bounds, offset.
  destruct (Nat.ltb_spec x (img_width im)); [|lia].
  destruct (Nat.ltb_spec y (img_height im)); [|lia]. cbn [andb].
  destruct (lookup_lt_is_Some_2 (img_data im) (y * img_width im + x)) as [p Hp].
  - rewrite Hv. unfold area, size. cbn. nia.
  - exists p. rewrite Hp. auto.
Qed.

(** ** Opening and saving images *)

Lemma nonempty_positive (im : Image) :
  nonempty im = true <-> (0 < img_width im)%nat /\ (0 < img_height im)%nat.
Proof.
  unfold nonempty, nonempty_size, size. cbn [fst snd].
  rewrite andb_true_iff, !Nat.ltb_lt. reflexivity.
Qed.

Lemma nonempty_same_size (im im' : Image) :
  size im = size im' -> nonempty im = nonempty im'.
Proof. unfold nonempty. intros ->. reflexivity. Qed.

Lemma Image_open_run (path : string) (im : Image) (w : world) :
  fs w !! path = Some (ImageFile im) -> nonempty im = true ->
  Image_open path w = (Ok im, w).
Proof. intros Hf Hn. unfold Image_open. rewrite Hf, Hn. reflexivity. Qed.

Lemma Image_open_inv (path : string) (im : Image) (w w' : world) :
  Image_open path w = (Ok im, w') ->
  w' = w /\ fs w !! path = Some (ImageFile im) /\ nonempty im = true.
Proof.
  unfold Image_open. destruct (fs w !! path) as [[| im0 | |]|]; try discriminate.
  destruct (nonempty im0) eqn:Hn; [|discriminate].
  intros H. injection H as <- <-. auto.
Qed.

(** An image file without pixels cannot be opened. *)
Lemma Image_open_empty (path : string) (im : Image) (w : world) :
  fs w !! path = Some (ImageFile im) -> nonempty im = false ->
  Image_open path w = (Raise (UnidentifiedImageError path), w).
Proof. intros Hf Hn. unfold Image_open. rewrite Hf, Hn. reflexivity. Qed.

(** A failing [open] changes nothing and raises one of three errors. *)
Lemma Image_open_raises (path : string) (e : exn) (w w' : world) :
  Image_open path w = (Raise e, w') ->
  w' = w
  /\ (e = OSError path \/ e = UnidentifiedImageError path
      \/ e = FileNotFoundError path).
Proof.
  unfold Image_open.
  destruct (fs w !! path) as [[| im | |]|]; try destruct (nonempty im);
    intros H; try discriminate; injection H as <- <-; auto.
Qed.

Lemma Image_save_run (im : Image) (path : string) (w : world) :
  nonempty im = true ->
  Image_save im path w = write_file path (ImageFile im) w.
Proof.
  intros Hn. unfold Image_save, write_file. rewrite Hn.
  destruct (fs w !! path) as [[]|]; reflexivity.
Qed.

(** ** compare_screenshots, step by step *)

Section Compare.
Variable resample : Image -> nat * nat -> Resampling -> nat -> nat -> pixel.

Lemma resize_run (im : Image) (sz : nat * nat) (flt : Resampling) :
  nonempty_size sz = true ->
  resize resample im sz flt = Ok (tabulate sz (resample im sz flt)).
Proof. intros Hn. unfold resize. rewrite Hn. reflexivity. Qed.

(** The resizing step on a reference that has pixels. *)
Lemma normalize_run (ref_img target_img : Image) :
  nonempty ref_img = true ->
  (if bool_decide (size ref_img ≠ size target_img)
   then resize resample target_img (size ref_img) LANCZOS
   else Ok target_img)
  = Ok (normalized resample ref_img target_img).
Proof.
  intros Hn. unfold normalized. case_bool_decide; [|reflexivity].
  apply resize_run. exact Hn.
Qed.

Lemma compare_screenshots_open (w : world) (ref_path target_path diff_path : string)
    (ref_img target_img : Image) :
  fs w !! ref_path = Some (ImageFile ref_img) ->
  fs w !! target_path = Some (ImageFile target_img) ->
  nonempty ref_img = true -> nonempty target_img = true ->
  compare_screenshots resample ref_path target_path diff_path w
  = compare_images ref_img (normalized resample ref_img target_img) diff_path w.
Proof.
  intros Hr Ht Hnr Hnt. unfold compare_screenshots, compare_images.
  unfold mbind, M_bind at 1 2 3.
  rewrite (Image_open_run _ _ _ Hr Hnr), (Image_open_run _ _ _ Ht Hnt).
  rewrite (normalize_run _ _ Hnr). reflexivity.
Qed.

Lemma normalized_valid (ref_img target_img : Image) :
  valid_image target_img -> valid_image (normalized resample ref_img target_img).
Proof.
  intros Hv. unfold normalized. case_bool_decide; [apply tabulate_valid | exact Hv].
Qed.

Lemma normalized_size (ref_img target_img : Image) :
  size (normalized resample ref_img target_img) = size ref_img.
Proof.
  unfold normalized. case_bool_decide as Hs.
  - apply tabulate_size.
  - destruct (decide (size ref_img = size target_img)); congruence.
Qed.
End Compare.

Lemma compare_images_run (w : world) (ref_img target_img : Image) (diff_path : string) :
  valid_image ref_img -> valid_image target_img ->
  size ref_img = size target_img ->
  fs w !! diff_path ≠ Some Directory ->
  nonempty ref_img = true ->
  compare_images ref_img target_img diff_path w
  = let st := scan_of ref_img target_img in
    let w' := saved w diff_path (scan_img st) in
    match similarity (Z.of_nat (img_width ref_img) * Z.of_nat (img_height ref_img))
            (scan_different st) with
    | Ok s => (Ok (result_of ref_img target_img s), w')
    | Raise e => (Raise e, w')
    end.
Proof.
  intros Hr Ht Hs Hd Hn. unfold compare_images.
  rewrite (compare_pixels_scan_of _ _ Hr Ht Hs).
  unfold mbind, M_bind, lift. rewrite Image_save_run by exact Hn.
  unfold write_file. cbn [size fst snd].
  destruct (fs w !! diff_path) as [[]|] eqn:E; try congruence;
    cbv zeta; fold (saved w diff_path (scan_img (scan_of ref_img target_img)));
    destruct (similarity _ _); reflexivity.
Qed.

(** ** The similarity score *)

Lemma similarity_defined (total different : Z) :
  0 <= different <= total -> 0 < total ->
  exists s, similarity total different = Ok s.
Proof.
  intros Hd Ht. unfold similarity.
  destruct (PyFloatFacts.int_true_divide_le (total - different) total) as [q Hq];
    [lia | lia |].
  rewrite Hq. eexists. reflexivity.
Qed.

Lemma similarity_zero_total (different : Z) :
  similarity 0 different = Raise ZeroDivisionError.
Proof. reflexivity. Qed.

Lemma similarity_all_same (total : Z) :
  0 < total -> similarity total 0 = Ok PyFloat.f100.
Proof.
  intros Ht. unfold similarity. rewrite Z.sub_0_r.
  rewrite PyFloatFacts.int_true_divide_diag by lia. reflexivity.
Qed.

Lemma similarity_all_different (total : Z) :
  0 < total -> similarity total total = Ok PyFloat.zero.
Proof.
  intros Ht. unfold similarity. rewrite Z.sub_diag.
  rewrite PyFloatFacts.int_true_divide_zero by lia. reflexivity.
Qed.

Lemma scan_of_different_bounds (ref_img target_img : Image) :
  valid_image ref_img -> valid_image target_img -> size ref_img = size target_img ->
  0 <= scan_different (scan_of ref_img target_img)
    <= Z.of_nat (img_width ref_img) * Z.of_nat (img_height ref_img).
Proof.
  intros Hr Ht Hs. unfold scan_of. cbn [scan_different].
  pose proof (length_filter differs (zip (img_data ref_img) (img_data target_img))) as Hf.
  rewrite length_zip_with in Hf.
  rewrite Hr in Hf. unfold area, size in Hf. cbn in Hf. lia.
Qed.

Lemma compare_images_returns (w : world) (ref_img target_img : Image) (diff_path : string) :
  valid_image ref_img -> valid_image target_img ->
  size ref_img = size target_img ->
  fs w !! diff_path ≠ Some Directory ->
  (0 < img_width ref_img)%nat -> (0 < img_height ref_img)%nat ->
  exists s,
    similarity (Z.of_nat (img_width ref_img) * Z.of_nat (img_height ref_img))
      (scan_different (scan_of ref_img target_img)) = Ok s
    /\ compare_images ref_img target_img diff_path w
       = (Ok (result_of ref_img target_img s),
          saved w diff_path (scan_img (scan_of ref_img target_img))).
Proof.
  intros Hr Ht Hs Hd Hw Hh.
  destruct (similarity_defined
              (Z.of_nat (img_width ref_img) * Z.of_nat (img_height ref_img))
              (scan_different (scan_of ref_img target_img))) as [s Hsim].
  - apply scan_of_different_bounds; assumption.
  - lia.
  - exists s. split; [exact Hsim|].
    rewrite compare_images_run
      by (assumption || (apply nonempty_positive; split; assumption)).
    cbv zeta. rewrite Hsim. reflexivity.
Qed.

Lemma getpixel_scan_img (ref_img target_img : Image) (x y : nat) (rp tp : pixel) :
  (x < img_width ref_img)%nat -> (y < img_height ref_img)%nat ->
  img_data ref_img !! (y * img_width ref_img + x)%nat = Some rp ->
  img_data target_img !! (y * img_width ref_img + x)%nat = Some tp ->
  getpixel (scan_img (scan_of ref_img target_img)) x y = Ok (visualize rp tp).
Proof.
  intros Hx Hy Hrp Htp. unfold getpixel, in_bounds, offset, scan_of.
  cbn [scan_img img_width img_height img_data].
  destruct (Nat.ltb_spec x (img_width ref_img)); [|lia].
  destruct (Nat.ltb_spec y (img_height ref_img)); [|lia]. cbn [andb].
  replace (zip_with visualize (img_data ref_img) (img_data target_img)
             !! (y * img_width ref_img + x)%nat) with (Some (visualize rp tp)).
  - reflexivity.
  - symmetry. apply lookup_zip_with_Some. exists rp, tp. auto.
Qed.

(** C1: on two valid images of one size, at every pixel coordinate: the
    call returns, [different_pixels] counts exactly the pixel pairs whose
    summed absolute channel difference exceeds 30, and the saved difference
    image shows pure red at a different pixel and otherwise the gray level
    [(r + g + b) // 3] of the candidate pixel in all three channels. *)
Theorem compare_screenshots_classifies_pixels
    (resample : Image -> nat * nat -> Resampling -> nat -> nat -> pixel)
    (w : world) (ref_path target_path diff_path : string)
    (ref_img target_img : Image) (x y : nat) :
  fs w !! ref_path = Some (ImageFile ref_img) ->
  fs w !! target_path = Some (ImageFile target_img) ->
  fs w !! diff_path ≠ Some Directory ->
  valid_image ref_img -> valid_image target_img ->
  size ref_img = size target_img ->
  (x < img_width ref_img)%nat -> (y < img_height ref_img)%nat ->
  exists res w' d r1 g1 b1 r2 g2 b2,
    compare_screenshots resample ref_path target_path diff_path w = (Ok res, w')
    /\ different_pixels res
       = Z.of_nat (length (filter (fun rt => 30 < pixel_diff rt.1 rt.2)
                             (zip (img_data ref_img) (img_data target_img))))
    /\ fs w' !! diff_path = Some (ImageFile d)
    /\ size d = size ref_img
    /\ getpixel ref_img x y = Ok (r1, g1, b1)
    /\ getpixel target_img x y = Ok (r2, g2, b2)
    /\ getpixel d x y
       = Ok (if 30 <? Z.abs (r1 - r2) + Z.abs (g1 - g2) + Z.abs (b1 - b2)
             then (255, 0, 0)
             else ((r2 + g2 + b2) `div` 3, (r2 + g2 + b2) `div` 3,
                   (r2 + g2 + b2) `div` 3)).
Proof.
  intros Hr Ht Hd Hvr Hvt Hs Hx Hy.
  assert (Hnr : nonempty ref_img = true) by (apply nonempty_positive; lia).
  assert (Hnt : nonempty target_img = true)
    by (rewrite <- (nonempty_same_size _ _ Hs); exact Hnr).
  rewrite (compare_screenshots_open resample w _ _ _ _ _ Hr Ht Hnr Hnt).
  assert (Hn : normalized resample ref_img target_img = target_img).
  { unfold normalized. case_bool_decide; [contradiction | reflexivity]. }
  rewrite Hn.
  destruct (compare_images_returns w ref_img target_img diff_path)
    as (s & Hsim & ->); try assumption; try lia.
  destruct (getpixel_lookup ref_img x y Hvr Hx Hy) as ([[r1 g1] b1] & Lr & Gr).
  assert (Hwt : img_width target_img = img_width ref_img)
    by (injection Hs; congruence).
  assert (Hht : img_height target_img = img_height ref_img)
    by (injection Hs; congruence).
  destruct (getpixel_lookup target_img x y Hvt) as ([[r2 g2] b2] & Lt & Gt);
    [lia | lia |]. rewrite Hwt in Lt.
  eexists (result_of ref_img target_img s), _, (scan_img (scan_of ref_img target_img)).
  exists r1, g1, b1, r2, g2, b2.
  split; [reflexivity|]. split; [reflexivity|].
  split; [cbn; apply lookup_insert_eq|]. split; [reflexivity|].
  split; [exact Gr|]. split; [exact Gt|].
  rewrite (getpixel_scan_img ref_img target_img x y _ _ Hx Hy Lr Lt).
  unfold visualize, pixel_diff, pixel_sum, threshold, red.
  rewrite !Z.add_0_l. reflexivity.
Qed.


(** ** What every returned result satisfies *)

Lemma for_each_seq_returns {S : Type} (body : nat -> S -> result S)
    (I : nat -> S -> Prop) (len start : nat) (s s' : S) :
  (forall i s0 s1, (start <= i < start + len)%nat ->
     body i s0 = Ok s1 -> I i s0 -> I (Datatypes.S i) s1) ->
  I start s ->
  for_each body (seq start len) s = Ok s' ->
  I (start + len)%nat s'.
Proof.
  revert start s. induction len as [|len IH]; intros start s Hstep Hs Hrun;
    cbn [seq for_each] in Hrun.
  - injection Hrun as <-. rewrite Nat.add_0_r. exact Hs.
  - destruct (body start s) as [s1|e] eqn:Hb; [|discriminate].
    replace (start + Datatypes.S len)%nat with (Datatypes.S start + len)%nat by lia.
    apply (IH (Datatypes.S start) s1); [| |exact Hrun].
    + intros i s0 s2 Hi. apply Hstep. lia.
    + apply (Hstep start s s1); [lia | exact Hb | exact Hs].
Qed.

Lemma compare_pixel_counts (ref_img target_img : Image) (y x : nat) (st st' : scan) :
  compare_pixel ref_img target_img y x st = Ok st' ->
  scan_different st <= scan_different st' <= scan_different st + 1.
Proof.
  unfold compare_pixel. intros Hrun.
  destruct (getpixel ref_img x y) as [rp|]; [|discriminate].
  destruct (getpixel target_img x y) as [tp|]; [|discriminate].
  cbn [mbind result_bind] in Hrun.
  destruct (threshold <? pixel_diff rp tp);
    destruct (putpixel (scan_img st) x y _) as [img|]; try discriminate;
    cbn in Hrun; injection Hrun as <-; cbn; lia.
Qed.

Lemma compare_row_counts (ref_img target_img : Image) (y : nat) (st st' : scan) :
  compare_row ref_img target_img y st = Ok st' ->
  scan_different st <= scan_different st'
    <= scan_different st + Z.of_nat (img_width ref_img).
Proof.
  unfold compare_row, range. intros Hrun.
  apply (for_each_seq_returns _
           (fun x s => scan_different st <= scan_different s
                       <= scan_different st + Z.of_nat x)) in Hrun.
  - exact Hrun.
  - intros x s0 s1 _ Hb Hs0. apply compare_pixel_counts in Hb. lia.
  - lia.
Qed.

Lemma compare_pixels_counts (ref_img target_img : Image) (st : scan) :
  compare_pixels ref_img target_img = Ok st ->
  0 <= scan_different st
    <= Z.of_nat (img_width ref_img) * Z.of_nat (img_height ref_img).
Proof.
  unfold compare_pixels, range. intros Hrun.
  apply (for_each_seq_returns _
           (fun y s => 0 <= scan_different s
                       <= Z.of_nat (img_width ref_img) * Z.of_nat y)) in Hrun.
  - exact Hrun.
  - intros y s0 s1 _ Hb Hs0. apply compare_row_counts in Hb. lia.
  - cbn. lia.
Qed.

Lemma compare_images_inv (w w' : world) (ref_img target_img : Image)
    (diff_path : string) (res : DiffResult) :
  compare_images ref_img target_img diff_path w = (Ok res, w') ->
  exists st,
    compare_pixels ref_img target_img = Ok st
    /\ total_pixels res = Z.of_nat (img_width ref_img) * Z.of_nat (img_height ref_img)
    /\ different_pixels res = scan_different st
    /\ similarity (total_pixels res) (different_pixels res)
       = Ok (similarity_percentage res)
    /\ passed res = PyFloat.geb (similarity_percentage res) PyFloat.f95.
Proof.
  unfold compare_images, mbind, M_bind, lift. cbn [size fst snd].
  destruct (compare_pixels ref_img target_img) as [st|]; [|discriminate].
  destruct (Image_save (scan_img st) diff_path w) as [[[]|] w1]; [|discriminate].
  destruct (similarity _ (scan_different st)) as [s|] eqn:Hsim; [|discriminate].
  intros Hrun. injection Hrun as <- <-. exists st. cbn. auto.
Qed.

(** A comparison that returns has opened two image files that have
    pixels. *)
Lemma compare_screenshots_opened
    (resample : Image -> nat * nat -> Resampling -> nat -> nat -> pixel)
    (w w' : world) (ref_path target_path diff_path : string) (res : DiffResult) :
  compare_screenshots resample ref_path target_path diff_path w = (Ok res, w') ->
  exists ref_img target_img,
    fs w !! ref_path = Some (ImageFile ref_img)
    /\ fs w !! target_path = Some (ImageFile target_img)
    /\ nonempty ref_img = true /\ nonempty target_img = true.
Proof.
  unfold compare_screenshots. unfold mbind, M_bind at 1. intros Hrun.
  destruct (Image_open ref_path w) as [[ref_img|e] w1] eqn:Hor; [|discriminate].
  apply Image_open_inv in Hor as (-> & Hr & Hnr).
  unfold M_bind at 1 in Hrun.
  destruct (Image_open target_path w) as [[target_img|e] w1] eqn:Hot;
    [|discriminate].
  apply Image_open_inv in Hot as (-> & Ht & Hnt).
  exists ref_img, target_img. auto.
Qed.

Lemma compare_screenshots_inv
    (resample : Image -> nat * nat -> Resampling -> nat -> nat -> pixel)
    (w w' : world) (ref_path target_path diff_path : string) (res : DiffResult) :
  compare_screenshots resample ref_path target_path diff_path w = (Ok res, w') ->
  exists ref_img target_img,
    fs w !! ref_path = Some (ImageFile ref_img)
    /\ fs w !! target_path = Some (ImageFile target_img)
    /\ compare_images ref_img (normalized resample ref_img target_img) diff_path w
       = (Ok res, w').
Proof.
  intros Hrun.
  destruct (compare_screenshots_opened resample w w' _ _ _ res Hrun)
    as (ref_img & target_img & Hr & Ht & Hnr & Hnt).
  exists ref_img, target_img. split; [exact Hr|]. split; [exact Ht|].
  rewrite <- Hrun. symmetry. apply compare_screenshots_open; assumption.
Qed.

(** C2: every result [compare_screenshots] returns has
    [different_pixels] between 0 and [total_pixels], has
    [similarity_percentage] equal to
    [(total_pixels - different_pixels) / total_pixels * 100] evaluated on its
    own two fields, and has [passed] true exactly when that float is at
    least 95.0. *)
Theorem compare_screenshots_result_invariants
    (resample : Image -> nat * nat -> Resampling -> nat -> nat -> pixel)
    (w w' : world) (ref_path target_path diff_path : string) (res : DiffResult) :
  compare_screenshots resample ref_path target_path diff_path w = (Ok res, w') ->
  0 <= different_pixels res <= total_pixels res
  /\ (exists q,
        PyFloat.int_true_divide (total_pixels res - different_pixels res)
          (total_pixels res) = Ok q
        /\ similarity_percentage res = PyFloat.mul q PyFloat.f100)
  /\ (passed res = true <->
      PyFloat.geb (similarity_percentage res) PyFloat.f95 = true).
Proof.
  intros Hrun.
  apply compare_screenshots_inv in Hrun as (ref_img & target_img & _ & _ & Hrun).
  apply compare_images_inv in Hrun as (st & Hscan & Htotal & Hdiff & Hsim & Hpass).
  apply compare_pixels_counts in Hscan.
  split; [rewrite Htotal, Hdiff; exact Hscan|]. split.
  - unfold similarity in Hsim.
    destruct (PyFloat.int_true_divide _ _) as [q|]; [|discriminate].
    exists q. split; [reflexivity|].
    unfold mbind, result_bind, mret, result_ret in Hsim.
    injection Hsim as Hs. symmetry. exact Hs.
  - rewrite Hpass. reflexivity.
Qed.

(** ** Identical and wholly different images *)

Lemma filter_differs_none (l : list (pixel * pixel)) :
  (forall rt, rt ∈ l -> ~ differs rt) -> filter differs l = [].
Proof.
  induction l as [|rt l IH]; intros Hall; [reflexivity|].
  rewrite filter_cons_False by (apply Hall; left).
  apply IH. intros rt' Hin. apply Hall. right. exact Hin.
Qed.

Lemma filter_differs_all (l : list (pixel * pixel)) :
  (forall rt, rt ∈ l -> differs rt) -> filter differs l = l.
Proof.
  induction l as [|rt l IH]; intros Hall; [reflexivity|].
  rewrite filter_cons_True by (apply Hall; left).
  f_equal. apply IH. intros rt' Hin. apply Hall. right. exact Hin.
Qed.

(** Every pair of the zipped buffers sits at a coordinate of the images. *)
Lemma zip_pair_at (ref_img target_img : Image) (rt : pixel * pixel) :
  valid_image ref_img -> valid_image target_img ->
  size ref_img = size target_img ->
  rt ∈ zip (img_data ref_img) (img_data target_img) ->
  exists x y, (x < img_width ref_img)%nat /\ (y < img_height ref_img)%nat
              /\ getpixel ref_img x y = Ok rt.1
              /\ getpixel target_img x y = Ok rt.2.
Proof.
  intros Hvr Hvt Hs Hin. destruct rt as [rp tp].
  apply list_elem_of_lookup in Hin as [i Hi].
  apply lookup_zip_Some in Hi as [Hrp Htp].
  assert (Hwt : img_width target_img = img_width ref_img)
    by (injection Hs; congruence).
  assert (Hht : img_height target_img = img_height ref_img)
    by (injection Hs; congruence).
  pose proof (lookup_lt_Some _ _ _ Hrp) as Hlt.
  rewrite Hvr in Hlt. unfold area, size in Hlt. cbn [fst snd] in Hlt.
  set (W := img_width ref_img) in *. set (H := img_height ref_img) in *.
  assert (HW : (0 < W)%nat) by nia.
  pose proof (Nat.div_mod_eq i W) as Hdm.
  pose proof (Nat.mod_upper_bound i W ltac:(lia)) as Hmod.
  assert (Hy : (i `div` W < H)%nat).
  { apply Nat.Div0.div_lt_upper_bound. lia. }
  assert (Hidx : (i `div` W * W + i `mod` W)%nat = i) by lia.
  exists (i `mod` W)%nat, (i `div` W)%nat.
  split; [exact Hmod|]. split; [exact Hy|]. cbn [fst snd].
  destruct (getpixel_lookup ref_img (i `mod` W) (i `div` W) Hvr Hmod Hy)
    as (p & Lp & ->).
  destruct (getpixel_lookup target_img (i `mod` W) (i `div` W) Hvt)
    as (q & Lq & ->); [lia | lia |].
  rewrite Hwt in Lq. fold W in Lp, Lq. rewrite Hidx in Lp, Lq.
  split; congruence.
Qed.

Lemma pixel_diff_diag (p : pixel) : pixel_diff p p = 0.
Proof. destruct p as [[r g] b]. unfold pixel_diff. rewrite !Z.sub_diag. reflexivity. Qed.

(** C3: two images of one size that are equal pixel for pixel compare to
    [different_pixels] 0, [similarity_percentage] 100.0 and [passed] true.
    The images are the ones the call opens from its two files; an image
    that opens has at least one pixel, so the division is defined. *)
Theorem compare_screenshots_identical
    (resample : Image -> nat * nat -> Resampling -> nat -> nat -> pixel)
    (w : world) (ref_path target_path diff_path : string)
    (ref_img target_img : Image) :
  Image_open ref_path w = (Ok ref_img, w) ->
  Image_open target_path w = (Ok target_img, w) ->
  fs w !! diff_path ≠ Some Directory ->
  valid_image ref_img -> valid_image target_img ->
  size ref_img = size target_img ->
  (forall x y, (x < img_width ref_img)%nat -> (y < img_height ref_img)%nat ->
     getpixel ref_img x y = getpixel target_img x y) ->
  exists res w',
    compare_screenshots resample ref_path target_path diff_path w = (Ok res, w')
    /\ different_pixels res = 0
    /\ similarity_percentage res = PyFloat.f100
    /\ passed res = true.
Proof.
  intros Hor Hot Hd Hvr Hvt Hs Hsame.
  apply Image_open_inv in Hor as (_ & Hr & Hnr).
  apply Image_open_inv in Hot as (_ & Ht & Hnt).
  destruct (proj1 (nonempty_positive ref_img) Hnr) as [Hw Hh].
  rewrite (compare_screenshots_open resample w _ _ _ _ _ Hr Ht Hnr Hnt).
  assert (Hn : normalized resample ref_img target_img = target_img).
  { unfold normalized. case_bool_decide; [contradiction | reflexivity]. }
  rewrite Hn.
  destruct (compare_images_returns w ref_img target_img diff_path)
    as (s & Hsim & ->); try assumption.
  assert (Hnone : scan_different (scan_of ref_img target_img) = 0).
  { unfold scan_of. cbn [scan_different].
    rewrite filter_differs_none; [reflexivity|].
    intros rt Hin.
    destruct (zip_pair_at ref_img target_img rt Hvr Hvt Hs Hin)
      as (x & y & Hx & Hy & Gr & Gt).
    rewrite (Hsame x y Hx Hy), Gt in Gr. injection Gr as Heq.
    unfold differs. rewrite <- Heq, pixel_diff_diag. unfold threshold. lia. }
  rewrite Hnone, similarity_all_same in Hsim by lia. injection Hsim as <-.
  eexists _, _. split; [reflexivity|].
  split; [exact Hnone|]. split; reflexivity.
Qed.

(** C4: two images of one size whose every pixel pair has a summed
    absolute channel difference above 30 compare to [different_pixels]
    equal to [total_pixels] (the reference's width times its height),
    [similarity_percentage] 0.0 and [passed] false. The images are the ones
    the call opens from its two files; an image that opens has at least
    one pixel. *)
Theorem compare_screenshots_all_different
    (resample : Image -> nat * nat -> Resampling -> nat -> nat -> pixel)
    (w : world) (ref_path target_path diff_path : string)
    (ref_img target_img : Image) :
  Image_open ref_path w = (Ok ref_img, w) ->
  Image_open target_path w = (Ok target_img, w) ->
  fs w !! diff_path ≠ Some Directory ->
  valid_image ref_img -> valid_image target_img ->
  size ref_img = size target_img ->
  (forall x y rp tp, (x < img_width ref_img)%nat -> (y < img_height ref_img)%nat ->
     getpixel ref_img x y = Ok rp -> getpixel target_img x y = Ok tp ->
     30 < pixel_diff rp tp) ->
  exists res w',
    compare_screenshots resample ref_path target_path diff_path w = (Ok res, w')
    /\ total_pixels res = Z.of_nat (img_width ref_img) * Z.of_nat (img_height ref_img)
    /\ different_pixels res = total_pixels res
    /\ similarity_percentage res = PyFloat.zero
    /\ passed res = false.
Proof.
  intros Hor Hot Hd Hvr Hvt Hs Hall.
  apply Image_open_inv in Hor as (_ & Hr & Hnr).
  apply Image_open_inv in Hot as (_ & Ht & Hnt).
  destruct (proj1 (nonempty_positive ref_img) Hnr) as [Hw Hh].
  rewrite (compare_screenshots_open resample w _ _ _ _ _ Hr Ht Hnr Hnt).
  assert (Hn : normalized resample ref_img target_img = target_img).
  { unfold normalized. case_bool_decide; [contradiction | reflexivity]. }
  rewrite Hn.
  destruct (compare_images_returns w ref_img target_img diff_path)
    as (s & Hsim & ->); try assumption.
  assert (Hfull : scan_different (scan_of ref_img target_img)
                  = Z.of_nat (img_width ref_img) * Z.of_nat (img_height ref_img)).
  { unfold scan_of. cbn [scan_different].
    rewrite filter_differs_all.
    - rewrite length_zip_with, Hvr.
      assert (Hlt : length (img_data target_img) = area (size ref_img))
        by (rewrite Hvt, Hs; reflexivity).
      rewrite Hlt. unfold area, size. cbn [fst snd]. lia.
    - intros rt Hin.
      destruct (zip_pair_at ref_img target_img rt Hvr Hvt Hs Hin)
        as (x & y & Hx & Hy & Gr & Gt).
      unfold differs, threshold. apply (Hall x y); assumption. }
  rewrite Hfull, similarity_all_different in Hsim by lia. injection Hsim as <-.
  eexists _, _. split; [reflexivity|]. split; [reflexivity|].
  split; [exact Hfull|]. split; reflexivity.
Qed.

(** ** Normalisation of the candidate's size *)

(** C5: a candidate of another size is replaced, before the comparison,
    by its LANCZOS resampling to the reference's size: the image compared
    has the reference's size and its pixel at every coordinate is the
    LANCZOS kernel's value on the candidate there, and that value is what
    the difference image shows against the reference's pixel; a candidate
    of the reference's size is compared as it is, whatever the resampling
    kernels are; and [total_pixels] is always the reference's width times
    its height. *)
Theorem compare_screenshots_normalization
    (resample : Image -> nat * nat -> Resampling -> nat -> nat -> pixel)
    (w : world) (ref_path target_path diff_path : string)
    (ref_img target_img : Image) :
  Image_open ref_path w = (Ok ref_img, w) ->
  Image_open target_path w = (Ok target_img, w) ->
  (size ref_img ≠ size target_img ->
     exists resampled,
       resize resample target_img (size ref_img) LANCZOS = Ok resampled
       /\ size resampled = size ref_img
       /\ valid_image resampled
       /\ (forall x y,
             (x < img_width ref_img)%nat -> (y < img_height ref_img)%nat ->
             getpixel resampled x y
             = Ok (resample target_img (size ref_img) LANCZOS x y))
       /\ compare_screenshots resample ref_path target_path diff_path w
          = compare_images ref_img resampled diff_path w
       /\ (valid_image ref_img -> fs w !! diff_path ≠ Some Directory ->
           exists res w' d,
             compare_screenshots resample ref_path target_path diff_path w
             = (Ok res, w')
             /\ fs w' !! diff_path = Some (ImageFile d)
             /\ size d = size ref_img
             /\ forall x y ref_pixel,
                  (x < img_width ref_img)%nat -> (y < img_height ref_img)%nat ->
                  getpixel ref_img x y = Ok ref_pixel ->
                  getpixel d x y
                  = Ok (visualize ref_pixel
                          (resample target_img (size ref_img) LANCZOS x y))))
  /\ (size ref_img = size target_img ->
      forall resample',
        compare_screenshots resample' ref_path target_path diff_path w
        = compare_images ref_img target_img diff_path w)
  /\ (forall res w',
        compare_screenshots resample ref_path target_path diff_path w = (Ok res, w') ->
        total_pixels res
        = Z.of_nat (img_width ref_img) * Z.of_nat (img_height ref_img)).
Proof.
  intros Hor Hot.
  apply Image_open_inv in Hor as (_ & Hr & Hnr).
  apply Image_open_inv in Hot as (_ & Ht & Hnt).
  destruct (proj1 (nonempty_positive ref_img) Hnr) as [Hw Hh].
  split; [|split].
  - intros Hne.
    set (kernel := resample target_img (size ref_img) LANCZOS).
    exists (tabulate (size ref_img) kernel).
    assert (Hpix : forall x y,
              (x < img_width ref_img)%nat -> (y < img_height ref_img)%nat ->
              getpixel (tabulate (size ref_img) kernel) x y = Ok (kernel x y))
      by (intros x y Hx Hy; apply getpixel_tabulate; assumption).
    assert (Hrun : compare_screenshots resample ref_path target_path diff_path w
                   = compare_images ref_img (tabulate (size ref_img) kernel)
                       diff_path w).
    { rewrite (compare_screenshots_open resample w _ _ _ _ _ Hr Ht Hnr Hnt).
      unfold normalized. rewrite bool_decide_true by exact Hne. reflexivity. }
    split; [apply resize_run; exact Hnr|].
    split; [apply tabulate_size|].
    split; [apply tabulate_valid|].
    split; [exact Hpix|].
    split; [exact Hrun|].
    intros Hvr Hd. rewrite Hrun.
    destruct (compare_images_returns w ref_img (tabulate (size ref_img) kernel)
                diff_path Hvr (tabulate_valid _ _)
                (eq_sym (tabulate_size _ _)) Hd Hw Hh) as (s & _ & ->).
    eexists _, _, (scan_img (scan_of ref_img (tabulate (size ref_img) kernel))).
    split; [reflexivity|].
    split; [cbn; apply lookup_insert_eq|].
    split; [reflexivity|].
    intros x y ref_pixel Hx Hy Gr.
    destruct (getpixel_lookup ref_img x y Hvr Hx Hy) as (rp & Lr & Gr').
    rewrite Gr in Gr'. injection Gr' as <-.
    destruct (getpixel_lookup (tabulate (size ref_img) kernel) x y
                (tabulate_valid _ _)) as (tp & Lt & Gt); [exact Hx | exact Hy |].
    rewrite Hpix in Gt by assumption. injection Gt as <-.
    cbn [tabulate img_width size fst] in Lt.
    apply (getpixel_scan_img ref_img _ x y _ _ Hx Hy Lr Lt).
  - intros Heq resample'.
    rewrite (compare_screenshots_open resample' w _ _ _ _ _ Hr Ht Hnr Hnt).
    unfold normalized. rewrite bool_decide_false by (intros Hne; contradiction).
    reflexivity.
  - intros res w' Hrun.
    rewrite (compare_screenshots_open resample w _ _ _ _ _ Hr Ht Hnr Hnt) in Hrun.
    apply compare_images_inv in Hrun as (st & _ & Htotal & _). exact Htotal.
Qed.

(** ** The division by [total_pixels] *)

Lemma for_each_raises {A S : Type} (body : A -> S -> result S)
    (Q : exn -> Prop) (l : list A) (s : S) (e : exn) :
  (forall a s0 e0, body a s0 = Raise e0 -> Q e0) ->
  for_each body l s = Raise e -> Q e.
Proof.
  intros Hbody. revert s. induction l as [|a l IH]; intros s; cbn [for_each].
  - discriminate.
  - destruct (body a s) as [s1|e1] eqn:Hb.
    + apply IH.
    + intros H. injection H as <-. eapply Hbody. exact Hb.
Qed.

(** The scan raises nothing but IndexError. *)
Lemma compare_pixels_raises (ref_img target_img : Image) (e : exn) :
  compare_pixels ref_img target_img = Raise e -> e = IndexError.
Proof.
  unfold compare_pixels. apply (for_each_raises _ (fun e => e = IndexError)).
  intros y st0 e0. unfold compare_row.
  apply (for_each_raises _ (fun e => e = IndexError)). clear. intros x st e.
  unfold compare_pixel, getpixel, putpixel.
  destruct (in_bounds ref_img x y); [|intros H; injection H as <-; reflexivity].
  destruct (img_data ref_img !! offset ref_img x y) as [rp|];
    [|intros H; injection H as <-; reflexivity].
  cbn [mbind result_bind].
  destruct (in_bounds target_img x y); [|intros H; injection H as <-; reflexivity].
  destruct (img_data target_img !! offset target_img x y) as [tp|];
    [|intros H; injection H as <-; reflexivity].
  cbn [mbind result_bind].
  destruct (threshold <? pixel_diff rp tp);
    (destruct (in_bounds (scan_img st) x y);
     [discriminate | intros H; injection H as <-; reflexivity]).
Qed.

(** The difference image keeps the reference's size through the scan. *)
Lemma compare_pixel_size (ref_img target_img : Image) (y x : nat) (st st' : scan) :
  compare_pixel ref_img target_img y x st = Ok st' ->
  size (scan_img st') = size (scan_img st).
Proof.
  unfold compare_pixel. intros Hrun.
  destruct (getpixel ref_img x y) as [rp|]; [|discriminate].
  destruct (getpixel target_img x y) as [tp|]; [|discriminate].
  cbn [mbind result_bind] in Hrun. unfold putpixel in Hrun.
  destruct (threshold <? pixel_diff rp tp);
    destruct (in_bounds (scan_img st) x y); try discriminate;
    cbn in Hrun; injection Hrun as <-; reflexivity.
Qed.

Lemma compare_row_size (ref_img target_img : Image) (y : nat) (st st' : scan) :
  compare_row ref_img target_img y st = Ok st' ->
  size (scan_img st') = size (scan_img st).
Proof.
  unfold compare_row, range. intros Hrun.
  apply (for_each_seq_returns _
           (fun _ s => size (scan_img s) = size (scan_img st))) in Hrun.
  - exact Hrun.
  - intros x s0 s1 _ Hb Hs0. apply compare_pixel_size in Hb. congruence.
  - reflexivity.
Qed.

Lemma compare_pixels_size (ref_img target_img : Image) (st : scan) :
  compare_pixels ref_img target_img = Ok st ->
  size (scan_img st) = size ref_img.
Proof.
  unfold compare_pixels, range. intros Hrun.
  apply (for_each_seq_returns _
           (fun _ s => size (scan_img s) = size ref_img)) in Hrun.
  - exact Hrun.
  - intros y s0 s1 _ Hb Hs0. apply compare_row_size in Hb. congruence.
  - destruct ref_img. reflexivity.
Qed.

Lemma int_true_divide_nonzero (a b : Z) :
  b ≠ 0 -> PyFloat.int_true_divide a b ≠ Raise ZeroDivisionError.
Proof.
  intros Hb. unfold PyFloat.int_true_divide.
  destruct (Z.eqb_spec b 0); [contradiction|].
  destruct (a =? 0); [discriminate|].
  destruct (SFdiv_core_binary _ _ _ _ _ _) as [[q e1] l].
  destruct (binary_round_aux _ _ _ _ _ _); discriminate.
Qed.

Lemma similarity_nonzero (total different : Z) :
  total ≠ 0 -> similarity total different ≠ Raise ZeroDivisionError.
Proof.
  intros Ht. unfold similarity.
  pose proof (int_true_divide_nonzero (total - different) total Ht) as Hq.
  destruct (PyFloat.int_true_divide (total - different) total) as [q|e];
    [discriminate|].
  cbn [mbind result_bind]. exact Hq.
Qed.

(** The comparison of two images in memory never divides by zero: a
    reference without pixels does not get past [save]. *)
Lemma compare_images_never_divides_by_zero (w : world)
    (ref_img target_img : Image) (diff_path : string) :
  (compare_images ref_img target_img diff_path w).1 ≠ Raise ZeroDivisionError.
Proof.
  unfold compare_images, mbind, M_bind, lift. cbn [size fst snd].
  destruct (compare_pixels ref_img target_img) as [st|e] eqn:Hscan.
  2:{ apply compare_pixels_raises in Hscan as ->. discriminate. }
  assert (Hsize : nonempty (scan_img st) = nonempty ref_img).
  { apply nonempty_same_size. eapply compare_pixels_size. exact Hscan. }
  unfold Image_save. rewrite Hsize.
  destruct (nonempty ref_img) eqn:Hn.
  - apply nonempty_positive in Hn as [Hw Hh].
    pose proof (similarity_nonzero
                  (Z.of_nat (img_width ref_img) * Z.of_nat (img_height ref_img))
                  (scan_different st)) as Hsim.
    destruct (fs w !! diff_path) as [[]|]; cbn [fst]; try discriminate;
      (destruct (similarity _ _) as [x|e];
       [discriminate
       | cbn [fst]; intros He; injection He as ->; apply Hsim; [nia | reflexivity]]).
  - destruct (fs w !! diff_path) as [[]|]; discriminate.
Qed.

(** C10, amended: the division by [total_pixels] has no guard of its own,
    and needs none. Whenever both files open, the reference has positive
    width and height and, the images being well formed and the difference
    image writable, the call returns a result whose [total_pixels] is the
    reference's width times its height, a positive number. A reference
    file of zero area is refused when it is opened, so the division is not
    reached, and on no input at all does the call raise
    ZeroDivisionError. *)
Theorem compare_screenshots_division
    (resample : Image -> nat * nat -> Resampling -> nat -> nat -> pixel)
    (w : world) (ref_path target_path diff_path : string) :
  (forall ref_img target_img,
     Image_open ref_path w = (Ok ref_img, w) ->
     Image_open target_path w = (Ok target_img, w) ->
     fs w !! diff_path ≠ Some Directory ->
     valid_image ref_img -> valid_image target_img ->
     (0 < img_width ref_img)%nat /\ (0 < img_height ref_img)%nat
     /\ exists res w',
          compare_screenshots resample ref_path target_path diff_path w
          = (Ok res, w')
          /\ total_pixels res
             = Z.of_nat (img_width ref_img) * Z.of_nat (img_height ref_img)
          /\ 0 < total_pixels res)
  /\ (forall ref_img,
        fs w !! ref_path = Some (ImageFile ref_img) ->
        (img_width ref_img = 0 \/ img_height ref_img = 0)%nat ->
        compare_screenshots resample ref_path target_path diff_path w
        = (Raise (UnidentifiedImageError ref_path), w))
  /\ (compare_screenshots resample ref_path target_path diff_path w).1
     ≠ Raise ZeroDivisionError.
Proof.
  split; [|split].
  - intros ref_img target_img Hor Hot Hd Hvr Hvt.
    apply Image_open_inv in Hor as (_ & Hr & Hnr).
    apply Image_open_inv in Hot as (_ & Ht & Hnt).
    destruct (proj1 (nonempty_positive ref_img) Hnr) as [Hw Hh].
    split; [exact Hw|]. split; [exact Hh|].
    rewrite (compare_screenshots_open resample w _ _ _ _ _ Hr Ht Hnr Hnt).
    pose proof (normalized_valid resample ref_img target_img Hvt) as Hvn.
    pose proof (normalized_size resample ref_img target_img) as Hsn.
    symmetry in Hsn.
    destruct (compare_images_returns w ref_img
                (normalized resample ref_img target_img) diff_path)
      as (s & Hsim & ->); try assumption.
    eexists _, _. split; [reflexivity|]. cbn. lia.
  - intros ref_img Hr Hz.
    assert (Hn : nonempty ref_img = false).
    { destruct (nonempty ref_img) eqn:Hn; [|reflexivity].
      apply nonempty_positive in Hn. lia. }
    unfold compare_screenshots, mbind, M_bind at 1.
    rewrite (Image_open_empty _ _ _ Hr Hn). reflexivity.
  - unfold compare_screenshots. unfold mbind, M_bind at 1.
    destruct (Image_open ref_path w) as [[ref_img|e] w1] eqn:Hor.
    2:{ apply Image_open_raises in Hor as (_ & [-> | [-> | ->]]); discriminate. }
    apply Image_open_inv in Hor as (-> & Hr & Hnr).
    unfold M_bind at 1.
    destruct (Image_open target_path w) as [[target_img|e] w1] eqn:Hot.
    2:{ apply Image_open_raises in Hot as (_ & [-> | [-> | ->]]); discriminate. }
    apply Image_open_inv in Hot as (-> & Ht & Hnt).
    unfold M_bind at 1. rewrite (normalize_run resample _ _ Hnr).
    unfold lift at 1.
    apply (compare_images_never_divides_by_zero w ref_img
             (normalized resample ref_img target_img) diff_path).
Qed.

(** C10 fails as stated on a reference of zero area: the file is refused
    when it is opened, whether it has no rows or rows of width 0, and the
    division is not reached; an image without pixels handed to the
    comparison in memory is stopped by [save], one step before the
    division. *)
Lemma zero_area_reference_not_divided :
  compare_screenshots resample_nearest "reference.png" "target.png" "diff.png"
    (two_files empty_image checker)
  = (Raise (UnidentifiedImageError "reference.png"), two_files empty_image checker)
  /\ compare_screenshots resample_nearest "reference.png" "target.png" "diff.png"
       (two_files empty_rows empty_rows)
     = (Raise (UnidentifiedImageError "reference.png"),
        two_files empty_rows empty_rows)
  /\ compare_images empty_image empty_image "diff.png" empty_world
     = (Raise ValueError, empty_world)
  /\ similarity 0 0 = Raise ZeroDivisionError.
Proof. vm_compute. auto. Qed.

(** ** Viewport gates *)

Lemma run_parametrized_names (test : string -> viewport -> M unit)
    (params : list (string * viewport)) (w : world) :
  (run_parametrized test params w).1.*1 = params.*1.
Proof.
  revert w. induction params as [|[name vp] rest IH]; intros w; [reflexivity|].
  cbn [run_parametrized]. destruct (test name vp w) as [r w1].
  specialize (IH w1). destruct (run_parametrized test rest w1) as [rs w2].
  cbn in *. rewrite IH. reflexivity.
Qed.

(** C9: the fixed-position test is instantiated exactly for the catalogue's
    viewports of width at least 992 and the two-column test exactly for
    those of width at least 640; a viewport of width 375 is in neither
    argument list, so no outcome, passing or failing, is recorded for it:
    the runs are those of desktop and wide, resp. tablet, desktop and
    wide. *)
Theorem viewport_gated_tests (P : provider) (w : world) :
  (forall name vp,
     ((name, vp) ∈ fixed_position_params)
     <-> ((name, vp) ∈ VIEWPORTS /\ 992 <= vp_width vp))
  /\ (forall name vp,
        ((name, vp) ∈ two_column_params)
        <-> ((name, vp) ∈ VIEWPORTS /\ 640 <= vp_width vp))
  /\ (forall name vp,
        vp_width vp = 375 ->
        ((name, vp) ∉ fixed_position_params) /\ ((name, vp) ∉ two_column_params))
  /\ (run_parametrized (test_header_fixed_position_desktop P)
        fixed_position_params w).1.*1 = ["desktop"; "wide"]%string
  /\ (run_parametrized (test_homepage_two_column_layout P)
        two_column_params w).1.*1 = ["tablet"; "desktop"; "wide"]%string.
Proof.
  assert (Hfixed : forall name vp,
            ((name, vp) ∈ fixed_position_params)
            <-> ((name, vp) ∈ VIEWPORTS /\ 992 <= vp_width vp)).
  { intros name vp. unfold fixed_position_params.
    rewrite list_elem_of_filter. cbn. tauto. }
  assert (Htwo : forall name vp,
            ((name, vp) ∈ two_column_params)
            <-> ((name, vp) ∈ VIEWPORTS /\ 640 <= vp_width vp)).
  { intros name vp. unfold two_column_params.
    rewrite list_elem_of_filter. cbn. tauto. }
  split; [exact Hfixed|]. split; [exact Htwo|]. split; [|split].
  - intros name vp Hw. split; intros Hin.
    + apply Hfixed in Hin. lia.
    + apply Htwo in Hin. lia.
  - rewrite run_parametrized_names. reflexivity.
  - rewrite run_parametrized_names. reflexivity.
Qed.

(** ** Running the tests step by step *)

Lemma bind_run {A B} (m : M A) (f : A -> M B) (w : world) :
  (m ≫= f) w
  = match m w with
    | (Ok a, w') => f a w'
    | (Raise e, w') => (Raise e, w')
    end.
Proof. reflexivity. Qed.

Lemma try_finally_run {A} (body : M A) (cleanup : M unit) (w : world) :
  try_finally body cleanup w
  = match cleanup (body w).2 with
    | (Ok _, w2) => ((body w).1, w2)
    | (Raise e, w2) => (Raise e, w2)
    end.
Proof. unfold try_finally. destruct (body w). reflexivity. Qed.

Lemma live_page_run (page : nat) (p : page_state) (w : world) :
  pages w !! page = Some p -> page_closed p = false ->
  live_page page w = (Ok p, w).
Proof. intros Hp Hc. unfold live_page. rewrite Hp, Hc. reflexivity. Qed.

Lemma try_finally_eq {A} (body : M A) (cleanup : M unit) (w w1 w2 : world)
    (r : result A) :
  body w = (r, w1) -> cleanup w1 = (Ok tt, w2) ->
  try_finally body cleanup w = (r, w2).
Proof. intros Hb Hc. unfold try_finally. rewrite Hb, Hc. reflexivity. Qed.

Section Steps.
Variable P : provider.
Hypothesis no_fault : forall c, fault P c = None.

Lemma provider_call_run (c : call) (w : world) :
  provider_call P c w = (Ok tt, w).
Proof. unfold provider_call. rewrite no_fault. reflexivity. Qed.

Lemma new_page_run (vp : option viewport) (f : gmap string file)
    (ps : list page_state) (out : list string) :
  new_page P vp (mkWorld f ps out)
  = (Ok (length ps),
     mkWorld f (ps ++ [mkPage vp (render P "about:blank" vp) false]) out).
Proof. unfold new_page. rewrite no_fault. reflexivity. Qed.

Lemma goto_run (page : nat) (url : string) (p : page_state)
    (f : gmap string file) (ps : list page_state) (out : list string) :
  ps !! page = Some p -> page_closed p = false ->
  goto P page url (mkWorld f ps out)
  = (Ok tt,
     mkWorld f
       (<[page := mkPage (page_viewport p) (render P url (page_viewport p)) false]> ps)
       out).
Proof.
  intros Hp Hc. unfold goto.
  rewrite bind_run, provider_call_run. cbv beta iota.
  rewrite bind_run, (live_page_run page p) by assumption. reflexivity.
Qed.

Lemma wait_for_load_state_run (page : nat) (p : page_state)
    (f : gmap string file) (ps : list page_state) (out : list string) :
  ps !! page = Some p -> page_closed p = false ->
  wait_for_load_state P page (mkWorld f ps out) = (Ok tt, mkWorld f ps out).
Proof.
  intros Hp Hc. unfold wait_for_load_state.
  rewrite bind_run, provider_call_run. cbv beta iota.
  rewrite bind_run, (live_page_run page p) by assumption. reflexivity.
Qed.

Lemma screenshot_run (page : nat) (path : string) (p : page_state)
    (f : gmap string file) (ps : list page_state) (out : list string) :
  ps !! page = Some p -> page_closed p = false ->
  f !! path ≠ Some Directory ->
  screenshot P page path (mkWorld f ps out)
  = (Ok tt,
     mkWorld (<[path := ImageFile (full_page (page_document p))]> f) ps out).
Proof.
  intros Hp Hc Hf. unfold screenshot.
  rewrite bind_run, provider_call_run. cbv beta iota.
  rewrite bind_run, (live_page_run page p) by assumption. cbv beta iota.
  unfold write_file. cbn [fs pages stdout].
  destruct (f !! path) as [[]|]; try reflexivity. contradiction.
Qed.

Lemma close_run (page : nat) (p : page_state)
    (f : gmap string file) (ps : list page_state) (out : list string) :
  ps !! page = Some p ->
  close P page (mkWorld f ps out)
  = (Ok tt,
     mkWorld f (<[page := mkPage (page_viewport p) (page_document p) true]> ps) out).
Proof.
  intros Hp. unfold close.
  rewrite bind_run, provider_call_run. cbv beta iota.
  unfold mark_closed. cbn [fs pages stdout]. rewrite Hp. reflexivity.
Qed.
End Steps.

Lemma tail2_lookup_0 {A} (l : list A) (a b : A) :
  (l ++ [a; b]) !! length l = Some a.
Proof. rewrite lookup_app_r by lia. rewrite Nat.sub_diag. reflexivity. Qed.

Lemma tail2_lookup_1 {A} (l : list A) (a b : A) :
  (l ++ [a; b]) !! Datatypes.S (length l) = Some b.
Proof.
  rewrite lookup_app_r by lia.
  replace (Datatypes.S (length l) - length l)%nat with 1%nat by lia. reflexivity.
Qed.

Lemma tail2_insert_0 {A} (l : list A) (a b x : A) :
  <[length l := x]> (l ++ [a; b]) = l ++ [x; b].
Proof.
  rewrite insert_app_r_alt by lia. rewrite Nat.sub_diag. reflexivity.
Qed.

Lemma tail2_insert_1 {A} (l : list A) (a b x : A) :
  <[Datatypes.S (length l) := x]> (l ++ [a; b]) = l ++ [a; x].
Proof.
  rewrite insert_app_r_alt by lia.
  replace (Datatypes.S (length l) - length l)%nat with 1%nat by lia. reflexivity.
Qed.

Lemma tail1_lookup {A} (l : list A) (a : A) : (l ++ [a]) !! length l = Some a.
Proof. rewrite lookup_app_r by lia. rewrite Nat.sub_diag. reflexivity. Qed.

Lemma tail1_insert {A} (l : list A) (a x : A) :
  <[length l := x]> (l ++ [a]) = l ++ [x].
Proof. rewrite insert_app_r_alt by lia. rewrite Nat.sub_diag. reflexivity. Qed.

(** ** Absent elements *)

Lemma get_computed_styles_absent (page : nat) (selector : string)
    (p : page_state) (w : world) :
  pages w !! page = Some p -> page_closed p = false ->
  querySelector (page_document p) selector = None ->
  get_computed_styles page selector w = (Ok None, w).
Proof.
  intros Hp Hc Hq. unfold get_computed_styles.
  rewrite bind_run, (live_page_run page p) by assumption. cbv beta iota.
  rewrite Hq. reflexivity.
Qed.

Lemma get_element_position_absent (page : nat) (selector : string)
    (p : page_state) (w : world) :
  pages w !! page = Some p -> page_closed p = false ->
  querySelector (page_document p) selector = None ->
  get_element_position page selector w = (Ok None, w).
Proof.
  intros Hp Hc Hq. unfold get_element_position.
  rewrite bind_run, (live_page_run page p) by assumption. cbv beta iota.
  rewrite Hq. reflexivity.
Qed.

Lemma get_computed_styles_run (page : nat) (selector : string)
    (p : page_state) (w : world) :
  pages w !! page = Some p -> page_closed p = false ->
  exists r, get_computed_styles page selector w = (Ok r, w)
            /\ truthy r = truthy (querySelector (page_document p) selector).
Proof.
  intros Hp Hc. unfold get_computed_styles.
  rewrite bind_run, (live_page_run page p) by assumption. cbv beta iota.
  eexists. split; [reflexivity|].
  destruct (querySelector (page_document p) selector); reflexivity.
Qed.

Lemma check_element_visible_absent (page : nat) (selector : string)
    (p : page_state) (w : world) :
  pages w !! page = Some p -> page_closed p = false ->
  querySelector (page_document p) selector = None ->
  check_element_visible page selector w = (Ok false, w).
Proof.
  intros Hp Hc Hq. unfold check_element_visible, try_except.
  rewrite bind_run, (live_page_run page p) by assumption. cbv beta iota.
  unfold querySelector in Hq. rewrite Hq. reflexivity.
Qed.

(** The heading test passes when the heading is missing on either site. *)
Lemma test_heading_styles_skips (P : provider)
    (py_float : string -> result PyFloat.float)
    (py_format : string -> PyFloat.float -> string) (w : world) :
  (forall c, fault P c = None) ->
  querySelector (render P (index_url REFERENCE_URL) None) "header h1" = None
  \/ querySelector (render P (index_url TARGET_URL) None) "header h1" = None ->
  (test_heading_styles P py_float py_format w).1 = Ok tt.
Proof.
  intros Hnf Habs. destruct w as [f ps out]. unfold test_heading_styles.
  rewrite bind_run, (new_page_run P Hnf). cbv beta iota.
  rewrite bind_run, (new_page_run P Hnf). cbv beta iota.
  rewrite length_app, <- app_assoc. cbn [length app].
  replace (length ps + 1)%nat with (Datatypes.S (length ps)) by lia.
  set (blank := mkPage None (render P "about:blank" None) false).
  set (pr := mkPage None (render P (index_url REFERENCE_URL) None) false).
  set (pt := mkPage None (render P (index_url TARGET_URL) None) false).
  erewrite try_finally_eq; [reflexivity | |].
  - rewrite bind_run, (goto_run P Hnf _ _ blank) by (apply tail2_lookup_0 || reflexivity).
    cbv beta iota. rewrite tail2_insert_0. cbn [page_viewport blank]. fold pr.
    rewrite bind_run, (goto_run P Hnf _ _ blank) by (apply tail2_lookup_1 || reflexivity).
    cbv beta iota. rewrite tail2_insert_1. cbn [page_viewport blank]. fold pt.
    destruct (get_computed_styles_run (length ps) "header h1" pr
                (mkWorld f (ps ++ [pr; pt]) out)) as (r1 & E1 & T1);
      [apply tail2_lookup_0 | reflexivity |].
    rewrite bind_run, E1. cbv beta iota.
    destruct (get_computed_styles_run (Datatypes.S (length ps)) "header h1" pt
                (mkWorld f (ps ++ [pr; pt]) out)) as (r2 & E2 & T2);
      [apply tail2_lookup_1 | reflexivity |].
    rewrite bind_run, E2. cbv beta iota.
    rewrite T1, T2. cbn [page_document pr pt].
    destruct Habs as [-> | ->]; cbn [truthy andb];
      [|rewrite andb_false_r]; reflexivity.
  - rewrite bind_run, (close_run P Hnf _ pr) by apply tail2_lookup_0.
    cbv beta iota. rewrite tail2_insert_0.
    rewrite (close_run P Hnf _ pt) by apply tail2_lookup_1. reflexivity.
Qed.

Lemma check_element_visible_run (page : nat) (selector : string) (w : world) :
  exists b, check_element_visible page selector w = (Ok b, w).
Proof.
  unfold check_element_visible, try_except. rewrite bind_run.
  unfold live_page. destruct (pages w !! page) as [p|]; [destruct (page_closed p)|];
    eexists; reflexivity.
Qed.

(** The two-column test fails on its visibility assertion when the sidebar
    is missing. *)
Lemma test_homepage_two_column_layout_absent (P : provider)
    (viewport_name : string) (vp : viewport) (w : world) :
  (forall c, fault P c = None) ->
  querySelector (render P (index_url TARGET_URL) (Some vp)) "aside" = None ->
  (test_homepage_two_column_layout P viewport_name vp w).1
  = Raise (AssertionError ("Sidebar not visible on " +:+ viewport_name)).
Proof.
  intros Hnf Habs. destruct w as [f ps out].
  unfold test_homepage_two_column_layout.
  rewrite bind_run, (new_page_run P Hnf). cbv beta iota.
  set (blank := mkPage (Some vp) (render P "about:blank" (Some vp)) false).
  set (pt := mkPage (Some vp) (render P (index_url TARGET_URL) (Some vp)) false).
  erewrite try_finally_eq; [reflexivity | |].
  - rewrite bind_run, (goto_run P Hnf _ _ blank) by (apply tail1_lookup || reflexivity).
    cbv beta iota. rewrite tail1_insert. cbn [page_viewport blank]. fold pt.
    rewrite bind_run, (wait_for_load_state_run P Hnf _ pt)
      by (apply tail1_lookup || reflexivity).
    cbv beta iota.
    rewrite bind_run, (check_element_visible_absent _ _ pt)
      by (apply tail1_lookup || reflexivity || exact Habs).
    cbv beta iota.
    destruct (check_element_visible_run (length ps) "article"
                (mkWorld f (ps ++ [pt]) out)) as [b Hb].
    rewrite bind_run, Hb. cbv beta iota.
    rewrite bind_run. reflexivity.
  - apply (close_run P Hnf _ pt). apply tail1_lookup.
Qed.

(** C6, amended: on a live page a selector without a matching element
    makes both extractors return [None], without raising and without
    changing the world; the heading-size test then passes without
    comparing sizes, and the two-column test fails on its visibility
    assertion with the reason "Sidebar not visible on <viewport>". *)
Theorem absent_element_outcomes (P : provider)
    (py_float : string -> result PyFloat.float)
    (py_format : string -> PyFloat.float -> string)
    (w : world) (page : nat) (p : page_state) (selector : string)
    (viewport_name : string) (vp : viewport) :
  (forall c, fault P c = None) ->
  pages w !! page = Some p -> page_closed p = false ->
  querySelector (page_document p) selector = None ->
  get_computed_styles page selector w = (Ok None, w)
  /\ get_element_position page selector w = (Ok None, w)
  /\ (querySelector (render P (index_url REFERENCE_URL) None) "header h1" = None
      \/ querySelector (render P (index_url TARGET_URL) None) "header h1" = None ->
      (test_heading_styles P py_float py_format w).1 = Ok tt)
  /\ (querySelector (render P (index_url TARGET_URL) (Some vp)) "aside" = None ->
      (test_homepage_two_column_layout P viewport_name vp w).1
      = Raise (AssertionError ("Sidebar not visible on " +:+ viewport_name))).
Proof.
  intros Hnf Hp Hc Hq.
  split; [apply (get_computed_styles_absent page selector p); assumption|].
  split; [apply (get_element_position_absent page selector p); assumption|].
  split.
  - apply test_heading_styles_skips. exact Hnf.
  - apply test_homepage_two_column_layout_absent. exact Hnf.
Qed.

(** C6 fails as stated on a site without any element: the heading-size
    test passes, the fixed-position and background tests end in a
    TypeError, the two-column test fails for another reason; none fails with
    the reason "element not found". *)
Lemma absent_element_not_reported :
  querySelector (render two_checkers (index_url TARGET_URL) None) "header h1" = None
  /\ (test_heading_styles two_checkers no_float no_format empty_world).1 = Ok tt
  /\ (test_header_fixed_position_desktop two_checkers "desktop" desktop
        empty_world).1 = Raise TypeError
  /\ (test_header_background_color two_checkers "desktop" desktop
        empty_world).1 = Raise TypeError
  /\ (test_homepage_two_column_layout two_checkers "desktop" desktop
        empty_world).1 = Raise (AssertionError "Sidebar not visible on desktop")
  /\ (test_heading_styles two_checkers no_float no_format empty_world).1
     ≠ Raise (AssertionError "element not found").
Proof. vm_compute. repeat split; discriminate. Qed.

(** ** The screenshot test *)

Lemma append_inj_r (d a b : string) : d +:+ a = d +:+ b -> a = b.
Proof. apply String.app_inj. Qed.

Lemma append_length (d a : string) :
  String.length (d +:+ a) = (String.length d + String.length a)%nat.
Proof. induction d as [|c d IH]; simpl; [reflexivity|]. rewrite IH. reflexivity. Qed.

Lemma path_join_inj (d a b : string) : path_join d a = path_join d b -> a = b.
Proof.
  unfold path_join. intros H. apply append_inj_r in H.
  apply append_inj_r in H. exact H.
Qed.

Lemma path_join_ne (d a : string) : path_join d a ≠ d.
Proof.
  unfold path_join. intros H. apply (f_equal String.length) in H.
  rewrite !append_length in H. simpl in H. lia.
Qed.

Lemma mkdir_run (path : string) (f : gmap string file)
    (ps : list page_state) (out : list string) :
  f !! path = None \/ f !! path = Some Directory ->
  exists f',
    mkdir path (mkWorld f ps out) = (Ok tt, mkWorld f' ps out)
    /\ (forall q, q ≠ path -> f' !! q = f !! q).
Proof.
  intros [Hf|Hf]; unfold mkdir; cbn [fs pages stdout]; rewrite Hf.
  - eexists. split; [reflexivity|]. intros q Hq. apply lookup_insert_ne. congruence.
  - eexists. split; [reflexivity|]. auto.
Qed.

Lemma print_run (line : string) (f : gmap string file)
    (ps : list page_state) (out : list string) :
  print line (mkWorld f ps out) = (Ok tt, mkWorld f ps (out ++ [line])).
Proof. reflexivity. Qed.

Lemma json_dump_run (r : DiffResult) (path : string) (f : gmap string file)
    (ps : list page_state) (out : list string) :
  f !! path ≠ Some Directory ->
  json_dump r path (mkWorld f ps out)
  = (Ok tt, mkWorld (<[path := ResultFile r]> f) ps out).
Proof.
  intros Hf. unfold json_dump, write_file. cbn [fs pages stdout].
  destruct (f !! path) as [[]|]; try reflexivity. contradiction.
Qed.

(** C7: when the provider raises nothing, its captures are valid images of
    positive size and the output directory can be created, the screenshot
    test passes whatever the similarity is: it stores the result, prints the
    similarity line, prints one more warning line when [passed] is false,
    closes both pages and raises nothing. *)
Theorem screenshot_shortfall_not_fatal
    (resample : Image -> nat * nat -> Resampling -> nat -> nat -> pixel)
    (P : provider) (py_format : string -> PyFloat.float -> string)
    (page_path viewport_name : string) (vp : viewport) (w : world) :
  (forall c, fault P c = None) ->
  (forall url, valid_image (full_page (render P url (Some vp)))
               /\ (0 < img_width (full_page (render P url (Some vp))))%nat
               /\ (0 < img_height (full_page (render P url (Some vp))))%nat) ->
  (fs w !! path_join (path_join OUTPUT_DIR (page_name_of page_path)) viewport_name
     = None
   \/ fs w !! path_join (path_join OUTPUT_DIR (page_name_of page_path)) viewport_name
      = Some Directory) ->
  (forall name,
     fs w !! path_join
               (path_join (path_join OUTPUT_DIR (page_name_of page_path))
                  viewport_name) name
     ≠ Some Directory) ->
  exists res w' page_ref page_target,
    test_page_screenshot_similarity resample P py_format page_path
      viewport_name vp w = (Ok tt, w')
    /\ fs w' !! path_join
                  (path_join (path_join OUTPUT_DIR (page_name_of page_path))
                     viewport_name) "comparison_result.json"
       = Some (ResultFile res)
    /\ stdout w' = stdout w ++ report_lines py_format page_path viewport_name res
    /\ pages w' = pages w ++ [page_ref; page_target]
    /\ page_closed page_ref = true /\ page_closed page_target = true.
Proof.
  intros Hnf Hvalid Hdir Hfiles. destruct w as [f ps out]. cbn [fs pages stdout] in *.
  set (output_dir :=
         path_join (path_join OUTPUT_DIR (page_name_of page_path)) viewport_name) in *.
  unfold test_page_screenshot_similarity. fold output_dir.
  rewrite bind_run, (new_page_run P Hnf). cbv beta iota.
  rewrite bind_run, (new_page_run P Hnf). cbv beta iota.
  rewrite length_app, <- app_assoc. cbn [length app].
  replace (length ps + 1)%nat with (Datatypes.S (length ps)) by lia.
  set (blank := mkPage (Some vp) (render P "about:blank" (Some vp)) false).
  destruct (mkdir_run output_dir f (ps ++ [blank; blank]) out Hdir) as (f1 & Hmk & Hf1).
  rewrite bind_run, Hmk. cbv beta iota.
  assert (Hfiles1 : forall name, f1 !! path_join output_dir name ≠ Some Directory).
  { intros name. rewrite Hf1 by apply path_join_ne. apply Hfiles. }
  clear Hmk Hf1 Hdir Hfiles.
  set (doc_ref := render P (path_join REFERENCE_URL page_path) (Some vp)).
  set (doc_target := render P (path_join TARGET_URL page_path) (Some vp)).
  set (pr := mkPage (Some vp) doc_ref false).
  set (pt := mkPage (Some vp) doc_target false).
  destruct (Hvalid (path_join REFERENCE_URL page_path)) as (Hvr & Hwr & Hhr).
  destruct (Hvalid (path_join TARGET_URL page_path)) as (Hvt & Hwt & Hht).
  fold doc_ref in Hvr, Hwr, Hhr. fold doc_target in Hvt, Hwt, Hht.
  assert (Hnr : nonempty (full_page doc_ref) = true)
    by (apply nonempty_positive; split; assumption).
  assert (Hnt : nonempty (full_page doc_target) = true)
    by (apply nonempty_positive; split; assumption).
  set (ref_s := path_join output_dir "reference.png").
  set (target_s := path_join output_dir "target.png").
  set (diff_s := path_join output_dir "diff.png").
  set (json_s := path_join output_dir "comparison_result.json").
  set (f3 := <[target_s := ImageFile (full_page doc_target)]>
               (<[ref_s := ImageFile (full_page doc_ref)]> f1)).
  assert (Hne : forall a b, a ≠ b -> path_join output_dir a ≠ path_join output_dir b).
  { intros a b Hab Heq. apply path_join_inj in Heq. contradiction. }
  assert (Hopen_r : f3 !! ref_s = Some (ImageFile (full_page doc_ref))).
  { unfold f3. rewrite lookup_insert_ne by (apply Hne; discriminate).
    apply lookup_insert_eq. }
  assert (Hopen_t : f3 !! target_s = Some (ImageFile (full_page doc_target))).
  { unfold f3. apply lookup_insert_eq. }
  assert (Hdiff : f3 !! diff_s ≠ Some Directory).
  { unfold f3. rewrite !lookup_insert_ne by (apply Hne; discriminate). apply Hfiles1. }
  pose proof (normalized_valid resample (full_page doc_ref) (full_page doc_target) Hvt)
    as Hvn.
  pose proof (normalized_size resample (full_page doc_ref) (full_page doc_target))
    as Hsn. symmetry in Hsn.
  destruct (compare_images_returns (mkWorld f3 (ps ++ [pr; pt]) out)
              (full_page doc_ref)
              (normalized resample (full_page doc_ref) (full_page doc_target))
              diff_s Hvr Hvn Hsn Hdiff Hwr Hhr) as (s & _ & Hcmp).
  set (res := result_of (full_page doc_ref)
                (normalized resample (full_page doc_ref) (full_page doc_target)) s) in *.
  set (d := scan_img (scan_of (full_page doc_ref)
                (normalized resample (full_page doc_ref) (full_page doc_target)))) in *.
  exists res,
    (mkWorld (<[json_s := ResultFile res]> (<[diff_s := ImageFile d]> f3))
       (ps ++ [mkPage (Some vp) doc_ref true; mkPage (Some vp) doc_target true])
       (out ++ report_lines py_format page_path viewport_name res)),
    (mkPage (Some vp) doc_ref true), (mkPage (Some vp) doc_target true).
  split.
  - apply (try_finally_eq _ _ _
             (mkWorld (<[json_s := ResultFile res]> (<[diff_s := ImageFile d]> f3))
                (ps ++ [pr; pt])
                (out ++ report_lines py_format page_path viewport_name res))).
    + rewrite bind_run, (goto_run P Hnf _ _ blank) by (apply tail2_lookup_0 || reflexivity).
      cbv beta iota. rewrite tail2_insert_0. cbn [page_viewport blank].
      fold doc_ref. fold pr.
      rewrite bind_run, (goto_run P Hnf _ _ blank) by (apply tail2_lookup_1 || reflexivity).
      cbv beta iota. rewrite tail2_insert_1. cbn [page_viewport blank].
      fold doc_target. fold pt.
      rewrite bind_run, (wait_for_load_state_run P Hnf _ pr)
        by (apply tail2_lookup_0 || reflexivity).
      cbv beta iota.
      rewrite bind_run, (wait_for_load_state_run P Hnf _ pt)
        by (apply tail2_lookup_1 || reflexivity).
      cbv beta iota.
      fold ref_s target_s diff_s json_s.
      rewrite bind_run, (screenshot_run P Hnf _ _ pr)
        by (apply tail2_lookup_0 || reflexivity || apply Hfiles1).
      cbv beta iota. cbn [page_document pr].
      rewrite bind_run, (screenshot_run P Hnf _ _ pt);
        [| apply tail2_lookup_1 | reflexivity
         | rewrite lookup_insert_ne by (apply Hne; discriminate); apply Hfiles1].
      cbv beta iota. cbn [page_document pt]. fold f3.
      rewrite bind_run,
        (compare_screenshots_open resample (mkWorld f3 (ps ++ [pr; pt]) out)
           ref_s target_s diff_s _ _ Hopen_r Hopen_t Hnr Hnt), Hcmp.
      cbv beta iota. unfold saved. cbn [fs pages stdout].
      rewrite bind_run, json_dump_run;
        [| rewrite lookup_insert_ne by (apply Hne; discriminate);
           unfold f3; rewrite !lookup_insert_ne by (apply Hne; discriminate);
           apply Hfiles1].
      cbv beta iota.
      rewrite bind_run, print_run. cbv beta iota.
      unfold report_lines. fold output_dir. fold diff_s.
      destruct (passed res); cbn [negb].
      * reflexivity.
      * rewrite print_run, <- app_assoc. reflexivity.
    + rewrite bind_run, (close_run P Hnf _ pr) by apply tail2_lookup_0.
      cbv beta iota. rewrite tail2_insert_0.
      rewrite (close_run P Hnf _ pt) by apply tail2_lookup_1.
      rewrite tail2_insert_1. reflexivity.
  - cbn [fs pages stdout]. split; [apply lookup_insert_eq|].
    repeat split; reflexivity.
Qed.

(** ** The model at known values *)

(** [1 / 3 == 0x1.5555555555555p-2] *)
Example true_divide_third :
  PyFloat.int_true_divide 1 3 = Ok (S754_finite false 6004799503160661 (-54)).
Proof. vm_compute. reflexivity. Qed.

(** [19 / 20 * 100 == 95.0], although [19 / 20] is rounded. *)
Example similarity_19_of_20 :
  PyFloat.int_true_divide 19 20 = Ok (S754_finite false 8556839292003942 (-53))
  /\ similarity 20 1 = Ok PyFloat.f95.
Proof. vm_compute. auto. Qed.

(** Integers beyond the range of floats still divide:
    [10**400 / (3 * 10**399) == 0x1.aaaaaaaaaaaabp+1]; a quotient beyond
    that range is an OverflowError, one below it is [0.0]. *)
Example true_divide_large :
  PyFloat.int_true_divide (10 ^ 400) (3 * 10 ^ 399)
  = Ok (S754_finite false 7505999378950827 (-51))
  /\ PyFloat.int_true_divide (2 ^ 1075) 1 = Raise OverflowError
  /\ PyFloat.int_true_divide 3 (2 ^ 1075) = Ok (S754_finite false 2 (-1074))
  /\ PyFloat.int_true_divide 1 (2 ^ 1075) = Ok PyFloat.zero.
Proof. vm_compute. auto. Qed.

Example replace_page_name :
  replace ".html" "" (replace "/" "_" "publications/index.html")
  = "publications_index"%string.
Proof. reflexivity. Qed.

Example contains_rgb :
  contains "rgb(18, 18, 18)" "rgba(0, 0, 0, 0) rgb(18, 18, 18)" = true.
Proof. reflexivity. Qed.

(** ** Release of the page handles *)

Lemma same_handles_refl (w : world) : same_handles w w.
Proof. split; auto. Qed.

Lemma same_pages (w w' : world) : pages w' = pages w -> same_handles w w'.
Proof. intros H. unfold same_handles. rewrite H. auto. Qed.

Lemma same_handles_trans (w1 w2 w3 : world) :
  same_handles w1 w2 -> same_handles w2 w3 -> same_handles w1 w3.
Proof. intros [L1 F1] [L2 F2]. split; [congruence|]. intros i. rewrite F2. apply F1. Qed.

Lemma keeps_ret {A} (a : A) : keeps_handles (mret a : M A).
Proof. intros w. apply same_handles_refl. Qed.

Lemma keeps_raise {A} (e : exn) : keeps_handles (raise e : M A).
Proof. intros w. apply same_handles_refl. Qed.

Lemma keeps_lift {A} (r : result A) : keeps_handles (lift r).
Proof. intros w. apply same_handles_refl. Qed.

Lemma keeps_bind {A B} (m : M A) (f : A -> M B) :
  keeps_handles m -> (forall a, keeps_handles (f a)) -> keeps_handles (m ≫= f).
Proof.
  intros Hm Hf w. rewrite bind_run. specialize (Hm w).
  destruct (m w) as [[a|e] w1]; cbn [snd] in *; [|exact Hm].
  eapply same_handles_trans; [exact Hm | apply Hf].
Qed.

Lemma keeps_try_except {A} (body handler : M A) :
  keeps_handles body -> keeps_handles handler ->
  keeps_handles (try_except body handler).
Proof.
  intros Hb Hh w. unfold try_except. specialize (Hb w).
  destruct (body w) as [[a|e] w1]; cbn [snd] in *; [exact Hb|].
  eapply same_handles_trans; [exact Hb | apply Hh].
Qed.

Lemma keeps_assert (cond : bool) (msg : result string) :
  keeps_handles (assert_ cond msg).
Proof.
  unfold assert_. destruct cond; [apply keeps_ret|].
  destruct msg; apply keeps_raise.
Qed.

Lemma keeps_live_page (page : nat) : keeps_handles (live_page page).
Proof.
  intros w. unfold live_page.
  destruct (pages w !! page) as [p|]; [destruct (page_closed p)|];
    apply same_handles_refl.
Qed.

Lemma keeps_write_file (path : string) (f : file) : keeps_handles (write_file path f).
Proof.
  intros w. unfold write_file.
  destruct (fs w !! path) as [[]|]; apply same_pages; reflexivity.
Qed.

Lemma keeps_print (line : string) : keeps_handles (print line).
Proof. intros w. apply same_pages. reflexivity. Qed.

Lemma keeps_Image_open (path : string) : keeps_handles (Image_open path).
Proof.
  intros w. unfold Image_open.
  destruct (fs w !! path) as [[| im | |]|]; try destruct (nonempty im);
    apply same_handles_refl.
Qed.

Lemma keeps_Image_save (im : Image) (path : string) :
  keeps_handles (Image_save im path).
Proof.
  intros w. unfold Image_save.
  destruct (fs w !! path) as [[]|]; destruct (nonempty im);
    apply same_pages; reflexivity.
Qed.

Lemma keeps_compare_screenshots
    (resample : Image -> nat * nat -> Resampling -> nat -> nat -> pixel)
    (ref_path target_path diff_path : string) :
  keeps_handles (compare_screenshots resample ref_path target_path diff_path).
Proof.
  unfold compare_screenshots.
  apply keeps_bind; [apply keeps_Image_open|]. intros ref_img.
  apply keeps_bind; [apply keeps_Image_open|]. intros target_img.
  apply keeps_bind; [apply keeps_lift|]. intros normalized_img.
  apply keeps_bind; [apply keeps_lift|]. intros st.
  apply keeps_bind; [apply keeps_Image_save|]. intros _.
  apply keeps_bind; [apply keeps_lift|]. intros s. apply keeps_ret.
Qed.

Section Handles.
Variable P : provider.

Lemma keeps_provider_call (c : call) : keeps_handles (provider_call P c).
Proof.
  intros w. unfold provider_call. destruct (fault P c); apply same_handles_refl.
Qed.

Lemma keeps_goto (page : nat) (url : string) : keeps_handles (goto P page url).
Proof.
  intros w. unfold goto. rewrite bind_run.
  pose proof (keeps_provider_call (Goto page url) w) as H0.
  destruct (provider_call P (Goto page url) w) as [[[]|e] w1]; cbn [snd] in *;
    [|exact H0].
  eapply same_handles_trans; [exact H0|]. clear H0.
  rewrite bind_run. unfold live_page.
  destruct (pages w1 !! page) as [p|] eqn:Hp; [|apply same_handles_refl].
  destruct (page_closed p) eqn:Hc; [apply same_handles_refl|].
  cbv beta iota. unfold set_page. unfold same_handles. cbn [snd pages].
  split; [apply length_insert|].
  intros i. destruct (decide (i = page)) as [->|Hne].
  - rewrite list_lookup_insert_eq by (eapply lookup_lt_Some; exact Hp).
    rewrite Hp. cbn. rewrite Hc. reflexivity.
  - rewrite list_lookup_insert_ne by congruence. reflexivity.
Qed.

Lemma keeps_wait_for_load_state (page : nat) :
  keeps_handles (wait_for_load_state P page).
Proof.
  unfold wait_for_load_state.
  apply keeps_bind; [apply keeps_provider_call|]. intros _.
  apply keeps_bind; [apply keeps_live_page|]. intros _. apply keeps_ret.
Qed.

Lemma keeps_screenshot (page : nat) (path : string) :
  keeps_handles (screenshot P page path).
Proof.
  unfold screenshot.
  apply keeps_bind; [apply keeps_provider_call|]. intros _.
  apply keeps_bind; [apply keeps_live_page|]. intros p. apply keeps_write_file.
Qed.

Lemma keeps_locator_count (page : nat) (selector : string) :
  keeps_handles (locator_count page selector).
Proof.
  unfold locator_count. apply keeps_bind; [apply keeps_live_page|].
  intros p. apply keeps_ret.
Qed.

(** Closing the two pages a test acquired: both end closed, every other
    handle is left as it was. *)
Lemma close_both (w : world) (n : nat) :
  length (pages w) = Datatypes.S (Datatypes.S n) ->
  fault P (Close n) = None -> fault P (Close (Datatypes.S n)) = None ->
  exists w',
    (_ ← close P n; close P (Datatypes.S n)) w = (Ok tt, w')
    /\ length (pages w') = length (pages w)
    /\ page_closed <$> pages w' !! n = Some true
    /\ page_closed <$> pages w' !! Datatypes.S n = Some true
    /\ forall i, (i < n)%nat ->
         page_closed <$> pages w' !! i = page_closed <$> pages w !! i.
Proof.
  intros Hlen H0 H1. destruct w as [f ps out]. cbn [pages] in *.
  destruct (lookup_lt_is_Some_2 ps n) as [p0 Hp0]; [lia|].
  destruct (lookup_lt_is_Some_2 ps (Datatypes.S n)) as [p1 Hp1]; [lia|].
  unfold close. rewrite !bind_run. unfold provider_call. rewrite H0.
  cbv beta iota. unfold mark_closed at 1. cbn [fs pages stdout]. rewrite Hp0.
  cbv beta iota. rewrite bind_run, H1. cbv beta iota.
  unfold mark_closed. cbn [fs pages stdout].
  rewrite list_lookup_insert_ne by lia. rewrite Hp1.
  eexists. split; [reflexivity|]. cbn [pages].
  rewrite !length_insert. split; [reflexivity|]. split; [|split].
  - rewrite list_lookup_insert_ne by lia.
    rewrite list_lookup_insert_eq by lia. reflexivity.
  - rewrite list_lookup_insert_eq by (rewrite length_insert; lia). reflexivity.
  - intros i Hi. rewrite !list_lookup_insert_ne by lia. reflexivity.
Qed.
End Handles.

Lemma filter_agree {A} (P1 P2 : A -> Prop) `{!forall x, Decision (P1 x)}
    `{!forall x, Decision (P2 x)} (l : list A) :
  (forall x, x ∈ l -> (P1 x <-> P2 x)) -> filter P1 l = filter P2 l.
Proof.
  induction l as [|a l IH]; intros Hall; [reflexivity|].
  rewrite !filter_cons.
  assert (Ha : P1 a <-> P2 a) by (apply Hall; left).
  rewrite IH by (intros x Hx; apply Hall; right; exact Hx).
  destruct (decide (P1 a)), (decide (P2 a)); tauto || reflexivity.
Qed.

(** Two handles acquired on top of [w] and both closed in [w']: nothing
    more is leaked in [w'] than in [w]. *)
Lemma leaked_after_release (w w' : world) :
  length (pages w') = Datatypes.S (Datatypes.S (length (pages w))) ->
  page_closed <$> pages w' !! length (pages w) = Some true ->
  page_closed <$> pages w' !! Datatypes.S (length (pages w)) = Some true ->
  (forall i, (i < length (pages w))%nat ->
     page_closed <$> pages w' !! i = page_closed <$> pages w !! i) ->
  leaked w' = leaked w.
Proof.
  intros Hlen H0 H1 Hold. unfold leaked. rewrite Hlen.
  replace (Datatypes.S (Datatypes.S (length (pages w))))
    with (length (pages w) + 2)%nat by lia.
  rewrite seq_app, filter_app. cbn [seq Nat.add].
  rewrite filter_cons_False by (rewrite H0; discriminate).
  rewrite filter_cons_False
    by (replace (length (pages w) + 1)%nat with (Datatypes.S (length (pages w)))
          by lia; rewrite H1; discriminate).
  rewrite filter_nil, app_nil_r.
  apply filter_agree. intros i Hi. apply elem_of_seq in Hi.
  rewrite Hold by lia. reflexivity.
Qed.

Lemma new_page_acquires (P : provider) (vp : option viewport) (f : gmap string file)
    (ps : list page_state) (out : list string) :
  fault P (NewPage (length ps)) = None ->
  new_page P vp (mkWorld f ps out)
  = (Ok (length ps),
     mkWorld f (ps ++ [mkPage vp (render P "about:blank" vp) false]) out).
Proof. intros H. unfold new_page. cbn [pages fs stdout]. rewrite H. reflexivity. Qed.

(** A [try ... finally] that closes the two pages acquired just before it
    leaves nothing more leaked than there was, whatever the body does, as
    long as the body neither acquires nor releases a handle and the two
    [close] calls do not fail. *)
Lemma try_finally_releases {A} (P : provider) (body : M A) (w0 w : world) :
  keeps_handles body ->
  length (pages w) = Datatypes.S (Datatypes.S (length (pages w0))) ->
  (forall i, (i < length (pages w0))%nat ->
     page_closed <$> pages w !! i = page_closed <$> pages w0 !! i) ->
  fault P (Close (length (pages w0))) = None ->
  fault P (Close (Datatypes.S (length (pages w0)))) = None ->
  leaked (try_finally body
            (_ ← close P (length (pages w0));
             close P (Datatypes.S (length (pages w0)))) w).2
  = leaked w0.
Proof.
  intros Hbody Hlen Hold Hc0 Hc1. rewrite try_finally_run.
  destruct (Hbody w) as [Hlen1 Hflags1].
  destruct (close_both P (body w).2 (length (pages w0))) as
    (w' & Hrun & Hlen' & H0 & H1 & Hrest); [congruence | assumption | assumption |].
  rewrite Hrun. cbn [snd].
  apply leaked_after_release; [congruence | assumption | assumption |].
  intros i Hi. rewrite Hrest, Hflags1 by exact Hi. apply Hold. exact Hi.
Qed.

(** X21: in [test_header_exists], once both pages are acquired and as long as
    [close] does not fail, every outcome of the body releases both pages. *)
Lemma test_header_exists_releases (P : provider) (viewport_name : string)
    (vp : viewport) (w : world) :
  fault P (NewPage (length (pages w))) = None ->
  fault P (NewPage (Datatypes.S (length (pages w)))) = None ->
  fault P (Close (length (pages w))) = None ->
  fault P (Close (Datatypes.S (length (pages w)))) = None ->
  leaked (test_header_exists P viewport_name vp w).2 = leaked w.
Proof.
  intros Hn0 Hn1 Hc0 Hc1. destruct w as [f ps out]. cbn [pages] in *.
  unfold test_header_exists.
  rewrite bind_run, (new_page_acquires P _ _ _ _ Hn0). cbv beta iota.
  rewrite bind_run, new_page_acquires
    by (rewrite length_app; cbn [length];
        replace (length ps + 1)%nat with (Datatypes.S (length ps)) by lia;
        exact Hn1).
  cbv beta iota. rewrite length_app, <- app_assoc. cbn [length app].
  replace (length ps + 1)%nat with (Datatypes.S (length ps)) by lia.
  apply (try_finally_releases P _ (mkWorld f ps out)); cbn [pages];
    [| rewrite length_app; cbn [length]; lia
     | intros i Hi; rewrite lookup_app_l by exact Hi; reflexivity
     | exact Hc0 | exact Hc1].
  apply keeps_bind; [apply keeps_goto|]. intros _.
  apply keeps_bind; [apply keeps_goto|]. intros _.
  apply keeps_bind; [apply keeps_locator_count|]. intros n_ref.
  apply keeps_bind; [apply keeps_assert|]. intros _.
  apply keeps_bind; [apply keeps_locator_count|]. intros n_target.
  apply keeps_assert.
Qed.

(** X22: in [test_page_screenshot_similarity], once both pages are
    acquired and [mkdir] has succeeded, and as long as [close] does not
    fail, every outcome of the body releases both pages. *)
Lemma test_page_screenshot_similarity_releases
    (resample : Image -> nat * nat -> Resampling -> nat -> nat -> pixel)
    (P : provider) (py_format : string -> PyFloat.float -> string)
    (page_path viewport_name : string) (vp : viewport) (w : world) :
  fault P (NewPage (length (pages w))) = None ->
  fault P (NewPage (Datatypes.S (length (pages w)))) = None ->
  fault P (Close (length (pages w))) = None ->
  fault P (Close (Datatypes.S (length (pages w)))) = None ->
  (fs w !! path_join (path_join OUTPUT_DIR (page_name_of page_path)) viewport_name
     = None
   \/ fs w !! path_join (path_join OUTPUT_DIR (page_name_of page_path)) viewport_name
      = Some Directory) ->
  leaked (test_page_screenshot_similarity resample P py_format page_path
            viewport_name vp w).2
  = leaked w.
Proof.
  intros Hn0 Hn1 Hc0 Hc1 Hdir. destruct w as [f ps out]. cbn [pages fs] in *.
  unfold test_page_screenshot_similarity.
  rewrite bind_run, (new_page_acquires P _ _ _ _ Hn0). cbv beta iota.
  rewrite bind_run, new_page_acquires
    by (rewrite length_app; cbn [length];
        replace (length ps + 1)%nat with (Datatypes.S (length ps)) by lia;
        exact Hn1).
  cbv beta iota. rewrite length_app, <- app_assoc. cbn [length app].
  replace (length ps + 1)%nat with (Datatypes.S (length ps)) by lia.
  destruct (mkdir_run _ f
              (ps ++ [mkPage (Some vp) (render P "about:blank" (Some vp)) false;
                      mkPage (Some vp) (render P "about:blank" (Some vp)) false])
              out Hdir) as (f1 & Hmk & _).
  rewrite bind_run, Hmk. cbv beta iota.
  apply (try_finally_releases P _ (mkWorld f ps out)); cbn [pages];
    [| rewrite length_app; cbn [length]; lia
     | intros i Hi; rewrite lookup_app_l by exact Hi; reflexivity
     | exact Hc0 | exact Hc1].
  apply keeps_bind; [apply keeps_goto|]. intros _.
  apply keeps_bind; [apply keeps_goto|]. intros _.
  apply keeps_bind; [apply keeps_wait_for_load_state|]. intros _.
  apply keeps_bind; [apply keeps_wait_for_load_state|]. intros _.
  apply keeps_bind; [apply keeps_screenshot|]. intros _.
  apply keeps_bind; [apply keeps_screenshot|]. intros _.
  apply keeps_bind; [apply keeps_compare_screenshots|]. intros res.
  apply keeps_bind; [apply keeps_write_file|]. intros _.
  apply keeps_bind; [apply keeps_print|]. intros _.
  destruct (negb (passed res)); [apply keeps_print | apply keeps_ret].
Qed.

(** C8 at its failing input: [mkdir] raises between the acquisition of the
    two pages and the [try] block, the test ends with that error and both
    handles are still open. *)
Theorem screenshot_test_leaks_pages :
  let run := test_page_screenshot_similarity resample_nearest two_checkers
               no_format "index.html" "mobile" mobile blocked_world in
  leaked blocked_world = []
  /\ run.1 = Raise (OSError "/Users/bino/Downloads/cattaneo/test_results/index/mobile")
  /\ leaked run.2 = [0; 1]%nat.
Proof. vm_compute. auto. Qed.

(** Two more leaking paths: a failing [close] of the first page skips the
    [close] of the second, and a failing second [new_page] leaves the first
    page open. *)
Lemma header_test_leaks_pages :
  leaked (test_header_exists close_fails "mobile" mobile empty_world).2
  = [0; 1]%nat
  /\ leaked (test_header_exists second_page_fails "mobile" mobile empty_world).2
     = [0]%nat.
Proof. vm_compute. auto. Qed.


(** * More properties of the comparison *)

(** ** More on the scan *)

Lemma compare_images_unfold (w : world) (ref_img target_img : Image)
    (diff_path : string) :
  nonempty ref_img = true ->
  compare_images ref_img target_img diff_path w
  = match compare_pixels ref_img target_img with
    | Raise e => (Raise e, w)
    | Ok st =>
        match fs w !! diff_path with
        | Some Directory => (Raise (OSError diff_path), w)
        | _ =>
            match similarity
                    (Z.of_nat (img_width ref_img) * Z.of_nat (img_height ref_img))
                    (scan_different st) with
            | Ok s =>
                (Ok {| total_pixels :=
                         Z.of_nat (img_width ref_img) * Z.of_nat (img_height ref_img);
                       different_pixels := scan_different st;
                       similarity_percentage := s;
                       max_difference := scan_max_diff st;
                       passed := PyFloat.geb s PyFloat.f95 |},
                 saved w diff_path (scan_img st))
            | Raise e => (Raise e, saved w diff_path (scan_img st))
            end
        end
    end.
Proof.
  intros Hn. unfold compare_images, mbind, M_bind, lift.
  cbn [size fst snd].
  destruct (compare_pixels ref_img target_img) as [st|e] eqn:Hscan; [|reflexivity].
  rewrite Image_save_run
    by (rewrite (nonempty_same_size _ ref_img); [exact Hn|];
        eapply compare_pixels_size; exact Hscan).
  unfold write_file.
  destruct (fs w !! diff_path) as [[]|]; try reflexivity;
    unfold saved; destruct (similarity _ _); reflexivity.
Qed.

Lemma getpixel_inv (im : Image) (x y : nat) (p : pixel) :
  getpixel im x y = Ok p ->
  (x < img_width im)%nat /\ (y < img_height im)%nat
  /\ img_data im !! (y * img_width im + x)%nat = Some p.
Proof.
  unfold getpixel, in_bounds, offset.
  destruct (Nat.ltb_spec x (img_width im)); [|discriminate].
  destruct (Nat.ltb_spec y (img_height im)); [|discriminate]. cbn [andb].
  destruct (img_data im !! _) as [q|] eqn:E; [|discriminate].
  intros H1. injection H1 as <-. auto.
Qed.

Lemma running_max_ge (l : list (pixel * pixel)) (m : Z) :
  m <= foldl running_max m l.
Proof.
  revert m. induction l as [|rt l IH]; intros m; cbn [foldl]; [lia|].
  specialize (IH (running_max m rt)). unfold running_max in *. lia.
Qed.

Lemma running_max_bounds_all (l : list (pixel * pixel)) (m : Z) (rt : pixel * pixel) :
  rt ∈ l -> pixel_diff rt.1 rt.2 <= foldl running_max m l.
Proof.
  revert m. induction l as [|a l IH]; intros m Hin; [inversion Hin|].
  cbn [foldl]. apply elem_of_cons in Hin as [->|Hin].
  - pose proof (running_max_ge l (running_max m a)). unfold running_max in *. lia.
  - apply IH. exact Hin.
Qed.

Lemma running_max_attained (l : list (pixel * pixel)) (m : Z) :
  foldl running_max m l = m
  \/ exists rt, rt ∈ l /\ pixel_diff rt.1 rt.2 = foldl running_max m l.
Proof.
  revert m. induction l as [|a l IH]; intros m; cbn [foldl]; [left; reflexivity|].
  destruct (IH (running_max m a)) as [Heq|(rt & Hin & Hrt)].
  - rewrite Heq. unfold running_max.
    destruct (Z.max_spec m (pixel_diff a.1 a.2)) as [[_ ->]|[_ ->]].
    + right. exists a. split; [left|reflexivity].
    + left. reflexivity.
  - right. exists rt. split; [right; exact Hin | exact Hrt].
Qed.

Lemma pixel_diff_range (p q : pixel) :
  eight_bit_pixel p -> eight_bit_pixel q -> 0 <= pixel_diff p q <= 765.
Proof.
  destruct p as [[r1 g1] b1], q as [[r2 g2] b2].
  unfold eight_bit_pixel, pixel_diff. cbn. lia.
Qed.

Lemma pixel_diff_nonneg (p q : pixel) : 0 <= pixel_diff p q.
Proof. destruct p as [[r1 g1] b1], q as [[r2 g2] b2]. unfold pixel_diff. lia. Qed.

Lemma pixel_diff_sym (p q : pixel) : pixel_diff p q = pixel_diff q p.
Proof. destruct p as [[r1 g1] b1], q as [[r2 g2] b2]. unfold pixel_diff. lia. Qed.

Lemma zip_at_getpixel (ref_img target_img : Image) (x y : nat) (rp tp : pixel) :
  size ref_img = size target_img ->
  getpixel ref_img x y = Ok rp -> getpixel target_img x y = Ok tp ->
  (rp, tp) ∈ zip (img_data ref_img) (img_data target_img).
Proof.
  intros Hs Hr Ht.
  apply getpixel_inv in Hr as (_ & _ & Hr). apply getpixel_inv in Ht as (_ & _ & Ht).
  assert (Hw : img_width target_img = img_width ref_img) by (injection Hs; congruence).
  rewrite Hw in Ht.
  apply list_elem_of_lookup. exists (y * img_width ref_img + x)%nat.
  apply lookup_zip_Some. auto.
Qed.

(** What a returned result is made of, for two files of one size. *)
Lemma compare_screenshots_same_size_inv
    (resample : Image -> nat * nat -> Resampling -> nat -> nat -> pixel)
    (w w' : world) (ref_path target_path diff_path : string)
    (ref_img target_img : Image) (res : DiffResult) :
  fs w !! ref_path = Some (ImageFile ref_img) ->
  fs w !! target_path = Some (ImageFile target_img) ->
  valid_image ref_img -> valid_image target_img ->
  size ref_img = size target_img ->
  compare_screenshots resample ref_path target_path diff_path w = (Ok res, w') ->
  different_pixels res = scan_different (scan_of ref_img target_img)
  /\ max_difference res = scan_max_diff (scan_of ref_img target_img)
  /\ total_pixels res = Z.of_nat (img_width ref_img) * Z.of_nat (img_height ref_img)
  /\ similarity (total_pixels res) (different_pixels res)
     = Ok (similarity_percentage res)
  /\ passed res = PyFloat.geb (similarity_percentage res) PyFloat.f95
  /\ w' = saved w diff_path (scan_img (scan_of ref_img target_img)).
Proof.
  intros Hr Ht Hvr Hvt Hs Hrun.
  destruct (compare_screenshots_opened resample w w' _ _ _ res Hrun)
    as (ref_img' & target_img' & Hr' & Ht' & Hnr & Hnt).
  rewrite Hr in Hr'. injection Hr' as <-.
  rewrite Ht in Ht'. injection Ht' as <-.
  rewrite (compare_screenshots_open resample w _ _ _ _ _ Hr Ht Hnr Hnt) in Hrun.
  assert (Hn : normalized resample ref_img target_img = target_img).
  { unfold normalized. case_bool_decide; [contradiction | reflexivity]. }
  rewrite Hn, compare_images_unfold in Hrun by exact Hnr.
  rewrite (compare_pixels_scan_of _ _ Hvr Hvt Hs) in Hrun.
  destruct (fs w !! diff_path) as [[]|]; try discriminate;
    destruct (similarity _ _) as [s|] eqn:Hsim; try discriminate;
    injection Hrun as <- <-; cbn; auto 10.
Qed.

(** X1: [max_difference] is the largest summed channel difference over the
    image: no coordinate exceeds it, a positive value is attained at some
    coordinate, and it stays within 0..765 on 8-bit images. *)
Theorem max_difference_is_maximum
    (resample : Image -> nat * nat -> Resampling -> nat -> nat -> pixel)
    (w w' : world) (ref_path target_path diff_path : string)
    (ref_img target_img : Image) (res : DiffResult) :
  fs w !! ref_path = Some (ImageFile ref_img) ->
  fs w !! target_path = Some (ImageFile target_img) ->
  valid_image ref_img -> valid_image target_img ->
  size ref_img = size target_img ->
  compare_screenshots resample ref_path target_path diff_path w = (Ok res, w') ->
  0 <= max_difference res
  /\ (forall x y rp tp,
        getpixel ref_img x y = Ok rp -> getpixel target_img x y = Ok tp ->
        pixel_diff rp tp <= max_difference res)
  /\ (0 < max_difference res ->
      exists x y rp tp,
        getpixel ref_img x y = Ok rp /\ getpixel target_img x y = Ok tp
        /\ pixel_diff rp tp = max_difference res)
  /\ (eight_bit ref_img -> eight_bit target_img -> max_difference res <= 765).
Proof.
  intros Hr Ht Hvr Hvt Hs Hrun.
  destruct (compare_screenshots_same_size_inv resample w w' _ _ _ _ _ res
              Hr Ht Hvr Hvt Hs Hrun) as (_ & Hmax & _).
  rewrite Hmax. unfold scan_of. cbn [scan_max_diff].
  set (pairs := zip (img_data ref_img) (img_data target_img)).
  split; [apply running_max_ge|]. split; [|split].
  - intros x y rp tp Gr Gt.
    apply (running_max_bounds_all pairs 0 (rp, tp)).
    apply zip_at_getpixel with (x := x) (y := y); assumption.
  - intros Hpos. destruct (running_max_attained pairs 0) as [Heq|(rt & Hin & Hrt)];
      [lia|].
    destruct (zip_pair_at ref_img target_img rt Hvr Hvt Hs Hin)
      as (x & y & _ & _ & Gr & Gt).
    exists x, y, rt.1, rt.2. auto.
  - intros Hbr Hbt.
    destruct (running_max_attained pairs 0) as [->|(rt & Hin & <-)]; [lia|].
    destruct rt as [rp tp]. apply elem_of_zip_l in Hin as Hl.
    apply elem_of_zip_r in Hin as Hrr. cbn [fst snd] in *.
    unfold eight_bit in *. rewrite Forall_forall in Hbr, Hbt.
    apply pixel_diff_range; [apply Hbr | apply Hbt]; assumption.
Qed.

Lemma filter_differs_nil_iff (l : list (pixel * pixel)) :
  filter differs l = [] <-> foldl running_max 0 l <= threshold.
Proof.
  split.
  - intros Hnil.
    destruct (running_max_attained l 0) as [->|(rt & Hin & <-)];
      [unfold threshold; lia|].
    destruct (decide (differs rt)) as [Hd|Hd]; [|unfold differs in Hd; lia].
    assert (Hf : rt ∈ filter differs l) by (apply list_elem_of_filter; auto).
    rewrite Hnil in Hf. inversion Hf.
  - intros Hmax. apply filter_differs_none. intros rt Hin Hd.
    pose proof (running_max_bounds_all l 0 rt Hin). unfold differs in Hd. lia.
Qed.

(** X2: no pixel is counted as different exactly when [max_difference] does
    not exceed the threshold of 30. *)
Theorem no_difference_iff_max_within_threshold
    (resample : Image -> nat * nat -> Resampling -> nat -> nat -> pixel)
    (w w' : world) (ref_path target_path diff_path : string)
    (ref_img target_img : Image) (res : DiffResult) :
  fs w !! ref_path = Some (ImageFile ref_img) ->
  fs w !! target_path = Some (ImageFile target_img) ->
  valid_image ref_img -> valid_image target_img ->
  size ref_img = size target_img ->
  compare_screenshots resample ref_path target_path diff_path w = (Ok res, w') ->
  (different_pixels res = 0 <-> max_difference res <= 30).
Proof.
  intros Hr Ht Hvr Hvt Hs Hrun.
  destruct (compare_screenshots_same_size_inv resample w w' _ _ _ _ _ res
              Hr Ht Hvr Hvt Hs Hrun) as (Hdiff & Hmax & _).
  rewrite Hdiff, Hmax. unfold scan_of. cbn [scan_different scan_max_diff].
  rewrite <- (filter_differs_nil_iff (zip (img_data ref_img) (img_data target_img))).
  split.
  - intros H0. apply length_zero_iff_nil. lia.
  - intros ->. reflexivity.
Qed.

Lemma scan_counts_sym (l1 l2 : list pixel) :
  length (filter differs (zip l1 l2)) = length (filter differs (zip l2 l1))
  /\ forall m, foldl running_max m (zip l1 l2) = foldl running_max m (zip l2 l1).
Proof.
  revert l2. induction l1 as [|a l1 IH]; intros [|b l2]; cbn [zip_with foldl];
    try (split; auto; fail).
  destruct (IH l2) as [IHc IHm]. split.
  - rewrite !filter_cons.
    destruct (decide (differs (a, b))) as [Hd|Hd], (decide (differs (b, a))) as [Hd'|Hd'];
      cbn; try lia; exfalso; unfold differs in *; cbn in *;
      rewrite pixel_diff_sym in Hd; contradiction.
  - intros m. unfold running_max at 2 4. cbn [fst snd].
    rewrite (pixel_diff_sym a b). apply IHm.
Qed.

(** X3: with two files of one size, exchanging the reference and the
    candidate changes nothing in the returned dictionary. *)
Theorem compare_screenshots_symmetric
    (resample : Image -> nat * nat -> Resampling -> nat -> nat -> pixel)
    (w w1 w2 : world) (path_a path_b diff_path : string)
    (img_a img_b : Image) (res1 res2 : DiffResult) :
  fs w !! path_a = Some (ImageFile img_a) ->
  fs w !! path_b = Some (ImageFile img_b) ->
  valid_image img_a -> valid_image img_b ->
  size img_a = size img_b ->
  compare_screenshots resample path_a path_b diff_path w = (Ok res1, w1) ->
  compare_screenshots resample path_b path_a diff_path w = (Ok res2, w2) ->
  res1 = res2.
Proof.
  intros Ha Hb Hva Hvb Hs Hrun1 Hrun2.
  destruct (compare_screenshots_same_size_inv resample w w1 _ _ _ _ _ res1
              Ha Hb Hva Hvb Hs Hrun1) as (Hd1 & Hm1 & Ht1 & Hs1 & Hp1 & _).
  destruct (compare_screenshots_same_size_inv resample w w2 _ _ _ _ _ res2
              Hb Ha Hvb Hva (eq_sym Hs) Hrun2) as (Hd2 & Hm2 & Ht2 & Hs2 & Hp2 & _).
  destruct (scan_counts_sym (img_data img_a) (img_data img_b)) as [Hc Hm].
  assert (Hd : different_pixels res1 = different_pixels res2).
  { rewrite Hd1, Hd2. unfold scan_of. cbn [scan_different]. rewrite Hc. reflexivity. }
  assert (Hmx : max_difference res1 = max_difference res2).
  { rewrite Hm1, Hm2. unfold scan_of. cbn [scan_max_diff]. apply Hm. }
  assert (Ht : total_pixels res1 = total_pixels res2).
  { rewrite Ht1, Ht2. injection Hs as -> ->. reflexivity. }
  assert (Hsim : similarity_percentage res1 = similarity_percentage res2).
  { rewrite Hd, Ht, Hs2 in Hs1. injection Hs1 as ->. reflexivity. }
  assert (Hpass : passed res1 = passed res2) by (rewrite Hp1, Hp2, Hsim; reflexivity).
  clear - Hd Hmx Ht Hsim Hpass.
  destruct res1, res2. cbn in Hd, Hmx, Ht, Hsim, Hpass. subst. reflexivity.
Qed.

(** ** What a comparison touches *)

(** X4: whatever its outcome, [compare_screenshots] leaves the pages, the
    printed output and every file but [diff_path] as they were; when it
    returns, [diff_path] holds an image of the reference's size, also when
    [diff_path] is one of the two inputs. *)
Theorem compare_screenshots_footprint
    (resample : Image -> nat * nat -> Resampling -> nat -> nat -> pixel)
    (w : world) (ref_path target_path diff_path : string) :
  let run := compare_screenshots resample ref_path target_path diff_path w in
  pages run.2 = pages w
  /\ stdout run.2 = stdout w
  /\ (forall path, path ≠ diff_path -> fs run.2 !! path = fs w !! path)
  /\ (forall res, run.1 = Ok res ->
      exists ref_img d,
        fs w !! ref_path = Some (ImageFile ref_img)
        /\ fs run.2 !! diff_path = Some (ImageFile d)
        /\ size d = size ref_img).
Proof.
  cbv zeta.
  assert (Hfail : forall (e : exn) (run : result DiffResult * world),
            run = (Raise e, w) ->
            pages run.2 = pages w
            /\ stdout run.2 = stdout w
            /\ (forall path, path ≠ diff_path -> fs run.2 !! path = fs w !! path)
            /\ (forall res, run.1 = Ok res ->
                exists ref_img d,
                  fs w !! ref_path = Some (ImageFile ref_img)
                  /\ fs run.2 !! diff_path = Some (ImageFile d)
                  /\ size d = size ref_img)).
  { intros e run ->. cbn. repeat split; auto. discriminate. }
  destruct (Image_open ref_path w) as [[ref_img|e] w1] eqn:Hor.
  2:{ apply Image_open_raises in Hor as Hw. destruct Hw as [-> _].
      eapply Hfail. unfold compare_screenshots, mbind, M_bind at 1.
      rewrite Hor. reflexivity. }
  apply Image_open_inv in Hor as Hw. destruct Hw as (-> & Hr & Hnr).
  destruct (Image_open target_path w) as [[target_img|e] w1] eqn:Hot.
  2:{ apply Image_open_raises in Hot as Hw. destruct Hw as [-> _].
      eapply Hfail. unfold compare_screenshots, mbind, M_bind at 1 2.
      rewrite Hor, Hot. reflexivity. }
  apply Image_open_inv in Hot as Hw. destruct Hw as (-> & Ht & Hnt).
  rewrite (compare_screenshots_open resample w _ _ _ _ _ Hr Ht Hnr Hnt).
  rewrite compare_images_unfold by exact Hnr.
  destruct (compare_pixels ref_img _) as [st|e] eqn:Hscan;
    [|eapply Hfail; reflexivity].
  pose proof (compare_pixels_size _ _ _ Hscan) as Hsize.
  assert (Hsaved : forall r : result DiffResult,
            let run := (r, saved w diff_path (scan_img st)) in
            pages run.2 = pages w
            /\ stdout run.2 = stdout w
            /\ (forall path, path ≠ diff_path -> fs run.2 !! path = fs w !! path)
            /\ (forall res, run.1 = Ok res ->
                exists ref_img0 d,
                  fs w !! ref_path = Some (ImageFile ref_img0)
                  /\ fs run.2 !! diff_path = Some (ImageFile d)
                  /\ size d = size ref_img0)).
  { intros r. cbn. split; [reflexivity|]. split; [reflexivity|]. split.
    - intros path Hne. apply lookup_insert_ne. congruence.
    - intros res _. exists ref_img, (scan_img st).
      split; [exact Hr|]. split; [apply lookup_insert_eq | exact Hsize]. }
  destruct (fs w !! diff_path) as [[]|] eqn:Hd;
    try (eapply Hfail; reflexivity);
    destruct (similarity _ _) as [s|]; apply Hsaved.
Qed.

(** X5: a missing input file ends the comparison with FileNotFoundError
    before anything is written; the reference is opened first, so a
    reference that is missing or cannot be read as an image is reported
    whatever the state of the candidate. *)
Theorem compare_screenshots_missing_input
    (resample : Image -> nat * nat -> Resampling -> nat -> nat -> pixel)
    (w : world) (ref_path target_path diff_path : string) :
  (fs w !! ref_path = None ->
   compare_screenshots resample ref_path target_path diff_path w
   = (Raise (FileNotFoundError ref_path), w))
  /\ (forall ref_img,
        Image_open ref_path w = (Ok ref_img, w) ->
        fs w !! target_path = None ->
        compare_screenshots resample ref_path target_path diff_path w
        = (Raise (FileNotFoundError target_path), w))
  /\ (forall e w',
        Image_open ref_path w = (Raise e, w') ->
        compare_screenshots resample ref_path target_path diff_path w
        = (Raise e, w)).
Proof.
  split; [|split].
  - intros Hr. unfold compare_screenshots, mbind, M_bind at 1, Image_open.
    rewrite Hr. reflexivity.
  - intros ref_img Hor Ht.
    unfold compare_screenshots, mbind, M_bind at 1 2.
    rewrite Hor. unfold Image_open at 1. rewrite Ht. reflexivity.
  - intros e w' Hor. apply Image_open_raises in Hor as Hw. destruct Hw as [-> _].
    unfold compare_screenshots, mbind, M_bind at 1. rewrite Hor. reflexivity.
Qed.

(** ** The difference image *)

Lemma visualize_red_iff (rp tp : pixel) :
  visualize rp tp = red <-> differs (rp, tp).
Proof.
  unfold visualize, differs, red. cbn [fst snd].
  destruct (Z.ltb_spec threshold (pixel_diff rp tp)) as [Hlt|Hge].
  - tauto.
  - split; [|lia]. intros Heq. injection Heq as H1 H2 H3. lia.
Qed.

Lemma visualize_red_or_gray (rp tp : pixel) :
  visualize rp tp = red \/ gray_pixel (visualize rp tp).
Proof.
  unfold visualize. destruct (threshold <? pixel_diff rp tp); [left; reflexivity|].
  right. split; reflexivity.
Qed.

Lemma visualize_eight_bit (rp tp : pixel) :
  eight_bit_pixel tp -> eight_bit_pixel (visualize rp tp).
Proof.
  intros Htp. unfold visualize.
  destruct (threshold <? pixel_diff rp tp); [unfold eight_bit_pixel, red; cbn; lia|].
  destruct tp as [[r g] b]. unfold eight_bit_pixel, pixel_sum in *. cbn in *.
  assert (0 <= (0 + r + g + b) `div` 3 <= 255).
  { split; [apply Z.div_pos; lia | apply Z.div_le_upper_bound; lia]. }
  lia.
Qed.

Lemma red_count (l1 l2 : list pixel) :
  length (filter (fun p => p = red) (zip_with visualize l1 l2))
  = length (filter differs (zip l1 l2)).
Proof.
  revert l2. induction l1 as [|a l1 IH]; intros [|b l2]; cbn [zip_with];
    try reflexivity.
  rewrite !filter_cons. specialize (IH l2).
  destruct (decide (visualize a b = red)) as [Hr|Hr],
           (decide (differs (a, b))) as [Hd|Hd]; cbn [length]; try congruence;
    exfalso.
  - apply visualize_red_iff in Hr. contradiction.
  - apply visualize_red_iff in Hd. contradiction.
Qed.

(** X6: the saved difference image is a valid image made of pure red and
    gray pixels only; it has exactly [different_pixels] red pixels, and it
    is an 8-bit image whenever the candidate is. *)
Theorem diff_image_contents
    (resample : Image -> nat * nat -> Resampling -> nat -> nat -> pixel)
    (w w' : world) (ref_path target_path diff_path : string)
    (ref_img target_img : Image) (res : DiffResult) :
  fs w !! ref_path = Some (ImageFile ref_img) ->
  fs w !! target_path = Some (ImageFile target_img) ->
  valid_image ref_img -> valid_image target_img ->
  size ref_img = size target_img ->
  compare_screenshots resample ref_path target_path diff_path w = (Ok res, w') ->
  exists d,
    fs w' !! diff_path = Some (ImageFile d)
    /\ valid_image d
    /\ (forall p, p ∈ img_data d -> p = red \/ gray_pixel p)
    /\ Z.of_nat (length (filter (fun p => p = red) (img_data d)))
       = different_pixels res
    /\ (eight_bit target_img -> eight_bit d).
Proof.
  intros Hr Ht Hvr Hvt Hs Hrun.
  destruct (compare_screenshots_same_size_inv resample w w' _ _ _ _ _ res
              Hr Ht Hvr Hvt Hs Hrun) as (Hdiff & _ & _ & _ & _ & ->).
  exists (scan_img (scan_of ref_img target_img)).
  split; [cbn; apply lookup_insert_eq|].
  unfold scan_of in *. cbn [scan_img scan_different img_data] in *.
  split; [|split; [|split]].
  - unfold valid_image, area, size. cbn [img_data img_width img_height fst snd].
    rewrite length_zip_with, Hvr.
    assert (Hlt : length (img_data target_img) = area (size ref_img))
      by (rewrite Hvt, Hs; reflexivity).
    rewrite Hlt. unfold area, size. cbn [fst snd]. lia.
  - intros p Hin. apply elem_of_lookup_zip_with in Hin as (i & rp & tp & -> & _ & _).
    apply visualize_red_or_gray.
  - rewrite red_count, Hdiff. reflexivity.
  - unfold eight_bit. cbn [img_data]. rewrite !Forall_forall. intros Hbt p Hin.
    apply elem_of_lookup_zip_with in Hin as (i & rp & tp & -> & _ & Htp).
    apply visualize_eight_bit. apply Hbt. eapply list_elem_of_lookup_2. exact Htp.
Qed.

(** X7: comparing again gives the same dictionary and leaves the world as
    the first comparison left it, provided the difference image is not
    written over one of the two inputs. *)
Theorem compare_screenshots_again
    (resample : Image -> nat * nat -> Resampling -> nat -> nat -> pixel)
    (w w' : world) (ref_path target_path diff_path : string) (res : DiffResult) :
  diff_path ≠ ref_path -> diff_path ≠ target_path ->
  compare_screenshots resample ref_path target_path diff_path w = (Ok res, w') ->
  compare_screenshots resample ref_path target_path diff_path w' = (Ok res, w').
Proof.
  intros Hnr Hnt Hrun.
  destruct (compare_screenshots_opened resample w w' _ _ _ res Hrun)
    as (ref_img & target_img & Hr & Ht & Her & Het).
  rewrite (compare_screenshots_open resample w _ _ _ _ _ Hr Ht Her Het) in Hrun.
  rename Hrun into Himg.
  rewrite compare_images_unfold in Himg by exact Her.
  destruct (compare_pixels ref_img _) as [st|] eqn:Hscan; [|discriminate].
  destruct (fs w !! diff_path) as [[]|] eqn:Hd; try discriminate;
    destruct (similarity _ _) as [s|] eqn:Hsim; try discriminate;
    injection Himg as <- <-;
    (rewrite (compare_screenshots_open resample (saved w diff_path (scan_img st))
                ref_path target_path diff_path ref_img target_img);
     [| cbn; rewrite lookup_insert_ne by congruence; exact Hr
      | cbn; rewrite lookup_insert_ne by congruence; exact Ht
      | exact Her | exact Het]);
    rewrite compare_images_unfold, Hscan by exact Her; cbn [fs saved];
    rewrite lookup_insert_eq, Hsim; unfold saved; cbn [fs pages stdout];
    rewrite insert_insert_eq; reflexivity.
Qed.

(** * More properties of the tests *)

(** ** Tests on one page *)

Section OnePage.
Variable P : provider.
Hypothesis no_fault : forall c, fault P c = None.

(** A test that opens one page, loads [url], runs [rest] and closes the
    page in its [finally] clause has the outcome of [rest] on the loaded
    page, and leaves that page closed. *)
Lemma one_page_test {A} (vp : option viewport) (url : string) (rest : nat -> M A)
    (f f' : gmap string file) (ps : list page_state) (out out' : list string)
    (r : result A) :
  rest (length ps) (mkWorld f (ps ++ [mkPage vp (render P url vp) false]) out)
  = (r, mkWorld f' (ps ++ [mkPage vp (render P url vp) false]) out') ->
  (page ← new_page P vp;
   try_finally (_ ← goto P page url; rest page) (close P page))
    (mkWorld f ps out)
  = (r, mkWorld f' (ps ++ [mkPage vp (render P url vp) true]) out').
Proof.
  intros Hrest.
  rewrite bind_run, (new_page_run P no_fault). cbv beta iota.
  apply (try_finally_eq _ _ _
           (mkWorld f' (ps ++ [mkPage vp (render P url vp) false]) out')).
  - rewrite bind_run,
      (goto_run P no_fault _ _ (mkPage vp (render P "about:blank" vp) false))
      by (apply tail1_lookup || reflexivity).
    cbv beta iota. rewrite tail1_insert. cbn [page_viewport]. exact Hrest.
  - rewrite (close_run P no_fault _ (mkPage vp (render P url vp) false))
      by apply tail1_lookup.
    rewrite tail1_insert. reflexivity.
Qed.
End OnePage.

Lemma locator_count_run (page : nat) (selector : string) (p : page_state) (w : world) :
  pages w !! page = Some p -> page_closed p = false ->
  locator_count page selector w
  = (Ok (length (querySelectorAll (page_document p) selector)), w).
Proof.
  intros Hp Hc. unfold locator_count.
  rewrite bind_run, (live_page_run page p) by assumption. reflexivity.
Qed.

(** One existence assertion followed by the rest of a test body. *)
Lemma assert_present_then {A} (page : nat) (selector msg : string) (p : page_state)
    (k : M A) (w : world) :
  pages w !! page = Some p -> page_closed p = false ->
  (n ← locator_count page selector;
   _ ← assert_ (0 <? n)%nat (Ok msg);
   k) w
  = if present (page_document p) selector then k w
    else (Raise (AssertionError msg), w).
Proof.
  intros Hp Hc. rewrite bind_run, (locator_count_run page selector p) by assumption.
  cbv beta iota. rewrite bind_run. unfold present.
  destruct (0 <? _)%nat; reflexivity.
Qed.

Lemma assert_present_last (page : nat) (selector msg : string) (p : page_state)
    (w : world) :
  pages w !! page = Some p -> page_closed p = false ->
  (n ← locator_count page selector; assert_ (0 <? n)%nat (Ok msg)) w
  = if present (page_document p) selector then (Ok tt, w)
    else (Raise (AssertionError msg), w).
Proof.
  intros Hp Hc. rewrite bind_run, (locator_count_run page selector p) by assumption.
  cbv beta iota. unfold present. destruct (0 <? _)%nat; reflexivity.
Qed.

(** X17: without provider failures the semantic-structure test reports the
    first missing element in the order header, main, footer, nav, and
    passes exactly when all four are present. *)
Theorem test_semantic_html_structure_outcome (P : provider) (w : world) :
  (forall c, fault P c = None) ->
  let d := render P (index_url TARGET_URL) None in
  (test_semantic_html_structure P w).1
  = if negb (present d "header") then Raise (AssertionError "Missing header element")
    else if negb (present d "main") then Raise (AssertionError "Missing main element")
    else if negb (present d "footer") then Raise (AssertionError "Missing footer element")
    else if negb (present d "nav") then Raise (AssertionError "Missing nav element")
    else Ok tt.
Proof.
  intros Hnf d. destruct w as [f ps out]. unfold test_semantic_html_structure.
  set (loaded := mkPage None d false).
  erewrite (one_page_test P Hnf None (index_url TARGET_URL)); [reflexivity|].
  fold d. fold loaded.
  assert (Hp : pages (mkWorld f (ps ++ [loaded]) out) !! length ps = Some loaded)
    by apply tail1_lookup.
  rewrite (assert_present_then _ _ _ loaded) by (exact Hp || reflexivity).
  cbn [page_document loaded].
  destruct (present d "header"); cbn [negb]; [|reflexivity].
  rewrite (assert_present_then _ _ _ loaded) by (exact Hp || reflexivity).
  cbn [page_document loaded].
  destruct (present d "main"); cbn [negb]; [|reflexivity].
  rewrite (assert_present_then _ _ _ loaded) by (exact Hp || reflexivity).
  cbn [page_document loaded].
  destruct (present d "footer"); cbn [negb]; [|reflexivity].
  rewrite (assert_present_last _ _ _ loaded) by (exact Hp || reflexivity).
  cbn [page_document loaded].
  destruct (present d "nav"); reflexivity.
Qed.

Lemma link_loop_run (page : nat) (p : page_state) (links : list string) (w : world) :
  pages w !! page = Some p -> page_closed p = false ->
  for_each_M
    (fun link_text =>
       n ← locator_count page ("header >> text=" +:+ link_text);
       assert_ (0 <? n)%nat (Ok ("Missing navigation link: " +:+ link_text)))
    links w
  = (match first_missing_link (page_document p) links with
     | Some link => Raise (AssertionError ("Missing navigation link: " +:+ link))
     | None => Ok tt
     end, w).
Proof.
  intros Hp Hc. unfold first_missing_link.
  induction links as [|link links IH]; [reflexivity|].
  cbn [for_each_M list_find]. rewrite bind_run.
  rewrite (assert_present_last _ _ _ p) by assumption.
  destruct (present (page_document p) ("header >> text=" +:+ link)) eqn:Hpres.
  - cbv beta iota. rewrite IH.
    destruct (decide (true = false)) as [Hd|_]; [discriminate|].
    destruct (list_find _ links) as [[i l]|]; reflexivity.
  - destruct (decide (false = false)) as [_|Hd]; [|congruence]. reflexivity.
Qed.

(** X16: without provider failures the navigation test passes exactly when
    every expected link is found in the header, and otherwise fails naming
    the first missing link of the list; later links are not looked up. *)
Theorem test_header_navigation_links_outcome (P : provider) (w : world) :
  (forall c, fault P c = None) ->
  let d := render P (index_url TARGET_URL) None in
  (test_header_navigation_links P w).1
  = match first_missing_link d expected_links with
    | Some link => Raise (AssertionError ("Missing navigation link: " +:+ link))
    | None => Ok tt
    end
  /\ ((test_header_navigation_links P w).1 = Ok tt <->
      Forall (fun link => present d ("header >> text=" +:+ link) = true)
        expected_links).
Proof.
  intros Hnf d. destruct w as [f ps out].
  assert (Hrun :
    (test_header_navigation_links P (mkWorld f ps out)).1
    = match first_missing_link d expected_links with
      | Some link => Raise (AssertionError ("Missing navigation link: " +:+ link))
      | None => Ok tt
      end).
  { unfold test_header_navigation_links.
    erewrite (one_page_test P Hnf None (index_url TARGET_URL)); [reflexivity|].
    fold d. rewrite (link_loop_run _ (mkPage None d false))
      by (apply tail1_lookup || reflexivity).
    reflexivity. }
  split; [exact Hrun|]. rewrite Hrun. unfold first_missing_link.
  destruct (list_find _ expected_links) as [[i link]|] eqn:Hfind; cbn [fmap option_fmap option_map snd].
  - split; [discriminate|]. intros Hall.
    apply list_find_Some in Hfind as (Hi & Hmiss & _).
    rewrite Forall_forall in Hall.
    rewrite Hall in Hmiss by (eapply list_elem_of_lookup_2; exact Hi). discriminate.
  - split; [|reflexivity]. intros _.
    apply list_find_None in Hfind. eapply Forall_impl; [exact Hfind|].
    intros link Hl. cbv beta in Hl.
    destruct (present d ("header >> text=" +:+ link)); [reflexivity | congruence].
Qed.

(** X18: without provider failures the overflow test passes exactly when the
    body is at most 15 pixels wider than the viewport, and otherwise fails
    reporting both widths. *)
Theorem test_content_readable_outcome (P : provider) (scrollWidth : document -> Z)
    (viewport_name : string) (vp : viewport) (w : world) :
  (forall c, fault P c = None) ->
  let body_width := scrollWidth (render P (index_url TARGET_URL) (Some vp)) in
  ((test_content_readable_at_all_sizes P scrollWidth viewport_name vp w).1 = Ok tt
   <-> body_width <= vp_width vp + 15)
  /\ (vp_width vp + 15 < body_width ->
      (test_content_readable_at_all_sizes P scrollWidth viewport_name vp w).1
      = Raise (AssertionError
                 ("Horizontal overflow on " +:+ viewport_name +:+ ": body="
                  +:+ pretty body_width +:+ "px, viewport="
                  +:+ pretty (vp_width vp) +:+ "px"))).
Proof.
  intros Hnf body_width. destruct w as [f ps out].
  set (d := render P (index_url TARGET_URL) (Some vp)) in *.
  assert (Hrun :
    (test_content_readable_at_all_sizes P scrollWidth viewport_name vp
       (mkWorld f ps out)).1
    = if body_width <=? vp_width vp + 15 then Ok tt
      else Raise (AssertionError
                    ("Horizontal overflow on " +:+ viewport_name +:+ ": body="
                     +:+ pretty body_width +:+ "px, viewport="
                     +:+ pretty (vp_width vp) +:+ "px"))).
  { unfold test_content_readable_at_all_sizes.
    erewrite (one_page_test P Hnf (Some vp) (index_url TARGET_URL)); [reflexivity|].
    fold d. rewrite bind_run, (live_page_run _ (mkPage (Some vp) d false))
      by (apply tail1_lookup || reflexivity).
    cbv beta iota zeta. cbn [page_document]. fold body_width.
    destruct (body_width <=? vp_width vp + 15); reflexivity. }
  rewrite Hrun. destruct (Z.leb_spec body_width (vp_width vp + 15)).
  - split; [tauto|]. intros. lia.
  - split; [split; [discriminate | lia]|]. reflexivity.
Qed.

(** X19: the existence assertion of the footer test guards its script: when
    no footer matches, the test fails with "Footer missing" and the script,
    which would raise on a missing footer, is not run; with a footer the
    test passes exactly when its background contains "rgb(18, 18, 18)". *)
Theorem test_footer_exists_outcome (P : provider) (w : world) :
  (forall c, fault P c = None) ->
  let d := render P (index_url TARGET_URL) None in
  (test_footer_exists P w).1
  = match querySelector d "footer" with
    | None => Raise (AssertionError "Footer missing")
    | Some footer =>
        let bg := Style.backgroundColor (getComputedStyle footer) in
        if contains dark_gray bg then Ok tt
        else Raise (AssertionError ("Footer not dark gray: " +:+ bg))
    end.
Proof.
  intros Hnf d. destruct w as [f ps out]. unfold test_footer_exists.
  set (loaded := mkPage None d false).
  erewrite (one_page_test P Hnf None (index_url TARGET_URL)); [reflexivity|].
  fold d. fold loaded.
  assert (Hp : pages (mkWorld f (ps ++ [loaded]) out) !! length ps = Some loaded)
    by apply tail1_lookup.
  rewrite (assert_present_then _ _ _ loaded) by (exact Hp || reflexivity).
  cbn [page_document loaded]. unfold present, querySelector.
  destruct (querySelectorAll d "footer") as [|footer rest] eqn:Hq; cbn [length head].
  - reflexivity.
  - cbn [Nat.ltb Nat.leb]. rewrite bind_run. unfold evaluate_footer_background.
    rewrite bind_run, (live_page_run _ loaded) by (exact Hp || reflexivity).
    cbv beta iota. cbn [page_document loaded]. unfold querySelector. rewrite Hq.
    cbn [head]. unfold mret, M_ret. cbv beta iota zeta.
    destruct (contains dark_gray _); reflexivity.
Qed.

(** X20: without provider failures the link-colour test fails only when the
    first link inside [main] has exactly the colour "rgb(0, 0, 0)"; without
    such a link, or with an empty colour, it passes without printing. *)
Theorem test_link_colors_outcome (P : provider) (w : world) :
  (forall c, fault P c = None) ->
  let d := render P (index_url TARGET_URL) None in
  let color := (fun link => Style.color (getComputedStyle link))
                 <$> querySelector d "main a" in
  ((test_link_colors P w).1 = Raise (AssertionError "Links should not be black")
   <-> color = Some "rgb(0, 0, 0)"%string)
  /\ ((test_link_colors P w).1 = Ok tt <-> color ≠ Some "rgb(0, 0, 0)"%string)
  /\ (truthy_string color = false ->
      stdout (test_link_colors P w).2 = stdout w).
Proof.
  intros Hnf d color. destruct w as [f ps out]. unfold test_link_colors.
  set (loaded := mkPage None d false).
  assert (Hp : forall f0 out0,
            pages (mkWorld f0 (ps ++ [loaded]) out0) !! length ps = Some loaded)
    by (intros; apply tail1_lookup).
  assert (Heval : forall w0, pages w0 !! length ps = Some loaded ->
            evaluate_link_color (length ps) w0 = (Ok color, w0)).
  { intros w0 Hw0. unfold evaluate_link_color.
    rewrite bind_run, (live_page_run _ loaded) by (exact Hw0 || reflexivity).
    cbv beta iota. cbn [page_document loaded]. unfold color.
    destruct (querySelector d "main a"); reflexivity. }
  destruct (truthy_string color) eqn:Htruthy.
  - destruct color as [c|] eqn:Hcolor; [|discriminate].
    erewrite (one_page_test P Hnf None (index_url TARGET_URL)
                (fun page =>
                   link_color ← evaluate_link_color page;
                   if truthy_string link_color then
                     color ← lift (subscript link_color id);
                     _ ← print (newline +:+ "Content link color: " +:+ color);
                     assert_ (negb (String.eqb color "rgb(0, 0, 0)"))
                       (Ok "Links should not be black"%string)
                   else mret tt)
                f f ps out (out ++ [newline +:+ "Content link color: " +:+ c])
                (if negb (String.eqb c "rgb(0, 0, 0)") then Ok tt
                 else Raise (AssertionError "Links should not be black"))).
    + cbn [fst snd stdout]. destruct (String.eqb_spec c "rgb(0, 0, 0)") as [->|Hne];
        cbn [negb].
      * repeat split; intros; try discriminate; congruence.
      * repeat split; intros; try discriminate; congruence.
    + fold d. fold loaded. rewrite bind_run, Heval by apply Hp. cbv beta iota.
      rewrite Htruthy. rewrite bind_run. cbn [lift subscript id]. cbv beta iota.
      rewrite bind_run. cbn [print]. cbv beta iota. cbn [fs pages stdout].
      destruct (negb (String.eqb c "rgb(0, 0, 0)")); reflexivity.
  - erewrite (one_page_test P Hnf None (index_url TARGET_URL)
                (fun page =>
                   link_color ← evaluate_link_color page;
                   if truthy_string link_color then
                     color ← lift (subscript link_color id);
                     _ ← print (newline +:+ "Content link color: " +:+ color);
                     assert_ (negb (String.eqb color "rgb(0, 0, 0)"))
                       (Ok "Links should not be black"%string)
                   else mret tt)
                f f ps out out (Ok tt)).
    + cbn [fst snd stdout]. split; [|split].
      * split; [discriminate|]. intros Hc. rewrite Hc in Htruthy. discriminate.
      * split; [|reflexivity]. intros _ Hc. rewrite Hc in Htruthy. discriminate.
      * reflexivity.
    + fold d. fold loaded. rewrite bind_run, Heval by apply Hp. cbv beta iota.
      rewrite Htruthy. reflexivity.
Qed.

(** ** Tests on two pages and on present elements *)

Section TwoPages.
Variable P : provider.
Hypothesis no_fault : forall c, fault P c = None.

Lemma two_page_test {A} (vp : option viewport) (url_ref url_target : string)
    (rest : nat -> nat -> M A)
    (f f' : gmap string file) (ps : list page_state) (out out' : list string)
    (r : result A) :
  rest (length ps) (Datatypes.S (length ps))
    (mkWorld f (ps ++ [mkPage vp (render P url_ref vp) false;
                       mkPage vp (render P url_target vp) false]) out)
  = (r, mkWorld f' (ps ++ [mkPage vp (render P url_ref vp) false;
                           mkPage vp (render P url_target vp) false]) out') ->
  (page_ref ← new_page P vp;
   page_target ← new_page P vp;
   try_finally
     (_ ← goto P page_ref url_ref;
      _ ← goto P page_target url_target;
      rest page_ref page_target)
     (_ ← close P page_ref; close P page_target))
    (mkWorld f ps out)
  = (r, mkWorld f' (ps ++ [mkPage vp (render P url_ref vp) true;
                           mkPage vp (render P url_target vp) true]) out').
Proof.
  intros Hrest.
  rewrite bind_run, (new_page_run P no_fault). cbv beta iota.
  rewrite bind_run, (new_page_run P no_fault). cbv beta iota.
  rewrite length_app, <- app_assoc. cbn [length app].
  replace (length ps + 1)%nat with (Datatypes.S (length ps)) by lia.
  set (blank := mkPage vp (render P "about:blank" vp) false).
  apply (try_finally_eq _ _ _
           (mkWorld f' (ps ++ [mkPage vp (render P url_ref vp) false;
                               mkPage vp (render P url_target vp) false]) out')).
  - rewrite bind_run, (goto_run P no_fault _ _ blank)
      by (apply tail2_lookup_0 || reflexivity).
    cbv beta iota. rewrite tail2_insert_0. cbn [page_viewport blank].
    rewrite bind_run, (goto_run P no_fault _ _ blank)
      by (apply tail2_lookup_1 || reflexivity).
    cbv beta iota. rewrite tail2_insert_1. cbn [page_viewport blank].
    exact Hrest.
  - rewrite bind_run, (close_run P no_fault _ (mkPage vp (render P url_ref vp) false))
      by apply tail2_lookup_0.
    cbv beta iota. rewrite tail2_insert_0.
    rewrite (close_run P no_fault _ (mkPage vp (render P url_target vp) false))
      by apply tail2_lookup_1.
    rewrite tail2_insert_1. reflexivity.
Qed.
End TwoPages.

Lemma style_copy (s : Style.t) :
  {| Style.fontFamily := Style.fontFamily s; Style.fontSize := Style.fontSize s;
     Style.fontWeight := Style.fontWeight s; Style.color := Style.color s;
     Style.backgroundColor := Style.backgroundColor s;
     Style.display := Style.display s; Style.position := Style.position s;
     Style.width := Style.width s; Style.height := Style.height s;
     Style.marginTop := Style.marginTop s; Style.marginBottom := Style.marginBottom s;
     Style.paddingTop := Style.paddingTop s;
     Style.paddingBottom := Style.paddingBottom s;
     Style.textAlign := Style.textAlign s |} = s.
Proof. destruct s. reflexivity. Qed.

Lemma rect_copy (r : Rect.t) :
  {| Rect.x := Rect.x r; Rect.y := Rect.y r; Rect.width := Rect.width r;
     Rect.height := Rect.height r; Rect.top := Rect.top r; Rect.left := Rect.left r;
     Rect.right := Rect.right r; Rect.bottom := Rect.bottom r |} = r.
Proof. destruct r. reflexivity. Qed.

Lemma get_computed_styles_value (page : nat) (selector : string)
    (p : page_state) (w : world) :
  pages w !! page = Some p -> page_closed p = false ->
  get_computed_styles page selector w
  = (Ok (getComputedStyle <$> querySelector (page_document p) selector), w).
Proof.
  intros Hp Hc. unfold get_computed_styles.
  rewrite bind_run, (live_page_run page p) by assumption. cbv beta iota.
  destruct (querySelector (page_document p) selector) as [el|]; [|reflexivity].
  cbv zeta. rewrite style_copy. reflexivity.
Qed.

Lemma get_element_position_value (page : nat) (selector : string)
    (p : page_state) (w : world) :
  pages w !! page = Some p -> page_closed p = false ->
  get_element_position page selector w
  = (Ok (getBoundingClientRect <$> querySelector (page_document p) selector), w).
Proof.
  intros Hp Hc. unfold get_element_position.
  rewrite bind_run, (live_page_run page p) by assumption. cbv beta iota.
  destruct (querySelector (page_document p) selector) as [el|]; [|reflexivity].
  cbv zeta. rewrite rect_copy. reflexivity.
Qed.

(** X8: on a live page each extractor returns the snapshot of the first
    element the selector matches, [None] exactly when nothing matches, and
    leaves the world as it is; on a closed or unknown handle it raises. *)
Theorem extractors_first_match (w : world) (page : nat) (selector : string) :
  (forall p, pages w !! page = Some p -> page_closed p = false ->
     get_computed_styles page selector w
     = (Ok (getComputedStyle <$> head (querySelectorAll (page_document p) selector)), w)
     /\ get_element_position page selector w
        = (Ok (getBoundingClientRect
                 <$> head (querySelectorAll (page_document p) selector)), w))
  /\ ((page_closed <$> pages w !! page) ≠ Some false ->
      get_computed_styles page selector w
      = (Raise (PlaywrightError closed_message), w)
      /\ get_element_position page selector w
         = (Raise (PlaywrightError closed_message), w)).
Proof.
  split.
  - intros p Hp Hc. split.
    + apply get_computed_styles_value; assumption.
    + apply get_element_position_value; assumption.
  - intros Hclosed. unfold get_computed_styles, get_element_position.
    rewrite !bind_run. unfold live_page.
    destruct (pages w !! page) as [p|]; [|split; reflexivity].
    destruct (page_closed p) eqn:Hc; [split; reflexivity|].
    cbn in Hclosed. rewrite Hc in Hclosed. congruence.
Qed.

Lemma check_element_visible_value (w : world) (page : nat) (selector : string) :
  check_element_visible page selector w
  = (Ok match pages w !! page with
        | Some p =>
            negb (page_closed p)
            && match head (querySelectorAll (page_document p) selector) with
               | Some element => is_visible element
               | None => false
               end
        | None => false
        end, w).
Proof.
  unfold check_element_visible, try_except. rewrite bind_run. unfold live_page.
  destruct (pages w !! page) as [p|]; [|reflexivity].
  destruct (page_closed p); reflexivity.
Qed.

(** X9: [check_element_visible] never raises and never changes the world;
    it answers [True] exactly when the handle is live and the first
    element the selector matches is visible, so a closed page, an unknown
    handle and a selector without a match all give [False]. *)
Theorem check_element_visible_never_raises (w : world) (page : nat)
    (selector : string) :
  exists visible,
    check_element_visible page selector w = (Ok visible, w)
    /\ (visible = true <->
        exists p el,
          pages w !! page = Some p /\ page_closed p = false
          /\ querySelector (page_document p) selector = Some el
          /\ is_visible el = true).
Proof.
  eexists. split; [apply check_element_visible_value|]. unfold querySelector.
  destruct (pages w !! page) as [p|].
  - destruct (page_closed p) eqn:Hc; cbn [negb andb].
    + split; [discriminate|]. intros (p' & el & Hp & Hc' & _). congruence.
    + destruct (head _) as [el|] eqn:Hq.
      * split.
        -- intros Hv. exists p, el. auto.
        -- intros (p' & el' & Hp & _ & Hq' & Hv). congruence.
      * split; [discriminate|]. intros (p' & el & Hp & _ & Hq' & _). congruence.
  - split; [discriminate|]. intros (p & el & Hp & _). discriminate.
Qed.

(** ** The distinct font families *)

Lemma set_add_spec (seen : list string) (x y : string) :
  y ∈ set_add seen x <-> y ∈ seen \/ y = x.
Proof.
  unfold set_add. destruct (decide (x ∈ seen)) as [Hin|Hnin].
  - split; [auto|]. intros [H| ->]; assumption.
  - rewrite elem_of_app, list_elem_of_singleton. reflexivity.
Qed.

Lemma set_add_NoDup (seen : list string) (x : string) :
  NoDup seen -> NoDup (set_add seen x).
Proof.
  intros Hnd. unfold set_add. destruct (decide (x ∈ seen)) as [Hin|Hnin]; [exact Hnd|].
  apply NoDup_app. split; [exact Hnd|]. split; [|apply NoDup_singleton].
  intros y Hy Hx. apply list_elem_of_singleton in Hx. subst. contradiction.
Qed.

Lemma foldl_set_add (l seen : list string) :
  NoDup seen ->
  NoDup (foldl set_add seen l)
  /\ forall y, y ∈ foldl set_add seen l <-> y ∈ seen \/ y ∈ l.
Proof.
  revert seen. induction l as [|x l IH]; intros seen Hnd; cbn [foldl].
  - split; [exact Hnd|]. intros y. rewrite elem_of_nil. tauto.
  - destruct (IH (set_add seen x) (set_add_NoDup _ _ Hnd)) as [H1 H2].
    split; [exact H1|]. intros y. rewrite H2, set_add_spec, elem_of_cons. tauto.
Qed.

(** X10: on a live page [get_font_families_used] returns every font family
    some element of the page uses, each exactly once; the list is empty
    exactly when the page has no element, and the world is unchanged. *)
Theorem get_font_families_used_distinct (w : world) (page : nat) (p : page_state) :
  pages w !! page = Some p -> page_closed p = false ->
  exists fonts,
    get_font_families_used page w = (Ok fonts, w)
    /\ NoDup fonts
    /\ (forall font, font ∈ fonts <->
          exists el, el ∈ querySelectorAll (page_document p) "*"
                     /\ Style.fontFamily (getComputedStyle el) = font)
    /\ (fonts = [] <-> querySelectorAll (page_document p) "*" = []).
Proof.
  intros Hp Hc. unfold get_font_families_used.
  rewrite bind_run, (live_page_run page p) by assumption. cbv beta iota.
  eexists. split; [reflexivity|].
  destruct (foldl_set_add
              (map (fun el => Style.fontFamily (getComputedStyle el))
                 (querySelectorAll (page_document p) "*")) [] (NoDup_nil_2))
    as [Hnd Hmem].
  split; [exact Hnd|].
  assert (Hiff : forall font,
            font ∈ foldl set_add []
              (map (fun el => Style.fontFamily (getComputedStyle el))
                 (querySelectorAll (page_document p) "*")) <->
            exists el, el ∈ querySelectorAll (page_document p) "*"
                       /\ Style.fontFamily (getComputedStyle el) = font).
  { intros font. rewrite Hmem, elem_of_nil, list_elem_of_fmap.
    split.
    - intros [[]|(el & -> & Hel)]. exists el. auto.
    - intros (el & Hel & <-). right. exists el. auto. }
  split; [exact Hiff|].
  split.
  - intros Hnil. destruct (querySelectorAll (page_document p) "*") as [|el els] eqn:Hq;
      [reflexivity|].
    exfalso. assert (Hin : Style.fontFamily (getComputedStyle el) ∈ @nil string).
    { rewrite <- Hnil. apply Hiff. exists el. split; [left|reflexivity]. }
    apply elem_of_nil in Hin. exact Hin.
  - intros ->. reflexivity.
Qed.

(** ** The header tests *)

(** X11: without provider failures [test_header_exists] passes exactly when
    both sites have a header, reports the reference site first when both
    lack one, writes no file, prints nothing and leaves both pages closed. *)
Theorem test_header_exists_outcome (P : provider) (viewport_name : string)
    (vp : viewport) (w : world) :
  (forall c, fault P c = None) ->
  let d_ref := render P (index_url REFERENCE_URL) (Some vp) in
  let d_target := render P (index_url TARGET_URL) (Some vp) in
  test_header_exists P viewport_name vp w
  = (if present d_ref "header" then
       if present d_target "header" then Ok tt
       else Raise (AssertionError "Target site missing header")
     else Raise (AssertionError "Reference site missing header"),
     mkWorld (fs w)
       (pages w ++ [mkPage (Some vp) d_ref true; mkPage (Some vp) d_target true])
       (stdout w)).
Proof.
  intros Hnf d_ref d_target. destruct w as [f ps out]. cbn [fs pages stdout].
  unfold test_header_exists.
  apply (two_page_test P Hnf (Some vp)). fold d_ref d_target.
  set (w1 := mkWorld f _ out).
  assert (H0 : pages w1 !! length ps = Some (mkPage (Some vp) d_ref false))
    by apply tail2_lookup_0.
  assert (H1 : pages w1 !! Datatypes.S (length ps)
               = Some (mkPage (Some vp) d_target false))
    by apply tail2_lookup_1.
  rewrite (assert_present_then _ _ _ _ _ _ H0 eq_refl). cbn [page_document].
  destruct (present d_ref "header"); [|reflexivity].
  rewrite (assert_present_last _ _ _ _ _ H1 eq_refl). cbn [page_document].
  destruct (present d_target "header"); reflexivity.
Qed.

(** X12: without provider failures the header-colour test reads both headers
    before it judges either, judges the reference first, and passes exactly
    when both backgrounds contain "rgb(18, 18, 18)"; a site without a
    header ends the test with a TypeError raised while the failure message
    is built. Nothing is written or printed and both pages end closed. *)
Theorem test_header_background_color_outcome (P : provider)
    (viewport_name : string) (vp : viewport) (w : world) :
  (forall c, fault P c = None) ->
  let d_ref := render P (index_url REFERENCE_URL) (Some vp) in
  let d_target := render P (index_url TARGET_URL) (Some vp) in
  let background d :=
    (fun header => Style.backgroundColor (getComputedStyle header))
      <$> querySelector d "header" in
  test_header_background_color P viewport_name vp w
  = (match background d_ref with
     | None => Raise TypeError
     | Some bg_ref =>
         if contains dark_gray bg_ref then
           match background d_target with
           | None => Raise TypeError
           | Some bg_target =>
               if contains dark_gray bg_target then Ok tt
               else Raise (AssertionError
                             ("Target header not dark gray: " +:+ bg_target))
           end
         else Raise (AssertionError
                       ("Reference header not dark gray: " +:+ bg_ref))
     end,
     mkWorld (fs w)
       (pages w ++ [mkPage (Some vp) d_ref true; mkPage (Some vp) d_target true])
       (stdout w)).
Proof.
  intros Hnf d_ref d_target background. destruct w as [f ps out].
  cbn [fs pages stdout]. unfold test_header_background_color.
  apply (two_page_test P Hnf (Some vp)). fold d_ref d_target.
  set (w1 := mkWorld f _ out).
  assert (H0 : pages w1 !! length ps = Some (mkPage (Some vp) d_ref false))
    by apply tail2_lookup_0.
  assert (H1 : pages w1 !! Datatypes.S (length ps)
               = Some (mkPage (Some vp) d_target false))
    by apply tail2_lookup_1.
  rewrite bind_run, (get_computed_styles_value _ _ _ _ H0 eq_refl). cbv beta iota.
  rewrite bind_run, (get_computed_styles_value _ _ _ _ H1 eq_refl). cbv beta iota.
  cbn [page_document]. unfold background.
  destruct (querySelector d_ref "header") as [h_ref|]; cbn [fmap option_fmap option_map and_then subscript];
    [|reflexivity].
  rewrite bind_run.
  destruct (contains dark_gray (Style.backgroundColor (getComputedStyle h_ref)));
    [|reflexivity].
  cbn [assert_]. unfold mret at 1, M_ret at 1. cbv beta iota.
  destruct (querySelector d_target "header") as [h_target|];
    cbn [fmap option_fmap option_map and_then subscript]; [|reflexivity].
  destruct (contains dark_gray (Style.backgroundColor (getComputedStyle h_target)));
    reflexivity.
Qed.

(** X13: without provider failures the fixed-header test passes exactly when
    the computed position of the target's first header is "fixed"; any
    other value fails the test with that value in the message, and a page
    without a header ends it with a TypeError. The page ends closed. *)
Theorem test_header_fixed_position_outcome (P : provider)
    (viewport_name : string) (vp : viewport) (w : world) :
  (forall c, fault P c = None) ->
  let d := render P (index_url TARGET_URL) (Some vp) in
  test_header_fixed_position_desktop P viewport_name vp w
  = (match querySelector d "header" with
     | None => Raise TypeError
     | Some header =>
         let position := Style.position (getComputedStyle header) in
         if String.eqb position "fixed" then Ok tt
         else Raise (AssertionError
                       ("Header should be fixed on " +:+ viewport_name
                        +:+ ", got " +:+ position))
     end,
     mkWorld (fs w) (pages w ++ [mkPage (Some vp) d true]) (stdout w)).
Proof.
  intros Hnf d. destruct w as [f ps out]. cbn [fs pages stdout].
  unfold test_header_fixed_position_desktop.
  apply (one_page_test P Hnf (Some vp)). fold d.
  assert (H0 : (ps ++ [mkPage (Some vp) d false]) !! length ps
               = Some (mkPage (Some vp) d false))
    by apply tail1_lookup.
  rewrite bind_run, (wait_for_load_state_run P Hnf _ _ _ _ _ H0 eq_refl).
  cbv beta iota.
  rewrite bind_run, (get_computed_styles_value _ _ (mkPage (Some vp) d false))
    by (exact H0 || reflexivity).
  cbv beta iota. cbn [page_document].
  destruct (querySelector d "header") as [header|];
    cbn [fmap option_fmap option_map subscript]; [|reflexivity].
  rewrite bind_run. unfold lift at 1. cbv beta iota zeta.
  destruct (String.eqb _ "fixed"); reflexivity.
Qed.

Lemma assert_then {A} (cond : bool) (msg : string) (k : M A) (w : world) :
  (_ ← assert_ cond (Ok msg); k) w
  = if cond then k w else (Raise (AssertionError msg), w).
Proof. rewrite bind_run. destruct cond; reflexivity. Qed.

(** X15: without provider failures the two-column test passes exactly when
    the first aside and the first article exist, are both visible and the
    aside's left edge is strictly smaller than the article's; otherwise it
    fails with the sidebar message, then the article message, then the
    ordering message. After the two visibility assertions the position
    guard is never false. The page ends closed, nothing is written. *)
Theorem test_homepage_two_column_outcome (P : provider)
    (viewport_name : string) (vp : viewport) (w : world) :
  (forall c, fault P c = None) ->
  let d := render P (index_url TARGET_URL) (Some vp) in
  let visible selector :=
    match querySelector d selector with
    | Some el => is_visible el
    | None => false
    end in
  exists r,
    test_homepage_two_column_layout P viewport_name vp w
    = (r, mkWorld (fs w) (pages w ++ [mkPage (Some vp) d true]) (stdout w))
    /\ (r = Ok tt <->
        exists aside article,
          querySelector d "aside" = Some aside
          /\ querySelector d "article" = Some article
          /\ is_visible aside = true /\ is_visible article = true
          /\ PyFloat.ltb (Rect.left (getBoundingClientRect aside))
               (Rect.left (getBoundingClientRect article)) = true)
    /\ (visible "aside" = false ->
        r = Raise (AssertionError ("Sidebar not visible on " +:+ viewport_name)))
    /\ (visible "aside" = true -> visible "article" = false ->
        r = Raise (AssertionError ("Article not visible on " +:+ viewport_name)))
    /\ (visible "aside" = true -> visible "article" = true -> r <> Ok tt ->
        r = Raise (AssertionError "Aside should be to the left of article")).
Proof.
  intros Hnf d visible. destruct w as [f ps out]. cbn [fs pages stdout].
  unfold test_homepage_two_column_layout.
  set (loaded := mkPage (Some vp) d false).
  assert (H0 : (ps ++ [loaded]) !! length ps = Some loaded) by apply tail1_lookup.
  assert (Hbody : forall r,
            (aside_visible ← check_element_visible (length ps) "aside";
             article_visible ← check_element_visible (length ps) "article";
             _ ← assert_ aside_visible
                   (Ok ("Sidebar not visible on " +:+ viewport_name));
             _ ← assert_ article_visible
                   (Ok ("Article not visible on " +:+ viewport_name));
             aside_pos ← get_element_position (length ps) "aside";
             article_pos ← get_element_position (length ps) "article";
             if truthy aside_pos && truthy article_pos then
               aside_left ← lift (subscript aside_pos Rect.left);
               article_left ← lift (subscript article_pos Rect.left);
               assert_ (PyFloat.ltb aside_left article_left)
                 (Ok "Aside should be to the left of article"%string)
             else mret tt) (mkWorld f (ps ++ [loaded]) out)
            = (r, mkWorld f (ps ++ [loaded]) out) ->
            test_homepage_two_column_layout P viewport_name vp (mkWorld f ps out)
            = (r, mkWorld f (ps ++ [mkPage (Some vp) d true]) out)).
  { intros r Hr. unfold test_homepage_two_column_layout.
    apply (one_page_test P Hnf (Some vp)). fold d. fold loaded.
    rewrite bind_run, (wait_for_load_state_run P Hnf _ _ _ _ _ H0 eq_refl).
    cbv beta iota. exact Hr. }
  unfold test_homepage_two_column_layout in Hbody.
  assert (Hvis : forall selector,
            check_element_visible (length ps) selector (mkWorld f (ps ++ [loaded]) out)
            = (Ok (visible selector), mkWorld f (ps ++ [loaded]) out)).
  { intros selector. rewrite check_element_visible_value. cbn [pages].
    rewrite H0. reflexivity. }
  assert (Hpos : forall selector,
            get_element_position (length ps) selector
              (mkWorld f (ps ++ [loaded]) out)
            = (Ok (getBoundingClientRect <$> querySelector d selector),
               mkWorld f (ps ++ [loaded]) out)).
  { intros selector.
    rewrite (get_element_position_value _ _ loaded) by (exact H0 || reflexivity).
    reflexivity. }
  unfold visible in *.
  destruct (querySelector d "aside") as [aside|] eqn:Ha.
  2:{ eexists. split.
      - apply Hbody. rewrite bind_run, Hvis, Ha. cbv beta iota.
        rewrite bind_run, Hvis. cbv beta iota. reflexivity.
      - repeat split; try discriminate; try congruence.
        intros (a & b & H & _). discriminate. }
  destruct (is_visible aside) eqn:Hva.
  2:{ eexists. split.
      - apply Hbody. rewrite bind_run, Hvis, Ha, Hva. cbv beta iota.
        rewrite bind_run, Hvis. cbv beta iota. reflexivity.
      - repeat split; try discriminate; try congruence.
        intros (a & b & H & _ & Hv & _). congruence. }
  destruct (querySelector d "article") as [article|] eqn:Hb.
  2:{ eexists. split.
      - apply Hbody. rewrite bind_run, Hvis, Ha, Hva. cbv beta iota.
        rewrite bind_run, Hvis, Hb. cbv beta iota. reflexivity.
      - repeat split; try discriminate; try congruence.
        intros (a & b & _ & H & _). discriminate. }
  destruct (is_visible article) eqn:Hvb.
  2:{ eexists. split.
      - apply Hbody. rewrite bind_run, Hvis, Ha, Hva. cbv beta iota.
        rewrite bind_run, Hvis, Hb, Hvb. cbv beta iota. reflexivity.
      - repeat split; try discriminate; try congruence.
        intros (a & b & _ & H & _ & Hv & _). congruence. }
  destruct (PyFloat.ltb (Rect.left (getBoundingClientRect aside))
              (Rect.left (getBoundingClientRect article))) eqn:Hlt.
  - eexists. split.
    + apply Hbody. rewrite bind_run, Hvis, Ha, Hva. cbv beta iota.
      rewrite bind_run, Hvis, Hb, Hvb. cbv beta iota.
      rewrite !assert_then. rewrite bind_run, Hpos, Ha. cbv beta iota.
      rewrite bind_run, Hpos, Hb. cbv beta iota.
      cbn [fmap option_fmap option_map truthy andb subscript].
      rewrite bind_run. unfold lift at 1. cbv beta iota.
      rewrite bind_run. unfold lift at 1. cbv beta iota. rewrite Hlt. reflexivity.
    + repeat split; try discriminate; try congruence.
      intros _. exists aside, article. auto.
  - eexists. split.
    + apply Hbody. rewrite bind_run, Hvis, Ha, Hva. cbv beta iota.
      rewrite bind_run, Hvis, Hb, Hvb. cbv beta iota.
      rewrite !assert_then. rewrite bind_run, Hpos, Ha. cbv beta iota.
      rewrite bind_run, Hpos, Hb. cbv beta iota.
      cbn [fmap option_fmap option_map truthy andb subscript].
      rewrite bind_run. unfold lift at 1. cbv beta iota.
      rewrite bind_run. unfold lift at 1. cbv beta iota. rewrite Hlt. reflexivity.
    + repeat split; try discriminate; try congruence.
      intros (a & b & E1 & E2 & _ & _ & E3). congruence.
Qed.

(** ** Release of the page of a one-page test *)

Lemma leaked_after_release_one (w w' : world) :
  length (pages w') = Datatypes.S (length (pages w)) ->
  page_closed <$> pages w' !! length (pages w) = Some true ->
  (forall i, (i < length (pages w))%nat ->
     page_closed <$> pages w' !! i = page_closed <$> pages w !! i) ->
  leaked w' = leaked w.
Proof.
  intros Hlen H0 Hold. unfold leaked. rewrite Hlen.
  replace (Datatypes.S (length (pages w))) with (length (pages w) + 1)%nat by lia.
  rewrite seq_app, filter_app. cbn [seq Nat.add].
  rewrite filter_cons_False by (rewrite H0; discriminate).
  rewrite filter_nil, app_nil_r.
  apply filter_agree. intros i Hi. apply elem_of_seq in Hi.
  rewrite Hold by lia. reflexivity.
Qed.

(** A test that opens one page and closes it in the [finally] clause of
    the [try] that holds the rest of its body leaves nothing more leaked
    than there was, whatever the body does (also when [new_page] itself
    fails), as long as the [close] does not fail. *)
Lemma one_page_releases {A} (P : provider) (vp : option viewport)
    (body : nat -> M A) (w : world) :
  (forall page, keeps_handles (body page)) ->
  fault P (Close (length (pages w))) = None ->
  leaked ((page ← new_page P vp; try_finally (body page) (close P page)) w).2
  = leaked w.
Proof.
  intros Hbody Hclose. destruct w as [f ps out]. cbn [pages] in *.
  rewrite bind_run. unfold new_page. cbn [pages fs stdout].
  destruct (fault P (NewPage (length ps))) as [e|]; [reflexivity|].
  cbv beta iota. rewrite try_finally_run.
  set (w1 := mkWorld f (ps ++ _) out).
  destruct (Hbody (length ps) w1) as [Hlen Hflags].
  assert (Hlen1 : length (pages w1) = Datatypes.S (length ps)).
  { unfold w1. cbn [pages]. rewrite length_app. cbn [length]. lia. }
  destruct (body (length ps) w1) as [r w2]. cbn [snd] in *.
  destruct (lookup_lt_is_Some_2 (pages w2) (length ps)) as [p Hp]; [lia|].
  unfold close. rewrite bind_run. unfold provider_call. rewrite Hclose.
  cbv beta iota. unfold mark_closed. rewrite Hp. cbn [snd].
  apply (leaked_after_release_one (mkWorld f ps out)); cbn [pages].
  - rewrite length_insert. lia.
  - rewrite list_lookup_insert_eq by lia. reflexivity.
  - intros i Hi. rewrite list_lookup_insert_ne by lia.
    rewrite Hflags. unfold w1. cbn [pages].
    rewrite lookup_app_l by exact Hi. reflexivity.
Qed.

Lemma keeps_get_computed_styles (page : nat) (selector : string) :
  keeps_handles (get_computed_styles page selector).
Proof.
  unfold get_computed_styles. apply keeps_bind; [apply keeps_live_page|].
  intros p. apply keeps_ret.
Qed.

Lemma keeps_get_element_position (page : nat) (selector : string) :
  keeps_handles (get_element_position page selector).
Proof.
  unfold get_element_position. apply keeps_bind; [apply keeps_live_page|].
  intros p. apply keeps_ret.
Qed.

Lemma keeps_check_element_visible (page : nat) (selector : string) :
  keeps_handles (check_element_visible page selector).
Proof.
  intros w. rewrite check_element_visible_value. apply same_handles_refl.
Qed.

Lemma keeps_for_each_M {A} (body : A -> M unit) (l : list A) :
  (forall a, keeps_handles (body a)) -> keeps_handles (for_each_M body l).
Proof.
  intros Hbody. induction l as [|a l IH]; cbn [for_each_M]; [apply keeps_ret|].
  apply keeps_bind; [apply Hbody|]. intros _. exact IH.
Qed.

Lemma keeps_evaluate_footer_background (page : nat) :
  keeps_handles (evaluate_footer_background page).
Proof.
  unfold evaluate_footer_background. apply keeps_bind; [apply keeps_live_page|].
  intros p. destruct (querySelector _ _); [apply keeps_ret | apply keeps_raise].
Qed.

Lemma keeps_evaluate_link_color (page : nat) :
  keeps_handles (evaluate_link_color page).
Proof.
  unfold evaluate_link_color. apply keeps_bind; [apply keeps_live_page|].
  intros p. apply keeps_ret.
Qed.

Ltac keeps_step :=
  first [ apply keeps_goto | apply keeps_wait_for_load_state
        | apply keeps_locator_count | apply keeps_assert
        | apply keeps_get_computed_styles | apply keeps_get_element_position
        | apply keeps_check_element_visible | apply keeps_live_page
        | apply keeps_evaluate_footer_background
        | apply keeps_evaluate_link_color
        | apply keeps_print | apply keeps_lift | apply keeps_ret
        | apply keeps_raise ].

Ltac keeps_body :=
  repeat first [ keeps_step | apply keeps_bind; [keeps_step | intros ?] ].

(** X24: every test that works on one page releases it on every path: when
    [close] does not fail, whatever [new_page], [goto], the waits and the
    assertions do, each of these tests leaves no page open that was not
    open before. *)
Theorem one_page_tests_release (P : provider) (scrollWidth : document -> Z)
    (viewport_name : string) (vp : viewport) (w : world) :
  fault P (Close (length (pages w))) = None ->
  leaked (test_header_fixed_position_desktop P viewport_name vp w).2 = leaked w
  /\ leaked (test_header_navigation_links P w).2 = leaked w
  /\ leaked (test_main_content_exists P viewport_name vp w).2 = leaked w
  /\ leaked (test_homepage_two_column_layout P viewport_name vp w).2 = leaked w
  /\ leaked (test_footer_exists P w).2 = leaked w
  /\ leaked (test_link_colors P w).2 = leaked w
  /\ leaked (test_content_readable_at_all_sizes P scrollWidth viewport_name vp w).2
     = leaked w
  /\ leaked (test_skip_link_exists P w).2 = leaked w
  /\ leaked (test_semantic_html_structure P w).2 = leaked w.
Proof.
  intros Hclose.
  repeat split.
  - apply one_page_releases; [|exact Hclose]. intros page. keeps_body.
  - apply one_page_releases; [|exact Hclose]. intros page.
    apply keeps_bind; [keeps_step|]. intros _.
    apply keeps_for_each_M. intros link. keeps_body.
  - apply one_page_releases; [|exact Hclose]. intros page. keeps_body.
  - apply one_page_releases; [|exact Hclose]. intros page. keeps_body.
    destruct (truthy _ && truthy _); keeps_body.
  - apply one_page_releases; [|exact Hclose]. intros page. keeps_body.
  - apply one_page_releases; [|exact Hclose]. intros page. keeps_body.
    destruct (truthy_string _); keeps_body.
  - apply one_page_releases; [|exact Hclose]. intros page. keeps_body.
  - apply one_page_releases; [|exact Hclose]. intros page. keeps_body.
  - apply one_page_releases; [|exact Hclose]. intros page. keeps_body.
Qed.

(** ** The heading test on present headings *)

(** X14: without provider failures, when both sites have a heading the
    heading test parses the reference size first, ends with the error of
    [float] when a size is not a number, and otherwise passes exactly when
    the two sizes differ by at most 2.0; when a heading is missing it
    passes without parsing anything. Both pages end closed. *)
Theorem test_heading_styles_outcome (P : provider)
    (py_float : string -> result PyFloat.float)
    (py_format : string -> PyFloat.float -> string) (w : world) :
  (forall c, fault P c = None) ->
  let d_ref := render P (index_url REFERENCE_URL) None in
  let d_target := render P (index_url TARGET_URL) None in
  let size_of h1 := py_float (replace "px" "" (Style.fontSize (getComputedStyle h1))) in
  test_heading_styles P py_float py_format w
  = (match querySelector d_ref "header h1", querySelector d_target "header h1" with
     | Some ref_h1, Some target_h1 =>
         match size_of ref_h1 with
         | Raise e => Raise e
         | Ok ref_size =>
             match size_of target_h1 with
             | Raise e => Raise e
             | Ok target_size =>
                 if PyFloat.leb (PyFloat.abs (PyFloat.sub ref_size target_size))
                      PyFloat.f2
                 then Ok tt
                 else Raise (AssertionError
                               ("H1 size mismatch: ref=" +:+ py_format "" ref_size
                                +:+ "px, target=" +:+ py_format "" target_size
                                +:+ "px"))
             end
         end
     | _, _ => Ok tt
     end,
     mkWorld (fs w)
       (pages w ++ [mkPage None d_ref true; mkPage None d_target true])
       (stdout w)).
Proof.
  intros Hnf d_ref d_target size_of. destruct w as [f ps out].
  cbn [fs pages stdout]. unfold test_heading_styles.
  apply (two_page_test P Hnf None). fold d_ref d_target.
  set (w1 := mkWorld f _ out).
  assert (H0 : pages w1 !! length ps = Some (mkPage None d_ref false))
    by apply tail2_lookup_0.
  assert (H1 : pages w1 !! Datatypes.S (length ps)
               = Some (mkPage None d_target false))
    by apply tail2_lookup_1.
  rewrite bind_run, (get_computed_styles_value _ _ _ _ H0 eq_refl). cbv beta iota.
  rewrite bind_run, (get_computed_styles_value _ _ _ _ H1 eq_refl). cbv beta iota.
  cbn [page_document].
  destruct (querySelector d_ref "header h1") as [ref_h1|];
    cbn [fmap option_fmap option_map truthy andb]; [|reflexivity].
  destruct (querySelector d_target "header h1") as [target_h1|];
    cbn [fmap option_fmap option_map truthy andb]; [|reflexivity].
  rewrite bind_run. unfold lift at 1, font_size_px at 1. cbn [subscript mbind result_bind].
  fold (size_of ref_h1). destruct (size_of ref_h1) as [ref_size|e]; [|reflexivity].
  cbv beta iota.
  rewrite bind_run. unfold lift at 1, font_size_px at 1. cbn [subscript mbind result_bind].
  fold (size_of target_h1). destruct (size_of target_h1) as [target_size|e];
    [|reflexivity].
  cbv beta iota. destruct (PyFloat.leb _ _); reflexivity.
Qed.

(** ** The name of a page's output directory *)

Lemma contains_char (c : ascii) (s : string) :
  contains (String c EmptyString) s = true -> In c (list_ascii_of_string s).
Proof.
  induction s as [|a s IH]; cbn [contains String.prefix list_ascii_of_string].
  - discriminate.
  - destruct (ascii_dec c a) as [->|Hne].
    + intros _. left. reflexivity.
    + cbn [orb]. intros H. right. apply IH. exact H.
Qed.

Lemma replace_from_no_slash (s : string) (skip : nat) :
  ~ In "/"%char (list_ascii_of_string (replace_from "/" "_" skip s)).
Proof.
  revert skip. induction s as [|c s IH]; intros skip; cbn [replace_from].
  - intros [].
  - destruct skip as [|k]; [|apply IH].
    cbn [String.prefix]. destruct (ascii_dec "/" c) as [<-|Hne].
    + destruct s; cbn [String.length Nat.sub String.app append list_ascii_of_string];
        intros [H|H]; try discriminate; exact (IH 0%nat H).
    + cbn [list_ascii_of_string]. intros [H|H]; [congruence | exact (IH 0%nat H)].
Qed.

Lemma replace_from_drops (old : string) (s : string) (skip : nat) (c : ascii) :
  In c (list_ascii_of_string (replace_from old "" skip s)) ->
  In c (list_ascii_of_string s).
Proof.
  revert skip. induction s as [|a s IH]; intros skip; cbn [replace_from].
  - intros [].
  - destruct skip as [|k].
    + destruct (String.prefix old (String a s)).
      * cbn [String.app append]. intros H. right. eapply IH. exact H.
      * cbn [list_ascii_of_string]. intros [H|H]; [left; exact H|].
        right. eapply IH. exact H.
    + intros H. right. eapply IH. exact H.
Qed.

(** X25: the directory name derived from a page path never contains a path
    separator, so a page's output directory
    [OUTPUT_DIR / page_name / viewport_name] is always a direct child of a
    direct child of [OUTPUT_DIR]. *)
Theorem page_name_of_no_separator (page_path : string) :
  contains "/" (page_name_of page_path) = false.
Proof.
  destruct (contains "/" (page_name_of page_path)) eqn:Hc; [|reflexivity].
  exfalso. apply contains_char in Hc. unfold page_name_of, replace in Hc.
  apply replace_from_drops in Hc. apply replace_from_no_slash in Hc. exact Hc.
Qed.

(** ** Release of the pages of a two-page test *)

Lemma two_page_releases {A} (P : provider) (vp : option viewport)
    (body : nat -> nat -> M A) (w : world) :
  (forall page_ref page_target, keeps_handles (body page_ref page_target)) ->
  fault P (NewPage (length (pages w))) = None ->
  fault P (NewPage (Datatypes.S (length (pages w)))) = None ->
  fault P (Close (length (pages w))) = None ->
  fault P (Close (Datatypes.S (length (pages w)))) = None ->
  leaked ((page_ref ← new_page P vp;
           page_target ← new_page P vp;
           try_finally (body page_ref page_target)
             (_ ← close P page_ref; close P page_target)) w).2
  = leaked w.
Proof.
  intros Hbody Hn0 Hn1 Hc0 Hc1. destruct w as [f ps out]. cbn [pages] in *.
  rewrite bind_run, (new_page_acquires P _ _ _ _ Hn0). cbv beta iota.
  rewrite bind_run, new_page_acquires
    by (rewrite length_app; cbn [length];
        replace (length ps + 1)%nat with (Datatypes.S (length ps)) by lia;
        exact Hn1).
  cbv beta iota. rewrite length_app, <- app_assoc. cbn [length app].
  replace (length ps + 1)%nat with (Datatypes.S (length ps)) by lia.
  apply (try_finally_releases P _ (mkWorld f ps out)); cbn [pages];
    [ apply Hbody
    | rewrite length_app; cbn [length]; lia
    | intros i Hi; rewrite lookup_app_l by exact Hi; reflexivity
    | exact Hc0 | exact Hc1].
Qed.

(** X23: in the header-colour test and the heading test, once both pages are
    acquired and as long as [close] does not fail, every outcome of the
    body (a failed assertion, the TypeError of a missing header, the error
    of [float], a failing [goto]) leaves both pages closed. *)
Theorem two_page_style_tests_release (P : provider)
    (py_float : string -> result PyFloat.float)
    (py_format : string -> PyFloat.float -> string)
    (viewport_name : string) (vp : viewport) (w : world) :
  fault P (NewPage (length (pages w))) = None ->
  fault P (NewPage (Datatypes.S (length (pages w)))) = None ->
  fault P (Close (length (pages w))) = None ->
  fault P (Close (Datatypes.S (length (pages w)))) = None ->
  leaked (test_header_background_color P viewport_name vp w).2 = leaked w
  /\ leaked (test_heading_styles P py_float py_format w).2 = leaked w.
Proof.
  intros Hn0 Hn1 Hc0 Hc1. split.
  - apply two_page_releases; try assumption. intros page_ref page_target.
    keeps_body.
  - apply two_page_releases; try assumption. intros page_ref page_target.
    keeps_body. destruct (truthy _ && truthy _); keeps_body.
Qed.


(** ** The statements at concrete inputs *)

Lemma getpixel_solid (sz : nat * nat) (p q : pixel) (x y : nat) :
  getpixel (solid sz p) x y = Ok q -> q = p.
Proof.
  unfold getpixel, solid. cbn [img_data img_width img_height].
  destruct (in_bounds _ x y); [|discriminate].
  destruct (replicate (area sz) p !! _) as [q'|] eqn:E; [|discriminate].
  apply lookup_replicate in E as [-> _]. intros H. injection H as <-. reflexivity.
Qed.

Lemma compare_screenshots_classifies_pixels_witness :
  exists res w' d r1 g1 b1 r2 g2 b2,
    compare_screenshots resample_nearest "reference.png" "target.png" "diff.png"
      (two_files checker checker_shifted) = (Ok res, w')
    /\ different_pixels res
       = Z.of_nat (length (filter (fun rt => 30 < pixel_diff rt.1 rt.2)
                             (zip (img_data checker) (img_data checker_shifted))))
    /\ fs w' !! "diff.png" = Some (ImageFile d)
    /\ size d = size checker
    /\ getpixel checker 1 0 = Ok (r1, g1, b1)
    /\ getpixel checker_shifted 1 0 = Ok (r2, g2, b2)
    /\ getpixel d 1 0
       = Ok (if 30 <? Z.abs (r1 - r2) + Z.abs (g1 - g2) + Z.abs (b1 - b2)
             then (255, 0, 0)
             else ((r2 + g2 + b2) `div` 3, (r2 + g2 + b2) `div` 3,
                   (r2 + g2 + b2) `div` 3)).
Proof.
  apply (compare_screenshots_classifies_pixels resample_nearest
           (two_files checker checker_shifted)
           "reference.png" "target.png" "diff.png" checker checker_shifted 1 0).
  - reflexivity.
  - reflexivity.
  - vm_compute. discriminate.
  - reflexivity.
  - reflexivity.
  - reflexivity.
  - cbn. lia.
  - cbn. lia.
Defined.

Lemma compare_screenshots_result_invariants_witness :
  0 <= different_pixels checker_result <= total_pixels checker_result
  /\ (exists q,
        PyFloat.int_true_divide
          (total_pixels checker_result - different_pixels checker_result)
          (total_pixels checker_result) = Ok q
        /\ similarity_percentage checker_result = PyFloat.mul q PyFloat.f100)
  /\ (passed checker_result = true <->
      PyFloat.geb (similarity_percentage checker_result) PyFloat.f95 = true).
Proof.
  apply (compare_screenshots_result_invariants resample_nearest
           (two_files checker checker_shifted)
           (compare_screenshots resample_nearest "reference.png" "target.png"
              "diff.png" (two_files checker checker_shifted)).2
           "reference.png" "target.png" "diff.png" checker_result).
  vm_compute. reflexivity.
Defined.

Lemma compare_screenshots_identical_witness :
  exists res w',
    compare_screenshots resample_nearest "reference.png" "target.png" "diff.png"
      (two_files checker checker) = (Ok res, w')
    /\ different_pixels res = 0
    /\ similarity_percentage res = PyFloat.f100
    /\ passed res = true.
Proof.
  apply (compare_screenshots_identical resample_nearest (two_files checker checker)
           "reference.png" "target.png" "diff.png" checker checker).
  - reflexivity.
  - reflexivity.
  - vm_compute. discriminate.
  - reflexivity.
  - reflexivity.
  - reflexivity.
  - reflexivity.
Defined.

(** Scenario C: a 100 by 100 black reference against a white candidate. *)
Lemma compare_screenshots_all_different_witness :
  exists res w',
    compare_screenshots resample_nearest "reference.png" "target.png" "diff.png"
      (two_files (solid (100, 100)%nat black) (solid (100, 100)%nat white))
    = (Ok res, w')
    /\ total_pixels res = 10000
    /\ different_pixels res = 10000
    /\ similarity_percentage res = PyFloat.zero
    /\ passed res = false.
Proof.
  destruct (compare_screenshots_all_different resample_nearest
              (two_files (solid (100, 100)%nat black) (solid (100, 100)%nat white))
              "reference.png" "target.png" "diff.png"
              (solid (100, 100)%nat black) (solid (100, 100)%nat white))
    as (res & w' & Hrun & Htotal & Hdiff & Hsim & Hpass).
  - reflexivity.
  - reflexivity.
  - vm_compute. discriminate.
  - apply solid_valid.
  - apply solid_valid.
  - reflexivity.
  - intros x y rp tp _ _ Hr Ht.
    apply getpixel_solid in Hr. apply getpixel_solid in Ht. subst rp tp.
    vm_compute. reflexivity.
  - exists res, w'. rewrite Hdiff, Htotal.
    split; [exact Hrun|]. split; [reflexivity|]. split; [reflexivity|].
    split; [exact Hsim | exact Hpass].
Defined.

(** A 1 by 1 white candidate against the 2 by 2 checker. *)
Lemma compare_screenshots_normalization_witness :
  exists resampled res w' d,
    resize resample_nearest (solid (1, 1)%nat white) (size checker) LANCZOS
    = Ok resampled
    /\ size resampled = size checker
    /\ getpixel resampled 1 0
       = Ok (resample_nearest (solid (1, 1)%nat white) (size checker) LANCZOS 1 0)
    /\ compare_screenshots resample_nearest "reference.png" "target.png" "diff.png"
         (two_files checker (solid (1, 1)%nat white))
       = compare_images checker resampled "diff.png"
           (two_files checker (solid (1, 1)%nat white))
    /\ compare_screenshots resample_nearest "reference.png" "target.png" "diff.png"
         (two_files checker (solid (1, 1)%nat white)) = (Ok res, w')
    /\ fs w' !! "diff.png" = Some (ImageFile d)
    /\ getpixel d 1 0
       = Ok (visualize (200, 0, 0)
               (resample_nearest (solid (1, 1)%nat white) (size checker)
                  LANCZOS 1 0))
    /\ total_pixels res
       = Z.of_nat (img_width checker) * Z.of_nat (img_height checker).
Proof.
  destruct (compare_screenshots_normalization resample_nearest
              (two_files checker (solid (1, 1)%nat white))
              "reference.png" "target.png" "diff.png"
              checker (solid (1, 1)%nat white) eq_refl eq_refl)
    as (Hresized & _ & Htotal).
  destruct Hresized as (resampled & Hresize & Hsize & _ & Hpix & Hrun & Hdiff);
    [vm_compute; discriminate|].
  destruct Hdiff as (res & w' & d & Hres & Hd & _ & Hshown);
    [reflexivity | vm_compute; discriminate |].
  exists resampled, res, w', d.
  split; [exact Hresize|]. split; [exact Hsize|].
  split; [apply Hpix; cbn; lia|]. split; [exact Hrun|].
  split; [exact Hres|]. split; [exact Hd|].
  split; [apply Hshown; [cbn; lia | cbn; lia | reflexivity]|].
  apply (Htotal res w'). exact Hres.
Defined.

Lemma absent_element_outcomes_witness :
  get_computed_styles 0 "header" one_page_world = (Ok None, one_page_world)
  /\ get_element_position 0 "header" one_page_world = (Ok None, one_page_world)
  /\ (querySelector (render two_checkers (index_url REFERENCE_URL) None) "header h1"
      = None
      \/ querySelector (render two_checkers (index_url TARGET_URL) None) "header h1"
         = None ->
      (test_heading_styles two_checkers no_float no_format one_page_world).1 = Ok tt)
  /\ (querySelector (render two_checkers (index_url TARGET_URL) (Some desktop))
        "aside" = None ->
      (test_homepage_two_column_layout two_checkers "desktop" desktop
         one_page_world).1
      = Raise (AssertionError ("Sidebar not visible on " +:+ "desktop"))).
Proof.
  apply (absent_element_outcomes two_checkers no_float no_format one_page_world
           0 (mkPage None (bare_document checker) false) "header"
           "desktop" desktop).
  - intros c. reflexivity.
  - reflexivity.
  - reflexivity.
  - reflexivity.
Defined.

Lemma screenshot_shortfall_not_fatal_witness :
  exists res w' page_ref page_target,
    test_page_screenshot_similarity resample_nearest two_checkers no_format
      "index.html" "mobile" mobile empty_world = (Ok tt, w')
    /\ fs w' !! path_join
                  (path_join (path_join OUTPUT_DIR (page_name_of "index.html"))
                     "mobile") "comparison_result.json"
       = Some (ResultFile res)
    /\ stdout w'
       = stdout empty_world ++ report_lines no_format "index.html" "mobile" res
    /\ pages w' = pages empty_world ++ [page_ref; page_target]
    /\ page_closed page_ref = true /\ page_closed page_target = true.
Proof.
  apply (screenshot_shortfall_not_fatal resample_nearest two_checkers no_format
           "index.html" "mobile" mobile empty_world).
  - intros c. reflexivity.
  - intros url. cbn. destruct (String.prefix REFERENCE_URL url); cbn;
      repeat split; lia.
  - left. reflexivity.
  - intros name. cbn. rewrite lookup_empty. discriminate.
Defined.

Lemma compare_screenshots_division_witness :
  ((0 < img_width checker)%nat /\ (0 < img_height checker)%nat
   /\ exists res w',
        compare_screenshots resample_nearest "reference.png" "target.png"
          "diff.png" (two_files checker checker_shifted) = (Ok res, w')
        /\ total_pixels res
           = Z.of_nat (img_width checker) * Z.of_nat (img_height checker)
        /\ 0 < total_pixels res)
  /\ (compare_screenshots resample_nearest "reference.png" "target.png"
        "diff.png" (two_files checker checker_shifted)).1
     ≠ Raise ZeroDivisionError.
Proof.
  destruct (compare_screenshots_division resample_nearest
              (two_files checker checker_shifted)
              "reference.png" "target.png" "diff.png") as (Hsafe & _ & Hnever).
  split; [|exact Hnever].
  apply (Hsafe checker checker_shifted).
  - reflexivity.
  - reflexivity.
  - vm_compute. discriminate.
  - reflexivity.
  - reflexivity.
Defined.

(** The screenshot test on two captures that are only 75% similar: the
    stored result has [passed] false and the test passes. *)
Example screenshot_test_below_threshold :
  let run := test_page_screenshot_similarity resample_nearest two_checkers
               no_format "index.html" "mobile" mobile empty_world in
  run.1 = Ok tt
  /\ fs run.2 !! "/Users/bino/Downloads/cattaneo/test_results/index/mobile/comparison_result.json"
     = Some (ResultFile checker_result)
  /\ passed checker_result = false
  /\ leaked run.2 = [].
Proof. vm_compute. auto. Qed.

(** ** More statements at concrete inputs *)

Lemma max_difference_is_maximum_witness :
  0 <= max_difference checker_result
  /\ (forall x y rp tp,
        getpixel checker x y = Ok rp -> getpixel checker_shifted x y = Ok tp ->
        pixel_diff rp tp <= max_difference checker_result)
  /\ (0 < max_difference checker_result ->
      exists x y rp tp,
        getpixel checker x y = Ok rp /\ getpixel checker_shifted x y = Ok tp
        /\ pixel_diff rp tp = max_difference checker_result)
  /\ (eight_bit checker -> eight_bit checker_shifted ->
      max_difference checker_result <= 765).
Proof.
  apply (max_difference_is_maximum resample_nearest
           (two_files checker checker_shifted) compared_world
           "reference.png" "target.png" "diff.png" checker checker_shifted).
  - reflexivity.
  - reflexivity.
  - reflexivity.
  - reflexivity.
  - reflexivity.
  - vm_compute. reflexivity.
Defined.

Lemma no_difference_iff_max_within_threshold_witness :
  different_pixels checker_result = 0 <-> max_difference checker_result <= 30.
Proof.
  apply (no_difference_iff_max_within_threshold resample_nearest
           (two_files checker checker_shifted) compared_world
           "reference.png" "target.png" "diff.png" checker checker_shifted).
  - reflexivity.
  - reflexivity.
  - reflexivity.
  - reflexivity.
  - reflexivity.
  - vm_compute. reflexivity.
Defined.

Lemma compare_screenshots_symmetric_witness :
  (compare_screenshots resample_nearest "reference.png" "target.png" "diff.png"
     (two_files checker checker_shifted)).1
  = (compare_screenshots resample_nearest "target.png" "reference.png" "diff.png"
       (two_files checker checker_shifted)).1.
Proof.
  assert (H1 : compare_screenshots resample_nearest "reference.png" "target.png"
                 "diff.png" (two_files checker checker_shifted)
               = (Ok checker_result, compared_world))
    by (vm_compute; reflexivity).
  assert (H2 : compare_screenshots resample_nearest "target.png" "reference.png"
                 "diff.png" (two_files checker checker_shifted)
               = (Ok checker_result,
                  (compare_screenshots resample_nearest "target.png"
                     "reference.png" "diff.png"
                     (two_files checker checker_shifted)).2))
    by (vm_compute; reflexivity).
  rewrite H1, H2. cbn [fst]. apply (f_equal (@Ok DiffResult)).
  apply (compare_screenshots_symmetric resample_nearest
           (two_files checker checker_shifted) _ _
           "reference.png" "target.png" "diff.png" checker checker_shifted
           checker_result checker_result
           eq_refl eq_refl eq_refl eq_refl eq_refl H1 H2).
Defined.

Lemma diff_image_contents_witness :
  exists d,
    fs compared_world !! "diff.png" = Some (ImageFile d)
    /\ valid_image d
    /\ (forall p, p ∈ img_data d -> p = red \/ gray_pixel p)
    /\ Z.of_nat (length (filter (fun p => p = red) (img_data d)))
       = different_pixels checker_result
    /\ (eight_bit checker_shifted -> eight_bit d).
Proof.
  apply (diff_image_contents resample_nearest
           (two_files checker checker_shifted) compared_world
           "reference.png" "target.png" "diff.png" checker checker_shifted).
  - reflexivity.
  - reflexivity.
  - reflexivity.
  - reflexivity.
  - reflexivity.
  - vm_compute. reflexivity.
Defined.

Lemma compare_screenshots_again_witness :
  compare_screenshots resample_nearest "reference.png" "target.png" "diff.png"
    compared_world
  = (Ok checker_result, compared_world).
Proof.
  apply (compare_screenshots_again resample_nearest
           (two_files checker checker_shifted)).
  - discriminate.
  - discriminate.
  - vm_compute. reflexivity.
Defined.

Lemma get_font_families_used_distinct_witness :
  exists fonts,
    get_font_families_used 0 home_world = (Ok fonts, home_world)
    /\ NoDup fonts
    /\ (forall font, font ∈ fonts <->
          exists el, el ∈ querySelectorAll home_document "*"
                     /\ Style.fontFamily (getComputedStyle el) = font)
    /\ (fonts = [] <-> querySelectorAll home_document "*" = []).
Proof.
  apply (get_font_families_used_distinct home_world 0
           (mkPage None home_document false)).
  - reflexivity.
  - reflexivity.
Defined.

Lemma test_header_exists_outcome_witness :
  test_header_exists home_site "desktop" desktop empty_world
  = (Ok tt,
     mkWorld ∅ [mkPage (Some desktop) home_document true;
                mkPage (Some desktop) home_document true] []).
Proof.
  apply (test_header_exists_outcome home_site "desktop" desktop empty_world).
  intros c. reflexivity.
Defined.

Lemma test_header_background_color_outcome_witness :
  test_header_background_color home_site "desktop" desktop empty_world
  = (Ok tt,
     mkWorld ∅ [mkPage (Some desktop) home_document true;
                mkPage (Some desktop) home_document true] []).
Proof.
  apply (test_header_background_color_outcome home_site "desktop" desktop
           empty_world).
  intros c. reflexivity.
Defined.

Lemma test_header_fixed_position_outcome_witness :
  test_header_fixed_position_desktop home_site "desktop" desktop empty_world
  = (Ok tt, mkWorld ∅ [mkPage (Some desktop) home_document true] []).
Proof.
  apply (test_header_fixed_position_outcome home_site "desktop" desktop
           empty_world).
  intros c. reflexivity.
Defined.

Lemma test_heading_styles_outcome_witness :
  test_heading_styles home_site no_float no_format empty_world
  = (Raise ValueError,
     mkWorld ∅ [mkPage None home_document true;
                mkPage None home_document true] []).
Proof.
  apply (test_heading_styles_outcome home_site no_float no_format empty_world).
  intros c. reflexivity.
Defined.

Lemma test_homepage_two_column_outcome_witness :
  exists r,
    test_homepage_two_column_layout home_site "desktop" desktop empty_world
    = (r, mkWorld ∅ [mkPage (Some desktop) home_document true] [])
    /\ (r = Ok tt <->
        exists aside article,
          querySelector home_document "aside" = Some aside
          /\ querySelector home_document "article" = Some article
          /\ is_visible aside = true /\ is_visible article = true
          /\ PyFloat.ltb (Rect.left (getBoundingClientRect aside))
               (Rect.left (getBoundingClientRect article)) = true).
Proof.
  destruct (test_homepage_two_column_outcome home_site "desktop" desktop
              empty_world (fun c => eq_refl)) as (r & Hrun & Hpass & _).
  exists r. split; [exact Hrun | exact Hpass].
Defined.

Lemma test_header_navigation_links_outcome_witness :
  (test_header_navigation_links home_site empty_world).1 = Ok tt.
Proof.
  destruct (test_header_navigation_links_outcome home_site empty_world
              (fun c => eq_refl)) as [_ [_ Hpass]].
  apply Hpass. repeat constructor.
Defined.

Lemma test_semantic_html_structure_outcome_witness :
  (test_semantic_html_structure two_checkers empty_world).1
  = Raise (AssertionError "Missing header element").
Proof.
  apply (test_semantic_html_structure_outcome two_checkers empty_world).
  intros c. reflexivity.
Defined.

Lemma test_content_readable_outcome_witness :
  (test_content_readable_at_all_sizes home_site (fun _ => 1500) "desktop" desktop
     empty_world).1
  = Raise (AssertionError
             "Horizontal overflow on desktop: body=1500px, viewport=1440px").
Proof.
  apply (test_content_readable_outcome home_site (fun _ => 1500) "desktop" desktop
           empty_world).
  - intros c. reflexivity.
  - reflexivity.
Defined.

Lemma test_footer_exists_outcome_witness :
  (test_footer_exists two_checkers empty_world).1
  = Raise (AssertionError "Footer missing").
Proof.
  apply (test_footer_exists_outcome two_checkers empty_world).
  intros c. reflexivity.
Defined.

Lemma test_link_colors_outcome_witness :
  (test_link_colors home_site empty_world).1 = Ok tt.
Proof.
  apply (test_link_colors_outcome home_site empty_world).
  - intros c. reflexivity.
  - discriminate.
Defined.

Lemma test_header_exists_releases_witness :
  leaked (test_header_exists home_site "mobile" mobile empty_world).2
  = leaked empty_world.
Proof.
  apply (test_header_exists_releases home_site "mobile" mobile empty_world);
    reflexivity.
Defined.

Lemma test_page_screenshot_similarity_releases_witness :
  leaked (test_page_screenshot_similarity resample_nearest home_site no_format
            "index.html" "mobile" mobile empty_world).2
  = leaked empty_world.
Proof.
  apply (test_page_screenshot_similarity_releases resample_nearest home_site
           no_format "index.html" "mobile" mobile empty_world);
    try reflexivity.
  left. reflexivity.
Defined.

Lemma two_page_style_tests_release_witness :
  leaked (test_header_background_color home_site "mobile" mobile empty_world).2
  = leaked empty_world
  /\ leaked (test_heading_styles home_site no_float no_format empty_world).2
     = leaked empty_world.
Proof.
  apply (two_page_style_tests_release home_site no_float no_format "mobile" mobile
           empty_world); reflexivity.
Defined.

Lemma one_page_tests_release_witness :
  leaked (test_header_fixed_position_desktop home_site "desktop" desktop
            empty_world).2 = leaked empty_world
  /\ leaked (test_footer_exists home_site empty_world).2 = leaked empty_world.
Proof.
  destruct (one_page_tests_release home_site (fun _ => 1500) "desktop" desktop
              empty_world eq_refl) as (H1 & _ & _ & _ & H5 & _).
  split; [exact H1 | exact H5].
Defined.
